(** * AI Fitness Advisor: the decision core and its front ends

    A shallow embedding of [fitness_advisor.py] (the LLM-backed agent with its
    rule-based fallback), [api_server.py] (the HTTP handlers and the
    [FallbackAdvisor]) and the part of [app.py] that builds the agent.

    Conventions.
    - Python [int] is [Z]; Python [float] is an IEEE-754 binary64 value, a
      [spec_float] compared with [SFltb] (so NaN and the infinities behave as
      they do in Python).
    - Python [str] is a [string] of UTF-8 bytes.  An f-string that embeds a
      [float] is kept as its sequence of pieces ([JoinedStr]): the shortest
      round-trip rendering of a float is not modelled.
    - Python [dict] with string keys is [gmap string value].
    - A call that may raise returns a [result]; [try]/[except] clauses are
      written with [try_except] and the class test of each handler.
    - [print] calls write to the terminal only and are left out.
    - [datetime.datetime.now()] is an input: every function that reads the
      clock takes the reading as an argument.
    - The remote model service has a state of its own.  Code that calls it
      is written in state-passing style over the list of the calls made so
      far ([stateful], [openai.io]), so that every call shows in the result.
    - The interpreter's limits that [json.loads] can meet (the room left for
      nested calls, the longest integer literal converted) are an input
      too ([sys.limits]). *)

From Stdlib Require Import ZArith String Ascii List Bool Lia DecimalString.
From Corelib Require Import SpecFloat.
From stdpp Require Import gmap strings list.

Set Warnings "-register-all".
Local Open Scope string_scope.
Local Open Scope Z_scope.

(** ** Python run-time model *)

Module py.

(** The exception classes the three files can meet.  [KeyboardInterrupt] and
    [SystemExit] derive from [BaseException] only; every other class derives
    from [Exception].  [JSONDecodeError] is a subclass of [ValueError]; a
    handler for [JSONDecodeError] does not catch a plain [ValueError]. *)
Inductive exn :=
| ImportError (msg : string)
| JSONDecodeError
| APIConnectionError
| APITimeoutError
| AuthenticationError
| APIStatusError (status_code : Z)
| IndexError
| AttributeError
| TypeError
| RecursionError
| ValueError
| OpenAIError
| HTTPException (status_code : Z) (detail : exn)
| KeyboardInterrupt
| SystemExit.

Definition is_Exception (e : exn) : bool :=
  match e with
  | KeyboardInterrupt | SystemExit => false
  | _ => true
  end.

Definition is_ImportError (e : exn) : bool :=
  match e with ImportError _ => true | _ => false end.

Definition is_JSONDecodeError (e : exn) : bool :=
  match e with JSONDecodeError => true | _ => false end.

Inductive result (A : Type) :=
| Ok (a : A)
| Raise (e : exn).
Arguments Ok {A} a.
Arguments Raise {A} e.

Definition bind {A B} (c : result A) (k : A -> result B) : result B :=
  match c with
  | Ok a => k a
  | Raise e => Raise e
  end.

(** [try: body  except C as e: handler e], where [catches] is the class test
    of [C]. *)
Definition try_except {A} (body : result A) (catches : exn -> bool)
    (handler : exn -> result A) : result A :=
  match body with
  | Ok a => Ok a
  | Raise e => if catches e then handler e else Raise e
  end.

(** *** Code with a state

    A computation that reads and updates a state of type [S], and returns a
    value or raises.  The state it leaves is kept when it raises, and a
    handler runs in the state the body left. *)

Definition stateful (S A : Type) : Type := S -> result A * S.

Definition st_ret {S A} (a : A) : stateful S A := fun s => (Ok a, s).

Definition st_bind {S A B} (c : stateful S A) (k : A -> stateful S B) : stateful S B :=
  fun s =>
    match c s with
    | (Ok a, s') => k a s'
    | (Raise e, s') => (Raise e, s')
    end.

(** A step that leaves the state alone. *)
Definition lift {S A} (r : result A) : stateful S A := fun s => (r, s).

Definition st_try_except {S A} (body : stateful S A) (catches : exn -> bool)
    (handler : exn -> stateful S A) : stateful S A :=
  fun s =>
    match body s with
    | (Ok a, s') => (Ok a, s')
    | (Raise e, s') => if catches e then handler e s' else (Raise e, s')
    end.

(** *** Floats *)

Definition prec : Z := 53.
Definition emax : Z := 1024.

(** [float(n)] for an integer of magnitude below [2^53] (exact). *)
Definition float_of_int (n : Z) : spec_float := binary_normalize prec emax n 0 false.

(** [x < n] for a float [x] and a small integer literal [n]: Python compares
    the two exactly, which for [|n| < 2^53] is the IEEE comparison with
    [float(n)]; it is [False] when [x] is NaN. *)
Definition float_lt_int (x : spec_float) (n : Z) : bool := SFltb x (float_of_int n).

(** The float nearest to [m * 10^e] (ties to even), as [float("...")] and a
    float literal give it.  For a negative exponent the quotient is taken
    with at least 55 significant bits and a sticky bit before rounding. *)
Definition float_of_decimal (neg : bool) (m : Z) (e : Z) : spec_float :=
  if m <=? 0 then S754_zero neg
  else if 0 <=? e then
    binary_normalize prec emax (if neg then - (m * 10 ^ e) else m * 10 ^ e) 0 neg
  else
    let d := 10 ^ (- e) in
    let k := Z.max 0 (Z.log2 d - Z.log2 m + 56) in
    let q := (m * 2 ^ k) / d in
    let r := (m * 2 ^ k) mod d in
    let q' := 2 * q + (if r =? 0 then 0 else 1) in
    binary_normalize prec emax (if neg then - q' else q') (- k - 1) neg.

(** *** Strings *)

Definition str_of_int (n : Z) : string := NilZero.string_of_int (Z.to_int n).

Fixpoint repeat_char (c : ascii) (n : nat) : string :=
  match n with
  | O => EmptyString
  | S n' => String c (repeat_char c n')
  end.

(** [s.zfill(w)] for an unsigned numeral [s]. *)
Definition zfill (w : nat) (s : string) : string :=
  repeat_char "0"%char (w - String.length s) +:+ s.

Fixpoint find_from (c : ascii) (s : string) (i : Z) : Z :=
  match s with
  | EmptyString => -1
  | String a s' => if Ascii.eqb a c then i else find_from c s' (i + 1)
  end.

(** [s.find(c)] for a one-character [c]: the lowest index, or [-1]. *)
Definition find (s : string) (c : ascii) : Z := find_from c s 0.

Fixpoint rfind_from (c : ascii) (s : string) (i : Z) : Z :=
  match s with
  | EmptyString => -1
  | String a s' =>
      let r := rfind_from c s' (i + 1) in
      if r =? -1 then (if Ascii.eqb a c then i else -1) else r
  end.

(** [s.rfind(c)] for a one-character [c]: the highest index, or [-1]. *)
Definition rfind (s : string) (c : ascii) : Z := rfind_from c s 0.

(** [s[lo:hi]]: a negative bound counts from the end, both are clamped to
    [0 .. len(s)], and an empty range gives the empty string. *)
Definition slice (s : string) (lo hi : Z) : string :=
  let n := Z.of_nat (String.length s) in
  let clamp i := if i <? 0 then Z.max (i + n) 0 else Z.min i n in
  substring (Z.to_nat (clamp lo)) (Z.to_nat (clamp hi - clamp lo)) s.

(** A double quote.  String literals below write it as a backquote, and
    [dq] puts the double quotes back. *)
Definition dquote : ascii := Ascii false true false false false true false false.

Fixpoint dq (s : string) : string :=
  match s with
  | String c rest => String (if Ascii.eqb c "`" then dquote else c) (dq rest)
  | EmptyString => EmptyString
  end.

(** The pieces of a formatted text: constant text, and values whose
    rendering ([str] of an integer, a float, a string or an exception) is
    left as it is. *)
Inductive fpiece :=
| Constant (s : string)
| FormattedInt (n : Z)
| FormattedFloat (x : spec_float)
| FormattedStr (s : string)
| FormattedExn (e : exn).

Definition JoinedStr := list fpiece.

(** *** Values *)

Inductive value :=
| VNone
| VBool (b : bool)
| VInt (n : Z)
| VFloat (x : spec_float)
| VStr (s : string)
| VFStr (s : JoinedStr)
| VList (l : list value)
| VDict (d : gmap string value).

Abbreviation dict := (gmap string value).

(** [Optional[str]] arguments as values. *)
Definition of_optional_str (o : option string) : value :=
  match o with
  | Some s => VStr s
  | None => VNone
  end.

Definition of_optional_int (o : option Z) : value :=
  match o with
  | Some n => VInt n
  | None => VNone
  end.

(** Truth value of an [Optional[str]]: [None] and the empty string are false. *)
Definition truthy_str (o : option string) : bool :=
  match o with
  | Some EmptyString | None => false
  | Some _ => true
  end.

(** [dict(pairs)] and a [dict] display: a later pair replaces an earlier one
    with the same key. *)
Definition dict_of_pairs (pairs : list (string * value)) : dict :=
  fold_left (fun d kv => <[kv.1 := kv.2]> d) pairs ∅.

(** [d[key] = x] on a value: only a [dict] takes a string key. *)
Definition setitem (v : value) (key : string) (x : value) : result dict :=
  match v with
  | VDict d => Ok (<[key := x]> d)
  | _ => Raise TypeError
  end.

(** [key in d]. *)
Definition contains (d : dict) (key : string) : bool := bool_decide (is_Some (d !! key)).

(** *** Clock readings *)

Record datetime := {
  year : Z; month : Z; day : Z;
  hour : Z; minute : Z; second : Z; microsecond : Z
}.

Definition pad (w : nat) (n : Z) : string := zfill w (str_of_int n).

(** [t.isoformat()]. *)
Definition isoformat (t : datetime) : string :=
  pad 4 (year t) +:+ "-" +:+ pad 2 (month t) +:+ "-" +:+ pad 2 (day t) +:+ "T" +:+
  pad 2 (hour t) +:+ ":" +:+ pad 2 (minute t) +:+ ":" +:+ pad 2 (second t) +:+
  (if microsecond t =? 0 then "" else "." +:+ pad 6 (microsecond t)).

(** [t.strftime('%Y-%m-%d %H:%M')]. *)
Definition strftime_Ymd_HM (t : datetime) : string :=
  pad 4 (year t) +:+ "-" +:+ pad 2 (month t) +:+ "-" +:+ pad 2 (day t) +:+ " " +:+
  pad 2 (hour t) +:+ ":" +:+ pad 2 (minute t).

(** [t.strftime("%Y%m%d%H%M%S")]. *)
Definition strftime_YmdHMS (t : datetime) : string :=
  pad 4 (year t) +:+ pad 2 (month t) +:+ pad 2 (day t) +:+
  pad 2 (hour t) +:+ pad 2 (minute t) +:+ pad 2 (second t).

End py.

Export py.

#[global] Instance result_ret : MRet result := @Ok.
#[global] Instance result_bind : MBind result := fun A B k c => py.bind c k.
#[global] Instance stateful_ret {S} : MRet (stateful S) := @st_ret S.
#[global] Instance stateful_bind {S} : MBind (stateful S) := fun A B k c => st_bind c k.

(** ** The interpreter's limits

    Two limits of the interpreter decide what [json.loads] does with a text
    that the JSON grammar accepts.  Its scanner enters one nested call for
    each array or object it opens, and raises [RecursionError] when the
    interpreter has no room left for one; [recursion_room] is the number of
    nested calls the scanner can still enter when [json.loads] is called (the
    recursion limit, 1000 unless changed, less the calls already on the
    stack).  An integer literal is converted by [int], which raises
    [ValueError] when it has more than [int_max_str_digits] digits
    ([sys.get_int_max_str_digits()]: 4300 unless changed, never set below
    640, and 0 for no limit). *)

Module sys.

Record limits := { recursion_room : nat; int_max_str_digits : nat }.

(** Literals of up to this many digits are converted without a check. *)
Definition int_str_digits_threshold : nat := 640.

End sys.

(** ** The [json] decoder

    [json.loads] as the standard library's decoder reads a text: the JSON
    grammar with whitespace [" \t\n\r"], strict strings (no raw control
    character), integers of any size, numbers with a fraction or an exponent
    as floats, and the constants [NaN], [Infinity] and [-Infinity].  A
    repeated key keeps its last value.  The text is read from left to right,
    and the first thing that goes wrong decides the outcome: a text the
    grammar rejects raises [JSONDecodeError], an array or object opened with
    no room left for a nested call raises [RecursionError], an integer
    literal longer than the interpreter converts raises [ValueError].  The
    recursion of the model is bounded by fuel; the decoder is started with
    more fuel than the text can use. *)

Module json.

(** The outcome of a scan: a value and the text left, a text the grammar
    rejects, an exception of the interpreter, or the model's fuel used up. *)
Inductive scan (A : Type) :=
| Done (a : A) (rest : string)
| Fail
| Error (e : exn)
| OutOfFuel.
Arguments Done {A} a rest.
Arguments Fail {A}.
Arguments Error {A} e.
Arguments OutOfFuel {A}.

Definition is_ws (c : ascii) : bool :=
  Ascii.eqb c " " || Ascii.eqb c "009" || Ascii.eqb c "010" || Ascii.eqb c "013".

Fixpoint skip_ws (s : string) : string :=
  match s with
  | String c rest => if is_ws c then skip_ws rest else s
  | EmptyString => s
  end.

Definition is_digit (c : ascii) : bool :=
  (48 <=? Z.of_N (N_of_ascii c)) && (Z.of_N (N_of_ascii c) <=? 57).

Definition digit_val (c : ascii) : Z := Z.of_N (N_of_ascii c) - 48.

Definition hex_val (c : ascii) : option Z :=
  let n := Z.of_N (N_of_ascii c) in
  if (48 <=? n) && (n <=? 57) then Some (n - 48)
  else if (65 <=? n) && (n <=? 70) then Some (n - 55)
  else if (97 <=? n) && (n <=? 102) then Some (n - 87)
  else None.

(** Four hexadecimal digits, as after [\u]. *)
Definition decode_uXXXX (s : string) : option (Z * string) :=
  match s with
  | String a (String b (String c (String d rest))) =>
      match hex_val a, hex_val b, hex_val c, hex_val d with
      | Some x, Some y, Some z, Some w => Some (((x * 16 + y) * 16 + z) * 16 + w, rest)
      | _, _, _, _ => None
      end
  | _ => None
  end.

Definition byte (n : Z) : ascii := ascii_of_N (Z.to_N n).

(** The UTF-8 bytes of a code point (a lone surrogate is written with the
    same three-byte pattern). *)
Definition utf8 (cp : Z) : string :=
  if cp <? 128 then String (byte cp) EmptyString
  else if cp <? 2048 then
    String (byte (192 + cp / 64)) (String (byte (128 + cp mod 64)) EmptyString)
  else if cp <? 65536 then
    String (byte (224 + cp / 4096))
      (String (byte (128 + (cp / 64) mod 64)) (String (byte (128 + cp mod 64)) EmptyString))
  else
    String (byte (240 + cp / 262144))
      (String (byte (128 + (cp / 4096) mod 64))
        (String (byte (128 + (cp / 64) mod 64)) (String (byte (128 + cp mod 64)) EmptyString))).

(** [s] with the literal [lit] removed from its front, when it starts with it. *)
Fixpoint strip_prefix (lit s : string) : option string :=
  match lit, s with
  | EmptyString, _ => Some s
  | String a lit', String b s' => if Ascii.eqb a b then strip_prefix lit' s' else None
  | String _ _, EmptyString => None
  end.

(** One escape sequence, the backslash already read. *)
Definition scan_escape (s : string) : option (string * string) :=
  match s with
  | String c rest =>
      if Ascii.eqb c dquote then Some (String dquote EmptyString, rest)
      else if Ascii.eqb c "\" then Some ("\", rest)
      else if Ascii.eqb c "/" then Some ("/", rest)
      else if Ascii.eqb c "b" then Some (String "008" EmptyString, rest)
      else if Ascii.eqb c "f" then Some (String "012" EmptyString, rest)
      else if Ascii.eqb c "n" then Some (String "010" EmptyString, rest)
      else if Ascii.eqb c "r" then Some (String "013" EmptyString, rest)
      else if Ascii.eqb c "t" then Some (String "009" EmptyString, rest)
      else if Ascii.eqb c "u" then
        match decode_uXXXX rest with
        | Some (uni, rest1) =>
            if (55296 <=? uni) && (uni <=? 56319) then
              match strip_prefix "\u" rest1 with
              | Some rest2 =>
                  match decode_uXXXX rest2 with
                  | Some (uni2, rest3) =>
                      if (56320 <=? uni2) && (uni2 <=? 57343)
                      then Some (utf8 (65536 + (uni - 55296) * 1024 + (uni2 - 56320)), rest3)
                      else Some (utf8 uni, rest1)
                  | None => None
                  end
              | None => Some (utf8 uni, rest1)
              end
            else Some (utf8 uni, rest1)
        | None => None
        end
      else None
  | EmptyString => None
  end.

(** The body of a string, the opening quote already read.  Every step
    consumes at least one character, so the length of the text is fuel
    enough. *)
Fixpoint scanstring_loop (fuel : nat) (s : string) (acc : string) : scan string :=
  match fuel with
  | O => OutOfFuel
  | S fuel' =>
      match s with
      | EmptyString => Fail
      | String c rest =>
          if Ascii.eqb c dquote then Done acc rest
          else if Ascii.eqb c "\" then
            match scan_escape rest with
            | Some (chunk, rest') => scanstring_loop fuel' rest' (acc +:+ chunk)
            | None => Fail
            end
          else if Z.of_N (N_of_ascii c) <? 32 then Fail
          else scanstring_loop fuel' rest (acc +:+ String c EmptyString)
      end
  end.

Definition scanstring (s : string) : scan string :=
  scanstring_loop (S (String.length s)) s EmptyString.

Fixpoint take_digits (s : string) : string * string :=
  match s with
  | String c rest =>
      if is_digit c then let '(ds, r) := take_digits rest in (String c ds, r)
      else (EmptyString, s)
  | EmptyString => (EmptyString, s)
  end.

Fixpoint digits_value (ds : string) (acc : Z) : Z :=
  match ds with
  | String c rest => digits_value rest (acc * 10 + digit_val c)
  | EmptyString => acc
  end.

(** [NUMBER_RE], in three groups.  The integer part: an optional minus sign,
    then either a single zero or a non-zero digit followed by any digits. *)
Definition match_integer (s : string) : option (bool * string * string) :=
  let '(neg, s1) :=
    match strip_prefix "-" s with
    | Some r => (true, r)
    | None => (false, s)
    end in
  match strip_prefix "0" s1 with
  | Some r => Some (neg, "0", r)
  | None =>
      match take_digits s1 with
      | (EmptyString, _) => None
      | (ds, r) => Some (neg, ds, r)
      end
  end.

(** The optional fraction: a dot and at least one digit. *)
Definition match_frac (s : string) : option (string * string) :=
  match strip_prefix "." s with
  | Some r =>
      match take_digits r with
      | (EmptyString, _) => None
      | (fs, r') => Some (fs, r')
      end
  | None => None
  end.

(** The optional exponent: [e] or [E], an optional sign, at least one digit. *)
Definition match_exp (s : string) : option (Z * string) :=
  match (match strip_prefix "e" s with Some r => Some r | None => strip_prefix "E" s end) with
  | Some r =>
      let '(neg, r1) :=
        match strip_prefix "-" r with
        | Some r' => (true, r')
        | None =>
            match strip_prefix "+" r with
            | Some r' => (false, r')
            | None => (false, r)
            end
        end in
      match take_digits r1 with
      | (EmptyString, _) => None
      | (es, r2) => Some (if neg then - digits_value es 0 else digits_value es 0, r2)
      end
  | None => None
  end.

Section Scanner.

(** [sys.get_int_max_str_digits()]. *)
Variable max_str_digits : nat.

(** [int] of a decimal literal, its sign apart: [ValueError] when the
    literal has more digits than the interpreter converts. *)
Definition int_of_digits (neg : bool) (ds : string) : result value :=
  let digits := String.length ds in
  if ((sys.int_str_digits_threshold <? digits) && (0 <? max_str_digits) &&
      (max_str_digits <? digits))%nat
  then Raise ValueError
  else Ok (VInt (if neg then - digits_value ds 0 else digits_value ds 0)).

(** A number with a fraction or an exponent is a [float], any other an [int]. *)
Definition match_number (s : string) : option (result value * string) :=
  match match_integer s with
  | None => None
  | Some (neg, ds, r) =>
      match match_frac r with
      | Some (fs, r1) =>
          match match_exp r1 with
          | Some (e, r2) =>
              Some (Ok (VFloat (float_of_decimal neg (digits_value fs (digits_value ds 0))
                                  (e - Z.of_nat (String.length fs)))), r2)
          | None =>
              Some (Ok (VFloat (float_of_decimal neg (digits_value fs (digits_value ds 0))
                                  (- Z.of_nat (String.length fs)))), r1)
          end
      | None =>
          match match_exp r with
          | Some (e, r2) => Some (Ok (VFloat (float_of_decimal neg (digits_value ds 0) e)), r2)
          | None => Some (int_of_digits neg ds, r)
          end
      end
  end.

(** The constants and the numbers, tried in the scanner's order. *)
Definition scan_constant (s : string) : option (result value * string) :=
  match strip_prefix "null" s with
  | Some r => Some (Ok VNone, r)
  | None =>
  match strip_prefix "true" s with
  | Some r => Some (Ok (VBool true), r)
  | None =>
  match strip_prefix "false" s with
  | Some r => Some (Ok (VBool false), r)
  | None =>
  match match_number s with
  | Some vr => Some vr
  | None =>
  match strip_prefix "NaN" s with
  | Some r => Some (Ok (VFloat S754_nan), r)
  | None =>
  match strip_prefix "Infinity" s with
  | Some r => Some (Ok (VFloat (S754_infinity false)), r)
  | None =>
  match strip_prefix "-Infinity" s with
  | Some r => Some (Ok (VFloat (S754_infinity true)), r)
  | None => None
  end end end end end end end.

(** [scan_once] with [JSONObject] and [JSONArray].  [members] and [elements]
    are the two [while True] loops, entered where a key (its opening quote
    still to be read) or a value is expected.  [depth] is the room left for
    nested calls: opening an object or an array takes one. *)
Fixpoint scan_once (fuel depth : nat) (s : string) : scan value :=
  match fuel with
  | O => OutOfFuel
  | S fuel' =>
      match strip_prefix (String dquote EmptyString) s with
      | Some rest =>
          match scanstring rest with
          | Done str r => Done (VStr str) r
          | Fail => Fail
          | Error e => Error e
          | OutOfFuel => OutOfFuel
          end
      | None =>
      match strip_prefix "{" s with
      | Some rest =>
          match depth with
          | O => Error RecursionError
          | S depth' =>
              match strip_prefix "}" (skip_ws rest) with
              | Some r => Done (VDict ∅) r
              | None =>
                  match members fuel' depth' (skip_ws rest) [] with
                  | Done pairs r => Done (VDict (dict_of_pairs pairs)) r
                  | Fail => Fail
                  | Error e => Error e
                  | OutOfFuel => OutOfFuel
                  end
              end
          end
      | None =>
      match strip_prefix "[" s with
      | Some rest =>
          match depth with
          | O => Error RecursionError
          | S depth' =>
              match strip_prefix "]" (skip_ws rest) with
              | Some r => Done (VList []) r
              | None =>
                  match elements fuel' depth' (skip_ws rest) [] with
                  | Done vs r => Done (VList vs) r
                  | Fail => Fail
                  | Error e => Error e
                  | OutOfFuel => OutOfFuel
                  end
              end
          end
      | None =>
          match scan_constant s with
          | Some (Ok v, r) => Done v r
          | Some (Raise e, _) => Error e
          | None => Fail
          end
      end end end
  end
with members (fuel depth : nat) (s : string) (pairs : list (string * value))
    : scan (list (string * value)) :=
  match fuel with
  | O => OutOfFuel
  | S fuel' =>
      match strip_prefix (String dquote EmptyString) s with
      | Some rest =>
          match scanstring rest with
          | Done key r =>
              match strip_prefix ":" (skip_ws r) with
              | Some r1 =>
                  match scan_once fuel' depth (skip_ws r1) with
                  | Done v r2 =>
                      match strip_prefix "}" (skip_ws r2) with
                      | Some r3 => Done (pairs ++ [(key, v)])%list r3
                      | None =>
                          match strip_prefix "," (skip_ws r2) with
                          | Some r3 =>
                              members fuel' depth (skip_ws r3) (pairs ++ [(key, v)])%list
                          | None => Fail
                          end
                      end
                  | Fail => Fail
                  | Error e => Error e
                  | OutOfFuel => OutOfFuel
                  end
              | None => Fail
              end
          | Fail => Fail
          | Error e => Error e
          | OutOfFuel => OutOfFuel
          end
      | None => Fail
      end
  end
with elements (fuel depth : nat) (s : string) (vs : list value) : scan (list value) :=
  match fuel with
  | O => OutOfFuel
  | S fuel' =>
      match scan_once fuel' depth s with
      | Done v r =>
          match strip_prefix "]" (skip_ws r) with
          | Some r1 => Done (vs ++ [v])%list r1
          | None =>
              match strip_prefix "," (skip_ws r) with
              | Some r1 => elements fuel' depth (skip_ws r1) (vs ++ [v])%list
              | None => Fail
              end
          end
      | Fail => Fail
      | Error e => Error e
      | OutOfFuel => OutOfFuel
      end
  end.

End Scanner.

(** [JSONDecoder.decode]: one value between optional whitespace, and nothing
    after it. *)
Definition decode (limits : sys.limits) (s : string) : scan value :=
  match scan_once (sys.int_max_str_digits limits) (2 * String.length s + 2)
          (sys.recursion_room limits) (skip_ws s) with
  | Done v rest =>
      match skip_ws rest with
      | EmptyString => Done v EmptyString
      | String _ _ => Fail
      end
  | Fail => Fail
  | Error e => Error e
  | OutOfFuel => OutOfFuel
  end.

(** [json.loads(s)]: the decoded value, [JSONDecodeError], or the
    [RecursionError] or [ValueError] of the interpreter.  The model's fuel is
    never used up ([decode_fuel]), so the last case does not occur. *)
Definition loads (limits : sys.limits) (s : string) : result value :=
  match decode limits s with
  | Done v _ => Ok v
  | Fail => Raise JSONDecodeError
  | Error e => Raise e
  | OutOfFuel => Raise RecursionError
  end.

End json.

(** ** The [openai] client

    The third-party client as the repository uses it.  The package is not
    part of the repository: what the import gives is an input of [__init__],
    and [OpenAI] is the package's constructor as far as the repository's
    calls go: it records the key and the base URL, opens no connection, asks
    the service nothing, and raises [OpenAIError] when the key is empty.

    A request is answered by the remote service, an input of the model with
    a state of its own: an [endpoint] gives, for the calls the service has
    received so far (the oldest first), a client and a request, the
    completion returned or the exception raised.  Its answer to a request may
    change from one call to the next. *)

Module openai.

Record Client := { api_key : string; base_url : string }.

Definition OpenAI (api_key base_url : string) : result Client :=
  match api_key with
  | EmptyString => Raise OpenAIError
  | String _ _ => Ok {| api_key := api_key; base_url := base_url |}
  end.

Record ChatCompletionMessageParam := { role : string; content : value }.

Record Request := {
  model : string;
  messages : list ChatCompletionMessageParam;
  temperature : spec_float;
  max_tokens : Z
}.

Record ChatCompletionMessage := { message_content : option string }.
Record Choice := { message : ChatCompletionMessage }.
Record ChatCompletion := { choices : list Choice }.

(** A call of the service: the client it was made with and the request. *)
Definition Call : Type := Client * Request.

Definition endpoint := list Call -> Client -> Request -> result ChatCompletion.

(** Code that talks to the service: its state is the list of the calls
    made so far. *)
Abbreviation io := (stateful (list Call)).

(** [client.chat.completions.create(...)]: one call of the service. *)
Definition create (service : endpoint) (client : Client) (request : Request)
    : io ChatCompletion :=
  fun calls => (service calls client request, (calls ++ [(client, request)])%list).

End openai.

(** ** [fitness_advisor.py] *)

Module FitnessAdvisorAgent.

Record agent := { client : openai.Client; model : string }.

Definition default_model : string := "deepseek-chat".

(** [__init__].  [import_openai] is the outcome of [from openai import OpenAI]:
    the constructor, or the [ImportError] of a missing package. *)
Definition __init__ (import_openai : result (string -> string -> result openai.Client))
    (api_key : string) (model : string) : result agent :=
  try_except
    (OpenAI ← import_openai;
     client ← OpenAI api_key "https://api.deepseek.com";
     mret {| client := client; model := model |})
    is_ImportError
    (fun _ => Raise (ImportError "Please install openai package: pip install openai")).

Definition _get_system_prompt : string :=
  dq "You are an expert fitness and health advisor AI. Your role is to analyze 
        user's health metrics (heart rate, sleep, stress) and provide personalized workout 
        recommendations and safety alerts.
        
        Always follow these guidelines:
        1. Prioritize user safety and health
        2. Consider all metrics together, not individually
        3. Provide specific, actionable recommendations
        4. Explain your reasoning clearly
        5. Suggest modifications for different fitness levels
        
        Format your response as JSON with these keys:
        - alert_level: `high`, `medium`, `low`, or `rest`
        - should_train: true or false
        - alert_message: Brief explanation of the alert
        - recommended_workout: Specific workout plan
        - intensity_level: `low`, `moderate`, or `high`
        - duration_minutes: Recommended workout duration
        - modifications: Optional modifications or alternatives
        - recovery_tips: Tips for recovery if needed
        
        Base your recommendations on medical guidelines:
        - Resting HR > 100 bpm: Consider rest
        - Sleep < 6 hours: Reduce intensity
        - Stress > 7/10: Prefer light activity or rest
        ".

Definition _create_prompt (now : datetime) (heart_rate : Z) (sleep_hours : spec_float)
    (stress_level : Z) (previous_workout : option string) : JoinedStr :=
  [ Constant "Analyze these health metrics and provide workout recommendations:
        
        Current Health Status:
        - Resting Heart Rate: ";
    FormattedInt heart_rate;
    Constant " bpm
        - Sleep Duration: ";
    FormattedFloat sleep_hours;
    Constant " hours
        - Stress Level: ";
    FormattedInt stress_level;
    Constant "/10
        
        Additional Context:
        - Previous Workout: ";
    FormattedStr (if truthy_str previous_workout
                  then default "" previous_workout
                  else "No recent workout data");
    Constant "
        - Current Time: ";
    FormattedStr (strftime_Ymd_HM now);
    Constant "
        
        Please provide your analysis and recommendations in the specified JSON format." ].

(** The [input_metrics] entry, written out in both [_parse_response] and
    [_get_fallback_recommendation]; [now] is the clock reading of its
    [timestamp]. *)
Definition input_metrics (now : datetime) (heart_rate : Z) (sleep_hours : spec_float)
    (stress_level : Z) : value :=
  VDict (dict_of_pairs [
    ("heart_rate_bpm", VInt heart_rate);
    ("sleep_hours", VFloat sleep_hours);
    ("stress_level", VInt stress_level);
    ("timestamp", VStr (isoformat now))]).

(** [_get_fallback_recommendation]. *)
Definition _get_fallback_recommendation (now : datetime) (heart_rate : Z)
    (sleep_hours : spec_float) (stress_level : Z) : dict :=
  let '(alert_level, should_train, workout, intensity, duration) :=
    if (heart_rate >? 100) || float_lt_int sleep_hours 4 || (stress_level >=? 8) then
      ("high", false, "Rest day or gentle stretching", "very low", 15)
    else if (heart_rate >? 85) || float_lt_int sleep_hours 6 || (stress_level >=? 6) then
      ("medium", true, "Light cardio (walking, cycling)", "low", 30)
    else
      ("low", true, "Moderate workout (running, weight training)", "moderate", 45) in
  dict_of_pairs [
    ("alert_level", VStr alert_level);
    ("should_train", VBool should_train);
    ("alert_message",
       VFStr [Constant "Based on your metrics: HR="; FormattedInt heart_rate;
              Constant "bpm, Sleep="; FormattedFloat sleep_hours;
              Constant "h, Stress="; FormattedInt stress_level; Constant "/10"]);
    ("recommended_workout", VStr workout);
    ("intensity_level", VStr intensity);
    ("duration_minutes", VInt duration);
    ("modifications", VStr "Listen to your body and adjust as needed");
    ("recovery_tips", VStr "Hydrate well and ensure proper nutrition");
    ("input_metrics", input_metrics now heart_rate sleep_hours stress_level)
  ].

(** The record [_parse_response] builds when the reply has no braces. *)
Definition default_response : dict :=
  dict_of_pairs [
    ("alert_level", VStr "medium");
    ("should_train", VBool true);
    ("alert_message", VStr "AI response format issue, using default recommendation");
    ("recommended_workout", VStr "Light cardio (30 min walk/jog)");
    ("intensity_level", VStr "low");
    ("duration_minutes", VInt 30);
    ("modifications", VStr "Reduce intensity if feeling tired");
    ("recovery_tips", VStr "Stay hydrated and monitor how you feel")
  ].

(** [_parse_response]; [limits] are the interpreter's limits where
    [json.loads] is called. *)
Definition _parse_response (limits : sys.limits) (now : datetime) (ai_response : string)
    (heart_rate : Z) (sleep_hours : spec_float) (stress_level : Z) : result dict :=
  try_except
    (let json_start := find ai_response "{" in
     let json_end := rfind ai_response "}" + 1 in
     response_json ←
       (if negb (json_start =? -1) && negb (json_end =? 0)
        then json.loads limits (slice ai_response json_start json_end)
        else Ok (VDict default_response));
     setitem response_json "input_metrics"
       (input_metrics now heart_rate sleep_hours stress_level))
    is_JSONDecodeError
    (fun _ => Ok (_get_fallback_recommendation now heart_rate sleep_hours stress_level)).

(** The request [analyze_health_status] sends. *)
Definition request (self : agent) (prompt : JoinedStr) : openai.Request :=
  {| openai.model := model self;
     openai.messages :=
       [ {| openai.role := "system"; openai.content := VStr _get_system_prompt |};
         {| openai.role := "user"; openai.content := VFStr prompt |} ];
     openai.temperature := float_of_decimal false 7 (-1);
     openai.max_tokens := 500 |}.

(** [analyze_health_status].  [service] is the remote service behind
    [client.chat.completions.create], [prompt_time] the clock reading put in
    the prompt and [now] the one put in the record returned. *)
Definition analyze_health_status (limits : sys.limits) (service : openai.endpoint)
    (prompt_time now : datetime) (self : agent) (heart_rate : Z) (sleep_hours : spec_float)
    (stress_level : Z) (previous_workout : option string) : openai.io dict :=
  let prompt :=
    _create_prompt prompt_time heart_rate sleep_hours stress_level previous_workout in
  st_try_except
    (response ← openai.create service (client self) (request self prompt);
     choice ← lift (match openai.choices response with
                    | choice :: _ => Ok choice
                    | [] => Raise IndexError
                    end);
     lift (match openai.message_content (openai.message choice) with
           | Some ai_response =>
               _parse_response limits now ai_response heart_rate sleep_hours stress_level
           | None => Raise AttributeError
           end))
    is_Exception
    (fun _ => mret (_get_fallback_recommendation now heart_rate sleep_hours stress_level)).

(** The list [get_workout_suggestions] returns when the call fails. *)
Definition default_suggestions : value :=
  VList [VStr "Light walking for 20-30 minutes";
         VStr "Gentle stretching for 15-20 minutes";
         VStr "Rest day with light mobility work"].

(** The request [get_workout_suggestions] sends. *)
Definition suggestions_request (self : agent) (health_condition : string) : openai.Request :=
  {| openai.model := model self;
     openai.messages :=
       [ {| openai.role := "system";
            openai.content :=
              VStr "You are a fitness expert providing safe workout suggestions." |};
         {| openai.role := "user";
            openai.content :=
              VFStr [Constant "Based on this health condition: ";
                     FormattedStr health_condition;
                     Constant "
        Provide 3 safe workout suggestions in JSON format with:
        - workout_type
        - duration_minutes
        - intensity
        - precautions"] |} ];
     openai.temperature := float_of_decimal false 7 (-1);
     openai.max_tokens := 300 |}.

(** [get_workout_suggestions]: the content of the first choice as it comes (a
    string, or [None]); the handler is a bare [except], which catches every
    exception. *)
Definition get_workout_suggestions (service : openai.endpoint) (self : agent)
    (health_condition : string) : openai.io value :=
  st_try_except
    (response ← openai.create service (client self)
                  (suggestions_request self health_condition);
     choice ← lift (match openai.choices response with
                    | choice :: _ => Ok choice
                    | [] => Raise IndexError
                    end);
     mret (of_optional_str (openai.message_content (openai.message choice))))
    (fun _ => true)
    (fun _ => mret default_suggestions).

End FitnessAdvisorAgent.

(** ** [api_server.py] *)

Module FallbackAdvisor.

(** [FallbackAdvisor.analyze_health_status]. *)
Definition analyze_health_status (heart_rate : Z) (sleep_hours : spec_float)
    (stress_level : Z) (previous_workout : option string) : dict :=
  if (heart_rate >? 100) || float_lt_int sleep_hours 4 || (stress_level >=? 8) then
    dict_of_pairs [
      ("alert_level", VStr "high");
      ("should_train", VBool false);
      ("workout", VStr "Rest day");
      ("intensity", VStr "very low");
      ("duration", VInt 0);
      ("message", VStr "Rest recommended based on your metrics");
      ("modifications", VStr "Focus on recovery");
      ("recovery_tips", VStr "Hydrate and get good sleep")
    ]
  else if (heart_rate >? 85) || float_lt_int sleep_hours 6 || (stress_level >=? 6) then
    dict_of_pairs [
      ("alert_level", VStr "medium");
      ("should_train", VBool true);
      ("workout", VStr "Light cardio (walking, cycling)");
      ("intensity", VStr "low");
      ("duration", VInt 30);
      ("message", VStr "Light activity recommended");
      ("modifications", VStr "Reduce intensity if needed");
      ("recovery_tips", VStr "Listen to your body")
    ]
  else
    dict_of_pairs [
      ("alert_level", VStr "low");
      ("should_train", VBool true);
      ("workout", VStr "Moderate workout");
      ("intensity", VStr "moderate");
      ("duration", VInt 45);
      ("message", VStr "Good condition for training");
      ("modifications", VStr "None needed");
      ("recovery_tips", VStr "Stay hydrated")
    ].

End FallbackAdvisor.

Module api_server.

(** What the handlers ask of the module-level [advisor]: a call of
    [analyze_health_status] that returns a [dict] or raises.  The advisors of
    the repository build a new [dict] at each call, so the record a handler
    updates in place is its own and the model passes it by value. *)
Definition advisor_t := Z -> spec_float -> Z -> option string -> result dict.

(** The module-level choice of [advisor]: [SimpleFitnessAdvisor] when
    [fitness_advisor] exports it, the [FallbackAdvisor] on [ImportError].
    [fitness_advisor.py] defines no [SimpleFitnessAdvisor], so the import fails
    and the second branch is the one taken. *)
Definition advisor (import_simple : result advisor_t) : result advisor_t :=
  try_except import_simple is_ImportError
    (fun _ => Ok (fun heart_rate sleep_hours stress_level previous_workout =>
       Ok (FallbackAdvisor.analyze_health_status heart_rate sleep_hours stress_level
             previous_workout))).

(** The request model [HealthMetrics]. *)
Record HealthMetrics := {
  heart_rate : Z;
  sleep_hours : spec_float;
  stress_level : Z;
  previous_workout : option string;
  user_id : option string;
  age : option Z;
  fitness_level : option string
}.

Definition required_fields : list string :=
  ["alert_level"; "should_train"; "workout"; "intensity"; "duration"].

(** [if field not in result: result[field] = "N/A"]. *)
Definition fill_step (result : dict) (field : string) : dict :=
  if contains result field then result else <[field := VStr "N/A"]> result.

(** [for field in required_fields: ...]. *)
Definition fill_required (result : dict) : dict :=
  fold_left fill_step required_fields result.

(** [get_recommendation]; [now] and [now'] are the clock readings of
    [timestamp] and [request_id]. *)
Definition get_recommendation (advisor : advisor_t) (now now' : datetime)
    (metrics : HealthMetrics) : result dict :=
  try_except
    (result ← advisor (heart_rate metrics) (sleep_hours metrics) (stress_level metrics)
                (previous_workout metrics);
     let result := fill_required result in
     let result := <["api_version" := VStr "1.0"]> result in
     let result := <["timestamp" := VStr (isoformat now)]> result in
     let result := <["request_id" := VStr (strftime_YmdHMS now')]> result in
     let result := <["user_id" := of_optional_str (user_id metrics)]> result in
     let result :=
       <["input_metrics" := VDict (dict_of_pairs [
           ("heart_rate", VInt (heart_rate metrics));
           ("sleep_hours", VFloat (sleep_hours metrics));
           ("stress_level", VInt (stress_level metrics));
           ("previous_workout", of_optional_str (previous_workout metrics));
           ("age", of_optional_int (age metrics));
           ("fitness_level", of_optional_str (fitness_level metrics))])]> result in
     Ok result)
    is_Exception
    (fun e => Raise (HTTPException 500 e)).

(** One turn of the loop of [batch_recommendations]: the entry appended for
    [metrics]; [now] is the clock reading of [request_timestamp]. *)
Definition batch_entry (advisor : advisor_t) (now : datetime) (metrics : HealthMetrics)
    : result dict :=
  try_except
    (result ← advisor (heart_rate metrics) (sleep_hours metrics) (stress_level metrics)
                (previous_workout metrics);
     let result := <["user_id" := of_optional_str (user_id metrics)]> result in
     let result := <["request_timestamp" := VStr (isoformat now)]> result in
     Ok result)
    is_Exception
    (fun e => Ok (dict_of_pairs [
       ("error", VFStr [FormattedExn e]);
       ("user_id", of_optional_str (user_id metrics));
       ("heart_rate", VInt (heart_rate metrics));
       ("sleep_hours", VFloat (sleep_hours metrics));
       ("stress_level", VInt (stress_level metrics))])).

(** The loop [for metrics in metrics_list]: [i] is the position of the head
    of [metrics_list] in the request, [clock i] the reading taken while the
    item at position [i] is processed. *)
Fixpoint batch_loop (advisor : advisor_t) (clock : nat -> datetime) (i : nat)
    (metrics_list : list HealthMetrics) (results : list dict) : result (list dict) :=
  match metrics_list with
  | [] => Ok results
  | metrics :: rest =>
      entry ← batch_entry advisor (clock i) metrics;
      batch_loop advisor clock (S i) rest (results ++ [entry])
  end.

(** [batch_recommendations]; [now] is the clock reading of [batch_id]. *)
Definition batch_recommendations (advisor : advisor_t) (clock : nat -> datetime)
    (now : datetime) (metrics_list : list HealthMetrics) : result dict :=
  results ← batch_loop advisor clock 0 metrics_list [];
  Ok (dict_of_pairs [
    ("batch_id", VStr (strftime_YmdHMS now));
    ("total_requests", VInt (Z.of_nat (length metrics_list)));
    ("successful",
       VInt (Z.of_nat (length (List.filter (fun r => negb (contains r "error")) results))));
    ("failed",
       VInt (Z.of_nat (length (List.filter (fun r => contains r "error") results))));
    ("results", VList (VDict <$> results))]).

(** [metrics.dict()]. *)
Definition metrics_dict (metrics : HealthMetrics) : dict :=
  dict_of_pairs [
    ("heart_rate", VInt (heart_rate metrics));
    ("sleep_hours", VFloat (sleep_hours metrics));
    ("stress_level", VInt (stress_level metrics));
    ("previous_workout", of_optional_str (previous_workout metrics));
    ("user_id", of_optional_str (user_id metrics));
    ("age", of_optional_int (age metrics));
    ("fitness_level", of_optional_str (fitness_level metrics))].

(** [metrics.user_id or "anonymous"]. *)
Definition user_or_anonymous (metrics : HealthMetrics) : string :=
  if truthy_str (user_id metrics) then default "" (user_id metrics) else "anonymous".

(** [save_to_history]: the response and the new [workout_history], the list
    the module keeps; [now] is the clock reading of [timestamp]. *)
Definition save_to_history (now : datetime) (workout_history : list dict)
    (metrics : HealthMetrics) (recommendation : dict) : dict * list dict :=
  let entry := dict_of_pairs [
    ("id", VInt (Z.of_nat (length workout_history) + 1));
    ("timestamp", VStr (isoformat now));
    ("user_id", VStr (user_or_anonymous metrics));
    ("metrics", VDict (metrics_dict metrics));
    ("recommendation", VDict recommendation)] in
  (dict_of_pairs [
     ("status", VStr "saved");
     ("entry_id", VInt (Z.of_nat (length workout_history) + 1))],
   (workout_history ++ [entry])%list).

(** [h.get("user_id") == user_id] for an entry of the history, whose
    [user_id] is a plain string. *)
Definition user_id_is (user_id : string) (h : dict) : bool :=
  match h !! "user_id" with
  | Some (VStr s) => String.eqb s user_id
  | _ => false
  end.

(** [get_history]. *)
Definition get_history (workout_history : list dict) (user_id : option string) : dict :=
  if truthy_str user_id then
    dict_of_pairs [
      ("user_id", VStr (default "" user_id));
      ("entries",
         VList (VDict <$> List.filter (user_id_is (default "" user_id)) workout_history))]
  else
    dict_of_pairs [
      ("total_entries", VInt (Z.of_nat (length workout_history)));
      ("entries", VList (VDict <$> workout_history))].

End api_server.

(** ** [app.py] *)

Module app.

(** The key [interactive_cli] builds the agent with: the text entered, once
    stripped, or ["dummy-key"] when it is empty (the fallback mode). *)
Definition api_key_for (entered : string) : string :=
  match entered with
  | EmptyString => "dummy-key"
  | _ => entered
  end.

Definition make_advisor (import_openai : result (string -> string -> result openai.Client))
    (entered : string) : result FitnessAdvisorAgent.agent :=
  FitnessAdvisorAgent.__init__ import_openai (api_key_for entered)
    FitnessAdvisorAgent.default_model.

End app.

(** ** Vocabulary of the specification *)

Module spec.

(** The trigger conditions of the two alert tiers, as the specification
    writes them. *)
Definition high_trigger (heart_rate : Z) (sleep_hours : spec_float) (stress_level : Z) : Prop :=
  heart_rate > 100 ∨ float_lt_int sleep_hours 4 = true ∨ stress_level >= 8.

Definition medium_trigger (heart_rate : Z) (sleep_hours : spec_float) (stress_level : Z)
    : Prop :=
  heart_rate > 85 ∨ float_lt_int sleep_hours 6 = true ∨ stress_level >= 6.

(** The same conditions as the code evaluates them. *)
Definition high_b (heart_rate : Z) (sleep_hours : spec_float) (stress_level : Z) : bool :=
  (heart_rate >? 100) || float_lt_int sleep_hours 4 || (stress_level >=? 8).

Definition medium_b (heart_rate : Z) (sleep_hours : spec_float) (stress_level : Z) : bool :=
  (heart_rate >? 85) || float_lt_int sleep_hours 6 || (stress_level >=? 6).

(** A record of a tier: its alert level, whether to train and, for the
    medium and low tiers, the intensity and the duration, read under the
    field names [intensity] and [duration] of the record at hand. *)
Definition is_high (d : dict) : Prop :=
  d !! "alert_level" = Some (VStr "high") ∧ d !! "should_train" = Some (VBool false).

Definition is_medium (intensity duration : string) (d : dict) : Prop :=
  d !! "alert_level" = Some (VStr "medium") ∧ d !! "should_train" = Some (VBool true) ∧
  d !! intensity = Some (VStr "low") ∧ d !! duration = Some (VInt 30).

Definition is_low (intensity duration : string) (d : dict) : Prop :=
  d !! "alert_level" = Some (VStr "low") ∧ d !! "should_train" = Some (VBool true) ∧
  d !! intensity = Some (VStr "moderate") ∧ d !! duration = Some (VInt 45).

(** Two records agree on their shared fields: a key present in both has the
    same value in both. *)
Definition agree_on_shared_fields (a f : dict) : Prop :=
  ∀ k va vf, a !! k = Some va → f !! k = Some vf → va = vf.

(** The substring [_parse_response] hands to the decoder. *)
Definition json_text (text : string) : string :=
  slice text (find text "{") (rfind text "}" + 1).

(** The two ways a reply fails to parse: it lacks an opening or a closing
    brace, or the text between the first opening and the last closing brace
    is rejected by the decoder. *)
Definition no_braces (text : string) : Prop :=
  find text "{" = -1 ∨ rfind text "}" = -1.

Definition malformed (limits : sys.limits) (text : string) : Prop :=
  find text "{" ≠ -1 ∧ rfind text "}" ≠ -1 ∧
  json.loads limits (json_text text) = Raise JSONDecodeError.

Definition parse_failure (limits : sys.limits) (text : string) : Prop :=
  no_braces text ∨ malformed limits text.

(** The exceptions of the interpreter that [json.loads] can raise. *)
Definition of_interpreter (e : exn) : Prop := e = RecursionError ∨ e = ValueError.

(** A text that is a JSON object by the grammar: the decoder reads it as an
    object when the interpreter's limits are wide enough. *)
Definition valid_json_object (s : string) : Prop :=
  ∃ (limits : sys.limits) (d : dict), json.loads limits s = Ok (VDict d).

(** The limits of an interpreter with its default settings, a few calls on
    its stack. *)
Definition default_limits : sys.limits :=
  {| sys.recursion_room := 990; sys.int_max_str_digits := 4300 |}.

(** Limits wide enough for the sample texts. *)
Definition wide_limits : sys.limits :=
  {| sys.recursion_room := 2000; sys.int_max_str_digits := 0 |}.

(** The generic medium-alert record with [input_metrics] attached. *)
Definition generic_record (now : datetime) (heart_rate : Z) (sleep_hours : spec_float)
    (stress_level : Z) : dict :=
  <["input_metrics" :=
      FitnessAdvisorAgent.input_metrics now heart_rate sleep_hours stress_level]>
    FitnessAdvisorAgent.default_response.

(** The fields of a record of the agent. *)
Definition agent_fields : list string :=
  ["alert_level"; "should_train"; "alert_message"; "recommended_workout";
   "intensity_level"; "duration_minutes"; "modifications"; "recovery_tips";
   "input_metrics"].

Definition has_fields (fields : list string) (d : dict) : Prop :=
  Forall (fun k => is_Some (d !! k)) fields.

(** A key the remote service refuses: every request made with it is answered
    by an authentication error, whatever the calls made before. *)
Definition unusable (service : openai.endpoint) (key : string) : Prop :=
  ∀ calls client request, openai.api_key client = key →
    service calls client request = Raise AuthenticationError.

(** A service that refuses every key. *)
Definition refusing : openai.endpoint := fun _ _ _ => Raise AuthenticationError.

(** A service that answers every request with the reply [text]. *)
Definition replying (text : string) : openai.endpoint :=
  fun _ _ _ =>
    Ok {| openai.choices :=
            [ {| openai.message := {| openai.message_content := Some text |} |} ] |}.

(** A service that times out on the first call it receives and answers every
    later one with the reply [text]. *)
Definition failing_once (text : string) : openai.endpoint :=
  fun calls client request =>
    match calls with
    | [] => Raise APITimeoutError
    | _ :: _ => replying text calls client request
    end.

(** The agent [app.py] builds in fallback mode. *)
Definition fallback_mode_agent : FitnessAdvisorAgent.agent :=
  {| FitnessAdvisorAgent.client :=
       {| openai.api_key := "dummy-key"; openai.base_url := "https://api.deepseek.com" |};
     FitnessAdvisorAgent.model := FitnessAdvisorAgent.default_model |}.

(** The call the handlers make for one request. *)
Definition call (advisor : api_server.advisor_t) (metrics : api_server.HealthMetrics)
    : result dict :=
  advisor (api_server.heart_rate metrics) (api_server.sleep_hours metrics)
    (api_server.stress_level metrics) (api_server.previous_workout metrics).

(** The [FallbackAdvisor] as the module-level [advisor]. *)
Definition fallback_advisor : api_server.advisor_t :=
  fun heart_rate sleep_hours stress_level previous_workout =>
    Ok (FallbackAdvisor.analyze_health_status heart_rate sleep_hours stress_level
          previous_workout).

(** The full field set of a recommendation, the two names of the workout and
    of the message taken as alternatives. *)
Definition carries_full_field_set (r : dict) : Prop :=
  is_Some (r !! "alert_level") ∧ is_Some (r !! "should_train") ∧
  (is_Some (r !! "workout") ∨ is_Some (r !! "recommended_workout")) ∧
  is_Some (r !! "intensity") ∧ is_Some (r !! "duration") ∧
  (is_Some (r !! "message") ∨ is_Some (r !! "alert_message")) ∧
  is_Some (r !! "modifications") ∧ is_Some (r !! "recovery_tips") ∧
  is_Some (r !! "input_metrics").

(** The fields [get_recommendation] neither fills nor sets. *)
Definition passed_through : list string :=
  ["message"; "alert_message"; "recommended_workout"; "intensity_level";
   "duration_minutes"; "modifications"; "recovery_tips"].

(** The numbers of entries without and with the key [error]. *)
Definition successful (results : list dict) : nat :=
  length (List.filter (fun r => negb (contains r "error")) results).

Definition failed (results : list dict) : nat :=
  length (List.filter (fun r => contains r "error") results).

(** Sample replies. *)
Definition reply_rest : string :=
  dq "Here is my advice: {`alert_level`: `rest`, `should_train`: false} Take care!".

Definition reply_malformed : string :=
  "Sure! {alert_level: high, should_train: false}".

Definition reply_no_braces : string := "I am sorry, I cannot help with that.".

(** Whether a decoding gave an [int], a [float]. *)
Definition is_int (r : result value) : bool :=
  match r with Ok (VInt _) => true | _ => false end.

Definition is_float (r : result value) : bool :=
  match r with Ok (VFloat _) => true | _ => false end.

(** [n] arrays one inside the other, as a text and as a value. *)
Definition nested_arrays (n : nat) : string := repeat_char "[" n +:+ repeat_char "]" n.

Fixpoint nested_lists (n : nat) : value :=
  match n with
  | O => VList []
  | S n' => VList [nested_lists n']
  end.

(** A reply that is one object holding 1100 nested arrays. *)
Definition reply_deep : string := dq "{`plan`: " +:+ nested_arrays 1100 +:+ "}".

(** Sample inputs. *)
Definition sleep_7_5 : spec_float := float_of_decimal false 75 (-1).
Definition sleep_4 : spec_float := float_of_decimal false 40 (-1).
Definition sleep_3_9 : spec_float := float_of_decimal false 39 (-1).
Definition sleep_4_5 : spec_float := float_of_decimal false 45 (-1).
Definition sleep_6 : spec_float := float_of_decimal false 60 (-1).

Definition metrics_of (heart_rate : Z) (sleep_hours : spec_float) (stress_level : Z)
    : api_server.HealthMetrics :=
  {| api_server.heart_rate := heart_rate; api_server.sleep_hours := sleep_hours;
     api_server.stress_level := stress_level; api_server.previous_workout := None;
     api_server.user_id := Some "u1"; api_server.age := None;
     api_server.fitness_level := Some "intermediate" |}.

(** An advisor that raises on a heart rate that is not positive. *)
Definition strict_advisor : api_server.advisor_t :=
  fun heart_rate sleep_hours stress_level previous_workout =>
    if heart_rate <=? 0 then Raise TypeError
    else Ok (FallbackAdvisor.analyze_health_status heart_rate sleep_hours stress_level
               previous_workout).

Definition a_time : datetime :=
  {| year := 2025; month := 3; day := 14; hour := 9; minute := 26; second := 53;
     microsecond := 589793 |}.

(** The agent as the advisor of the API server, the service answering every
    request with [text]: the record or the exception of the call. *)
Definition agent_advisor (text : string) : api_server.advisor_t :=
  fun heart_rate sleep_hours stress_level previous_workout =>
    (FitnessAdvisorAgent.analyze_health_status default_limits (replying text) a_time a_time
       fallback_mode_agent heart_rate sleep_hours stress_level previous_workout []).1.

End spec.

Import spec.

(** ** Vocabulary of the further properties *)

Module facts.

(** The rank of an alert level: 2 for "high", 1 for "medium", 0 otherwise. *)
Definition rank (d : dict) : Z :=
  match d !! "alert_level" with
  | Some (VStr s) =>
      if String.eqb s "high" then 2 else if String.eqb s "medium" then 1 else 0
  | _ => 0
  end.

(** The severity of each signal taken alone, on the same scale. *)
Definition severity_heart_rate (heart_rate : Z) : Z :=
  if heart_rate >? 100 then 2 else if heart_rate >? 85 then 1 else 0.

Definition severity_sleep (sleep_hours : spec_float) : Z :=
  if float_lt_int sleep_hours 4 then 2 else if float_lt_int sleep_hours 6 then 1 else 0.

Definition severity_stress (stress_level : Z) : Z :=
  if stress_level >=? 8 then 2 else if stress_level >=? 6 then 1 else 0.

(** The fields of a record of the [FallbackAdvisor]. *)
Definition api_fields : list string :=
  ["alert_level"; "should_train"; "workout"; "intensity"; "duration"; "message";
   "modifications"; "recovery_tips"].

(** The keys [get_recommendation] sets itself. *)
Definition metadata_keys : list string :=
  ["api_version"; "timestamp"; "request_id"; "user_id"; "input_metrics"].

(** The [input_metrics] of [get_recommendation]. *)
Definition request_metrics (metrics : api_server.HealthMetrics) : value :=
  VDict (dict_of_pairs [
    ("heart_rate", VInt (api_server.heart_rate metrics));
    ("sleep_hours", VFloat (api_server.sleep_hours metrics));
    ("stress_level", VInt (api_server.stress_level metrics));
    ("previous_workout", of_optional_str (api_server.previous_workout metrics));
    ("age", of_optional_int (api_server.age metrics));
    ("fitness_level", of_optional_str (api_server.fitness_level metrics))]).

(** An item whose entry in a batch carries the key [error]: its call raised,
    or returned a record with that key. *)
Definition flagged (advisor : api_server.advisor_t) (metrics : api_server.HealthMetrics)
    : bool :=
  match call advisor metrics with
  | Ok d => contains d "error"
  | Raise _ => true
  end.

(** A request to [save_to_history]: the clock reading, the metrics and the
    recommendation. *)
Definition save_request : Type := datetime * api_server.HealthMetrics * dict.

(** The history after a sequence of requests to [save_to_history]. *)
Definition saves (requests : list save_request) (workout_history : list dict) : list dict :=
  fold_left
    (fun h '(now, metrics, recommendation) =>
       (api_server.save_to_history now h metrics recommendation).2)
    requests workout_history.

(** The entry [save_to_history] stores for a request when the history has
    [n] entries. *)
Definition entry_of (n : nat) (request : save_request) : dict :=
  let '(now, metrics, recommendation) := request in
  dict_of_pairs [
    ("id", VInt (Z.of_nat n + 1));
    ("timestamp", VStr (isoformat now));
    ("user_id", VStr (api_server.user_or_anonymous metrics));
    ("metrics", VDict (api_server.metrics_dict metrics));
    ("recommendation", VDict recommendation)].

(** Whether a character occurs in a text. *)
Fixpoint occurs (c : ascii) (s : string) : bool :=
  match s with
  | EmptyString => false
  | String a s' => Ascii.eqb a c || occurs c s'
  end.

(** The content of the first choice of a response, if there is one. *)
Definition first_content (response : openai.ChatCompletion) : option string :=
  match openai.choices response with
  | choice :: _ => openai.message_content (openai.message choice)
  | [] => None
  end.

(** A service that answers every request with no choice. *)
Definition silent : openai.endpoint := fun _ _ _ => Ok {| openai.choices := [] |}.

(** An advisor interrupted on a heart rate that is not positive. *)
Definition interruptible : api_server.advisor_t :=
  fun heart_rate sleep_hours stress_level previous_workout =>
    if heart_rate <=? 0 then Raise KeyboardInterrupt
    else Ok (FallbackAdvisor.analyze_health_status heart_rate sleep_hours stress_level
               previous_workout).

(** Sample requests to [save_to_history], the second without a user id. *)
Definition anonymous_metrics : api_server.HealthMetrics :=
  {| api_server.heart_rate := 90; api_server.sleep_hours := sleep_6;
     api_server.stress_level := 5; api_server.previous_workout := Some "running";
     api_server.user_id := None; api_server.age := Some 30;
     api_server.fitness_level := Some "intermediate" |}.

Definition sample_requests : list save_request :=
  [ (a_time, metrics_of 72 sleep_7_5 4,
     FallbackAdvisor.analyze_health_status 72 sleep_7_5 4 None);
    (a_time, anonymous_metrics, FallbackAdvisor.analyze_health_status 90 sleep_6 5 None) ].

End facts.

Import facts.

(** * Properties *)

(** Case analysis on membership in a list written out. *)
Ltac each_member H :=
  repeat (apply elem_of_cons in H as [-> | H]); [.. | apply elem_of_nil in H; contradiction].

Ltac not_member :=
  let H := fresh in
  intros H; repeat (apply elem_of_cons in H as [H | H]; [discriminate H |]);
  apply elem_of_nil in H; contradiction.

(** ** The threshold classifier *)

Section Classifier.

Variables (now : datetime) (heart_rate : Z) (sleep_hours : spec_float) (stress_level : Z).
Variable previous_workout : option string.

Ltac by_branches :=
  unfold FitnessAdvisorAgent._get_fallback_recommendation,
    FallbackAdvisor.analyze_health_status;
  fold (high_b heart_rate sleep_hours stress_level);
  fold (medium_b heart_rate sleep_hours stress_level);
  destruct (high_b heart_rate sleep_hours stress_level);
    [| destruct (medium_b heart_rate sleep_hours stress_level)]; cbv zeta.

Lemma high_trigger_spec :
  high_trigger heart_rate sleep_hours stress_level ↔
  high_b heart_rate sleep_hours stress_level = true.
Proof.
  unfold high_trigger, high_b. rewrite !orb_true_iff, Z.gtb_gt, Z.geb_ge. tauto.
Qed.

Lemma medium_trigger_spec :
  medium_trigger heart_rate sleep_hours stress_level ↔
  medium_b heart_rate sleep_hours stress_level = true.
Proof.
  unfold medium_trigger, medium_b. rewrite !orb_true_iff, Z.gtb_gt, Z.geb_ge. tauto.
Qed.

(** The agent's fallback, branch by branch. *)
Lemma agent_fallback_cases :
  let d := FitnessAdvisorAgent._get_fallback_recommendation now heart_rate sleep_hours
             stress_level in
  (high_b heart_rate sleep_hours stress_level = true ∧
   d !! "alert_level" = Some (VStr "high") ∧ d !! "should_train" = Some (VBool false) ∧
   d !! "intensity_level" = Some (VStr "very low") ∧
   d !! "duration_minutes" = Some (VInt 15) ∧
   d !! "recommended_workout" = Some (VStr "Rest day or gentle stretching"))
  ∨ (high_b heart_rate sleep_hours stress_level = false ∧
     medium_b heart_rate sleep_hours stress_level = true ∧
     d !! "alert_level" = Some (VStr "medium") ∧ d !! "should_train" = Some (VBool true) ∧
     d !! "intensity_level" = Some (VStr "low") ∧
     d !! "duration_minutes" = Some (VInt 30) ∧
     d !! "recommended_workout" = Some (VStr "Light cardio (walking, cycling)"))
  ∨ (high_b heart_rate sleep_hours stress_level = false ∧
     medium_b heart_rate sleep_hours stress_level = false ∧
     d !! "alert_level" = Some (VStr "low") ∧ d !! "should_train" = Some (VBool true) ∧
     d !! "intensity_level" = Some (VStr "moderate") ∧
     d !! "duration_minutes" = Some (VInt 45) ∧
     d !! "recommended_workout" = Some (VStr "Moderate workout (running, weight training)")).
Proof.
  unfold FitnessAdvisorAgent._get_fallback_recommendation.
  fold (high_b heart_rate sleep_hours stress_level).
  fold (medium_b heart_rate sleep_hours stress_level).
  destruct (high_b heart_rate sleep_hours stress_level);
    [| destruct (medium_b heart_rate sleep_hours stress_level)]; cbv zeta.
  - left. repeat split; reflexivity.
  - right; left. repeat split; reflexivity.
  - right; right. repeat split; reflexivity.
Qed.

(** The API server's fallback, branch by branch. *)
Lemma api_fallback_cases :
  let d := FallbackAdvisor.analyze_health_status heart_rate sleep_hours stress_level
             previous_workout in
  (high_b heart_rate sleep_hours stress_level = true ∧
   d !! "alert_level" = Some (VStr "high") ∧ d !! "should_train" = Some (VBool false) ∧
   d !! "intensity" = Some (VStr "very low") ∧ d !! "duration" = Some (VInt 0) ∧
   d !! "workout" = Some (VStr "Rest day"))
  ∨ (high_b heart_rate sleep_hours stress_level = false ∧
     medium_b heart_rate sleep_hours stress_level = true ∧
     d !! "alert_level" = Some (VStr "medium") ∧ d !! "should_train" = Some (VBool true) ∧
     d !! "intensity" = Some (VStr "low") ∧ d !! "duration" = Some (VInt 30) ∧
     d !! "workout" = Some (VStr "Light cardio (walking, cycling)"))
  ∨ (high_b heart_rate sleep_hours stress_level = false ∧
     medium_b heart_rate sleep_hours stress_level = false ∧
     d !! "alert_level" = Some (VStr "low") ∧ d !! "should_train" = Some (VBool true) ∧
     d !! "intensity" = Some (VStr "moderate") ∧ d !! "duration" = Some (VInt 45) ∧
     d !! "workout" = Some (VStr "Moderate workout")).
Proof.
  unfold FallbackAdvisor.analyze_health_status.
  fold (high_b heart_rate sleep_hours stress_level).
  fold (medium_b heart_rate sleep_hours stress_level).
  destruct (high_b heart_rate sleep_hours stress_level);
    [| destruct (medium_b heart_rate sleep_hours stress_level)]; cbv zeta.
  - left. repeat split; reflexivity.
  - right; left. repeat split; reflexivity.
  - right; right. repeat split; reflexivity.
Qed.

(** Each tier is returned exactly under its trigger condition, by both
    implementations. *)
Lemma tiers_iff :
  let a := FitnessAdvisorAgent._get_fallback_recommendation now heart_rate sleep_hours
             stress_level in
  let f := FallbackAdvisor.analyze_health_status heart_rate sleep_hours stress_level
             previous_workout in
  let high := high_trigger heart_rate sleep_hours stress_level in
  let medium := medium_trigger heart_rate sleep_hours stress_level in
  (is_high a ↔ high) ∧ (is_high f ↔ high) ∧
  (is_medium "intensity_level" "duration_minutes" a ↔ ¬ high ∧ medium) ∧
  (is_medium "intensity" "duration" f ↔ ¬ high ∧ medium) ∧
  (is_low "intensity_level" "duration_minutes" a ↔ ¬ high ∧ ¬ medium) ∧
  (is_low "intensity" "duration" f ↔ ¬ high ∧ ¬ medium).
Proof.
  cbv zeta. rewrite high_trigger_spec, medium_trigger_spec.
  unfold is_high, is_medium, is_low.
  destruct agent_fallback_cases as [H | [H | H]];
    destruct (api_fallback_cases) as [G | [G | G]];
    cbv zeta in H, G; decompose [and] H; decompose [and] G; clear H G;
    try congruence;
    repeat match goal with E : _ !! _ = Some _ |- _ => rewrite E; clear E end;
    repeat match goal with E : _ = true |- _ => rewrite E; clear E end;
    repeat match goal with E : _ = false |- _ => rewrite E; clear E end;
    repeat split; intros; try tauto; try congruence;
    repeat match goal with K : _ ∧ _ |- _ => destruct K end; congruence.
Qed.

(** Training is refused exactly in the high tier. *)
Lemma should_train_iff_not_high :
  let a := FitnessAdvisorAgent._get_fallback_recommendation now heart_rate sleep_hours
             stress_level in
  let f := FallbackAdvisor.analyze_health_status heart_rate sleep_hours stress_level
             previous_workout in
  (a !! "should_train" = Some (VBool false) ↔ a !! "alert_level" = Some (VStr "high")) ∧
  (a !! "should_train" = Some (VBool true) ↔
     a !! "alert_level" = Some (VStr "medium") ∨ a !! "alert_level" = Some (VStr "low")) ∧
  (f !! "should_train" = Some (VBool false) ↔ f !! "alert_level" = Some (VStr "high")) ∧
  (f !! "should_train" = Some (VBool true) ↔
     f !! "alert_level" = Some (VStr "medium") ∨ f !! "alert_level" = Some (VStr "low")).
Proof.
  cbv zeta.
  destruct agent_fallback_cases as [H | [H | H]];
    destruct (api_fallback_cases) as [G | [G | G]];
    cbv zeta in H, G; decompose [and] H; decompose [and] G; clear H G;
    try congruence;
    repeat match goal with E : _ !! _ = Some _ |- _ => rewrite E; clear E end;
    repeat split; intros; try tauto; try congruence;
    try (left; reflexivity); try (right; reflexivity);
    repeat match goal with K : _ ∨ _ |- _ => destruct K end; congruence.
Qed.

(** What the two implementations share and where they part. *)
Lemma fallbacks_compared :
  let a := FitnessAdvisorAgent._get_fallback_recommendation now heart_rate sleep_hours
             stress_level in
  let f := FallbackAdvisor.analyze_health_status heart_rate sleep_hours stress_level
             previous_workout in
  a !! "alert_level" = f !! "alert_level" ∧
  a !! "should_train" = f !! "should_train" ∧
  a !! "intensity_level" = f !! "intensity" ∧
  (high_b heart_rate sleep_hours stress_level = false →
     a !! "duration_minutes" = f !! "duration") ∧
  (high_b heart_rate sleep_hours stress_level = true →
     a !! "duration_minutes" = Some (VInt 15) ∧ f !! "duration" = Some (VInt 0)) ∧
  (high_b heart_rate sleep_hours stress_level = false →
   medium_b heart_rate sleep_hours stress_level = true →
     a !! "recommended_workout" = f !! "workout") ∧
  (high_b heart_rate sleep_hours stress_level = true →
     a !! "recommended_workout" = Some (VStr "Rest day or gentle stretching") ∧
     f !! "workout" = Some (VStr "Rest day") ∧
     a !! "recommended_workout" ≠ f !! "workout") ∧
  (high_b heart_rate sleep_hours stress_level = false →
   medium_b heart_rate sleep_hours stress_level = false →
     a !! "recommended_workout" =
       Some (VStr "Moderate workout (running, weight training)") ∧
     f !! "workout" = Some (VStr "Moderate workout") ∧
     a !! "recommended_workout" ≠ f !! "workout") ∧
  a !! "modifications" ≠ f !! "modifications" ∧
  a !! "recovery_tips" ≠ f !! "recovery_tips" ∧
  a !! "alert_message" ≠ f !! "message" ∧
  (a !! "workout" = None ∧ a !! "message" = None ∧ a !! "intensity" = None ∧
   a !! "duration" = None) ∧
  (f !! "recommended_workout" = None ∧ f !! "alert_message" = None ∧
   f !! "intensity_level" = None ∧ f !! "duration_minutes" = None) ∧
  is_Some (a !! "input_metrics") ∧ f !! "input_metrics" = None.
Proof.
  cbv zeta. by_branches;
    (repeat split; try reflexivity; try discriminate; try (intros; discriminate);
     try (eexists; reflexivity)).
Qed.

End Classifier.

(** C1.  Both rule-based classifiers return the high tier (no training)
    exactly when [heart_rate > 100] or [sleep_hours < 4] or
    [stress_level >= 8]; otherwise the medium tier (training, intensity low,
    30 minutes) exactly when [heart_rate > 85] or [sleep_hours < 6] or
    [stress_level >= 6]; otherwise the low tier (training, intensity
    moderate, 45 minutes).  At the boundaries: a heart rate of 100 with 7.5
    hours of sleep and stress 4 is medium, 4 hours of sleep is not below 4
    (and gives medium, being below 6), and stress 8 is high. *)
Theorem C1_threshold_tiers :
  (∀ now heart_rate sleep_hours stress_level previous_workout,
     let a := FitnessAdvisorAgent._get_fallback_recommendation now heart_rate sleep_hours
                stress_level in
     let f := FallbackAdvisor.analyze_health_status heart_rate sleep_hours stress_level
                previous_workout in
     let high := high_trigger heart_rate sleep_hours stress_level in
     let medium := medium_trigger heart_rate sleep_hours stress_level in
     (is_high a ↔ high) ∧ (is_high f ↔ high) ∧
     (is_medium "intensity_level" "duration_minutes" a ↔ ¬ high ∧ medium) ∧
     (is_medium "intensity" "duration" f ↔ ¬ high ∧ medium) ∧
     (is_low "intensity_level" "duration_minutes" a ↔ ¬ high ∧ ¬ medium) ∧
     (is_low "intensity" "duration" f ↔ ¬ high ∧ ¬ medium)) ∧
  (∀ now previous_workout,
     is_medium "intensity_level" "duration_minutes"
       (FitnessAdvisorAgent._get_fallback_recommendation now 100 sleep_7_5 4) ∧
     is_medium "intensity" "duration"
       (FallbackAdvisor.analyze_health_status 100 sleep_7_5 4 previous_workout) ∧
     is_high (FitnessAdvisorAgent._get_fallback_recommendation now 101 sleep_7_5 4) ∧
     is_high (FallbackAdvisor.analyze_health_status 101 sleep_7_5 4 previous_workout) ∧
     float_lt_int sleep_4 4 = false ∧
     is_medium "intensity_level" "duration_minutes"
       (FitnessAdvisorAgent._get_fallback_recommendation now 72 sleep_4 4) ∧
     is_medium "intensity" "duration"
       (FallbackAdvisor.analyze_health_status 72 sleep_4 4 previous_workout) ∧
     is_high (FitnessAdvisorAgent._get_fallback_recommendation now 72 sleep_3_9 4) ∧
     is_high (FallbackAdvisor.analyze_health_status 72 sleep_3_9 4 previous_workout) ∧
     is_high (FitnessAdvisorAgent._get_fallback_recommendation now 72 sleep_7_5 8) ∧
     is_high (FallbackAdvisor.analyze_health_status 72 sleep_7_5 8 previous_workout)).
Proof.
  split.
  - intros. apply tiers_iff.
  - intros. repeat split; reflexivity.
Qed.

(** C10.  In every record of either rule-based implementation,
    [should_train] is false exactly when [alert_level] is "high", and true
    exactly when it is "medium" or "low", whatever the inputs. *)
Theorem C10_should_train_iff_not_high :
  ∀ now heart_rate sleep_hours stress_level previous_workout,
    let a := FitnessAdvisorAgent._get_fallback_recommendation now heart_rate sleep_hours
               stress_level in
    let f := FallbackAdvisor.analyze_health_status heart_rate sleep_hours stress_level
               previous_workout in
    (a !! "should_train" = Some (VBool false) ↔ a !! "alert_level" = Some (VStr "high")) ∧
    (a !! "should_train" = Some (VBool true) ↔
       a !! "alert_level" = Some (VStr "medium") ∨ a !! "alert_level" = Some (VStr "low")) ∧
    (f !! "should_train" = Some (VBool false) ↔ f !! "alert_level" = Some (VStr "high")) ∧
    (f !! "should_train" = Some (VBool true) ↔
       f !! "alert_level" = Some (VStr "medium") ∨ f !! "alert_level" = Some (VStr "low")).
Proof. intros. apply should_train_iff_not_high. Qed.

(** C7 as stated fails: on a low-tier input, where neither the high-alert
    duration nor a renamed field is involved, the two records disagree on the
    field [modifications], which both carry under the same name. *)
Lemma C7_counterexample :
  ¬ agree_on_shared_fields
      (FitnessAdvisorAgent._get_fallback_recommendation a_time 72 sleep_7_5 4)
      (FallbackAdvisor.analyze_health_status 72 sleep_7_5 4 None).
Proof.
  intros H.
  specialize (H "modifications" (VStr "Listen to your body and adjust as needed")
                (VStr "None needed") eq_refl eq_refl).
  discriminate H.
Qed.

(** C7, amended.  For every input the two rule-based implementations give
    the same [alert_level], the same [should_train] and the same intensity,
    and outside the high tier the same duration; in the high tier the agent
    says 15 minutes and the API fallback 0.  They name four fields
    differently ([recommended_workout], [alert_message], [intensity_level],
    [duration_minutes] against [workout], [message], [intensity], [duration]),
    their texts for [modifications], [recovery_tips] and the message always
    differ, the workout text is shared in the medium tier and differs in the
    high tier and in the low tier, and only the agent's record carries
    [input_metrics]. *)
Theorem C7_fallbacks_same_tier :
  ∀ now heart_rate sleep_hours stress_level previous_workout,
    let a := FitnessAdvisorAgent._get_fallback_recommendation now heart_rate sleep_hours
               stress_level in
    let f := FallbackAdvisor.analyze_health_status heart_rate sleep_hours stress_level
               previous_workout in
    a !! "alert_level" = f !! "alert_level" ∧
    a !! "should_train" = f !! "should_train" ∧
    a !! "intensity_level" = f !! "intensity" ∧
    (high_b heart_rate sleep_hours stress_level = false →
       a !! "duration_minutes" = f !! "duration") ∧
    (high_b heart_rate sleep_hours stress_level = true →
       a !! "duration_minutes" = Some (VInt 15) ∧ f !! "duration" = Some (VInt 0)) ∧
    (high_b heart_rate sleep_hours stress_level = false →
     medium_b heart_rate sleep_hours stress_level = true →
       a !! "recommended_workout" = f !! "workout") ∧
    (high_b heart_rate sleep_hours stress_level = true →
       a !! "recommended_workout" = Some (VStr "Rest day or gentle stretching") ∧
       f !! "workout" = Some (VStr "Rest day") ∧
       a !! "recommended_workout" ≠ f !! "workout") ∧
    (high_b heart_rate sleep_hours stress_level = false →
     medium_b heart_rate sleep_hours stress_level = false →
       a !! "recommended_workout" =
         Some (VStr "Moderate workout (running, weight training)") ∧
       f !! "workout" = Some (VStr "Moderate workout") ∧
       a !! "recommended_workout" ≠ f !! "workout") ∧
    a !! "modifications" ≠ f !! "modifications" ∧
    a !! "recovery_tips" ≠ f !! "recovery_tips" ∧
    a !! "alert_message" ≠ f !! "message" ∧
    (a !! "workout" = None ∧ a !! "message" = None ∧ a !! "intensity" = None ∧
     a !! "duration" = None) ∧
    (f !! "recommended_workout" = None ∧ f !! "alert_message" = None ∧
     f !! "intensity_level" = None ∧ f !! "duration_minutes" = None) ∧
    is_Some (a !! "input_metrics") ∧ f !! "input_metrics" = None.
Proof. intros. apply fallbacks_compared. Qed.

(** ** The decoder: fuel and lengths

    The decoder is started with fuel [2 * len s + 2] on a text [s].  Every
    call consumes at least one character before the next one, so the fuel
    is never used up: [json.loads] returns a value or raises
    [JSONDecodeError], or the [RecursionError] or the [ValueError] of the
    interpreter. *)

Section Decoder.

Import json.

Abbreviation len := String.length.

Lemma skip_ws_length (s : string) : (len (skip_ws s) <= len s)%nat.
Proof. induction s as [| c s IH]; cbn; [lia |]. destruct (is_ws c); cbn; lia. Qed.

Lemma strip_prefix_length (lit s r : string) :
  strip_prefix lit s = Some r → len s = (len lit + len r)%nat.
Proof.
  revert s. induction lit as [| a lit IH]; intros s H; cbn in *.
  - injection H as ->. reflexivity.
  - destruct s as [| b s]; [discriminate |].
    destruct (Ascii.eqb a b); [| discriminate]. cbn. rewrite (IH _ H). reflexivity.
Qed.

Lemma take_digits_length (s : string) : (len (take_digits s).2 <= len s)%nat.
Proof.
  induction s as [| c s IH]; cbn; [lia |].
  destruct (is_digit c); [| cbn; lia].
  destruct (take_digits s) as [ds r]. cbn in *. lia.
Qed.

Lemma decode_uXXXX_length (s r : string) (u : Z) :
  decode_uXXXX s = Some (u, r) → (len r < len s)%nat.
Proof.
  unfold decode_uXXXX.
  destruct s as [| a [| b [| c [| d s]]]]; try discriminate.
  destruct (hex_val a), (hex_val b), (hex_val c), (hex_val d); try discriminate.
  intros [= _ <-]. cbn. lia.
Qed.

Lemma scan_escape_length (s r chunk : string) :
  scan_escape s = Some (chunk, r) → (len r < len s)%nat.
Proof.
  unfold scan_escape. destruct s as [| c rest]; [discriminate |]. cbn [len].
  repeat match goal with
  | |- context [if Ascii.eqb c ?x then _ else _] =>
      destruct (Ascii.eqb c x); [intros [= _ <-]; lia |]
  end.
  destruct (Ascii.eqb c "u"); [| discriminate].
  destruct (decode_uXXXX rest) as [[uni rest1] |] eqn:E1; [| discriminate].
  apply decode_uXXXX_length in E1.
  destruct ((55296 <=? uni)%Z && (uni <=? 56319)%Z); [| intros [= _ <-]; lia].
  destruct (strip_prefix "\u" rest1) as [rest2 |] eqn:E2; [| intros [= _ <-]; lia].
  apply strip_prefix_length in E2. cbn in E2.
  destruct (decode_uXXXX rest2) as [[uni2 rest3] |] eqn:E3; [| discriminate].
  apply decode_uXXXX_length in E3.
  destruct ((56320 <=? uni2)%Z && (uni2 <=? 57343)%Z); intros [= _ <-]; lia.
Qed.

Lemma scanstring_loop_spec (fuel : nat) :
  ∀ s acc,
    (len s < fuel)%nat →
    scanstring_loop fuel s acc ≠ OutOfFuel ∧
    ∀ x r, scanstring_loop fuel s acc = Done x r → (len r < len s)%nat.
Proof.
  induction fuel as [| fuel IH]; intros s acc Hlt; [lia |].
  cbn [scanstring_loop]. destruct s as [| c rest]; [split; [discriminate | discriminate] |].
  cbn [len] in *.
  destruct (Ascii.eqb c dquote); [split; [discriminate | intros x r [= _ <-]; lia] |].
  destruct (Ascii.eqb c "\").
  - destruct (scan_escape rest) as [[chunk rest'] |] eqn:E; [| split; discriminate].
    apply scan_escape_length in E.
    destruct (IH rest' (acc +:+ chunk)) as [H1 H2]; [lia |].
    split; [exact H1 |]. intros x r H. specialize (H2 x r H). lia.
  - destruct (Z.of_N (N_of_ascii c) <? 32)%Z; [split; discriminate |].
    destruct (IH rest (acc +:+ String c EmptyString)) as [H1 H2]; [lia |].
    split; [exact H1 |]. intros x r H. specialize (H2 x r H). lia.
Qed.

Lemma scanstring_loop_no_error (fuel : nat) :
  ∀ s acc e, scanstring_loop fuel s acc ≠ Error e.
Proof.
  induction fuel as [| fuel IH]; intros s acc e; cbn [scanstring_loop]; [discriminate |].
  destruct s as [| c rest]; [discriminate |].
  destruct (Ascii.eqb c dquote); [discriminate |].
  destruct (Ascii.eqb c "\").
  - destruct (scan_escape rest) as [[chunk rest'] |]; [apply IH | discriminate].
  - destruct (Z.of_N (N_of_ascii c) <? 32)%Z; [discriminate | apply IH].
Qed.

Lemma scanstring_no_error (s : string) (e : exn) : scanstring s ≠ Error e.
Proof. apply scanstring_loop_no_error. Qed.

Lemma scanstring_spec (s : string) :
  scanstring s ≠ OutOfFuel ∧ ∀ x r, scanstring s = Done x r → (len r < len s)%nat.
Proof. apply scanstring_loop_spec. lia. Qed.

Lemma match_integer_length s neg ds r :
  match_integer s = Some (neg, ds, r) → (len r <= len s)%nat.
Proof.
  unfold match_integer.
  destruct (strip_prefix "-" s) as [s1 |] eqn:E1.
  - apply strip_prefix_length in E1.
    destruct (strip_prefix "0" s1) as [r0 |] eqn:E2.
    + apply strip_prefix_length in E2. intros [= _ _ <-]. lia.
    + pose proof (take_digits_length s1).
      destruct (take_digits s1) as [[| d ds'] r']; [discriminate |].
      intros [= _ _ <-]. cbn in *. lia.
  - destruct (strip_prefix "0" s) as [r0 |] eqn:E2.
    + apply strip_prefix_length in E2. intros [= _ _ <-]. lia.
    + pose proof (take_digits_length s).
      destruct (take_digits s) as [[| d ds'] r']; [discriminate |].
      intros [= _ _ <-]. cbn in *. lia.
Qed.

Lemma match_frac_length s fs r : match_frac s = Some (fs, r) → (len r <= len s)%nat.
Proof.
  unfold match_frac. destruct (strip_prefix "." s) as [s1 |] eqn:E1; [| discriminate].
  apply strip_prefix_length in E1. pose proof (take_digits_length s1).
  destruct (take_digits s1) as [[| d ds'] r']; [discriminate |].
  intros [= _ <-]. cbn in *. lia.
Qed.

Lemma match_exp_length s e r : match_exp s = Some (e, r) → (len r <= len s)%nat.
Proof.
  unfold match_exp.
  assert (∀ s1, len s = S (len s1) →
     (let '(neg, r1) :=
        match strip_prefix "-" s1 with
        | Some r' => (true, r')
        | None =>
            match strip_prefix "+" s1 with
            | Some r' => (false, r')
            | None => (false, s1)
            end
        end in
      match take_digits r1 with
      | (EmptyString, _) => None
      | (es, r2) => Some (if neg then (- digits_value es 0)%Z else digits_value es 0, r2)
      end) = Some (e, r) → (len r <= len s)%nat) as K.
  { intros s1 Hs1.
    destruct (strip_prefix "-" s1) as [r' |] eqn:E1;
      [| destruct (strip_prefix "+" s1) as [r' |] eqn:E2];
      try apply strip_prefix_length in E1; try apply strip_prefix_length in E2;
      match goal with |- context [take_digits ?x] =>
        pose proof (take_digits_length x); destruct (take_digits x) as [[| d ds'] r2]
      end; try discriminate; intros [= _ <-]; cbn in *; lia. }
  destruct (strip_prefix "e" s) as [s1 |] eqn:E1.
  - apply strip_prefix_length in E1. apply K. exact E1.
  - destruct (strip_prefix "E" s) as [s1 |] eqn:E2; [| discriminate].
    apply strip_prefix_length in E2. apply K. exact E2.
Qed.

Variable max_str_digits : nat.

Lemma match_number_length s v r :
  match_number max_str_digits s = Some (v, r) → (len r <= len s)%nat.
Proof.
  unfold match_number.
  destruct (match_integer s) as [[[neg ds] r0] |] eqn:E0; [| discriminate].
  apply match_integer_length in E0.
  destruct (match_frac r0) as [[fs r1] |] eqn:E1.
  - apply match_frac_length in E1.
    destruct (match_exp r1) as [[e r2] |] eqn:E2.
    + apply match_exp_length in E2. intros [= _ <-]. lia.
    + intros [= _ <-]. lia.
  - destruct (match_exp r0) as [[e r2] |] eqn:E2.
    + apply match_exp_length in E2. intros [= _ <-]. lia.
    + intros [= _ <-]. lia.
Qed.

Lemma scan_constant_length s v r :
  scan_constant max_str_digits s = Some (v, r) → (len r <= len s)%nat.
Proof.
  unfold scan_constant.
  repeat match goal with
  | |- context [strip_prefix ?lit s] =>
      let E := fresh "E" in
      destruct (strip_prefix lit s) eqn:E;
      [apply strip_prefix_length in E; intros [= _ <-]; lia |]
  | |- context [match_number _ s] =>
      let E := fresh "E" in
      destruct (match_number max_str_digits s) as [[v' r'] |] eqn:E;
      [apply match_number_length in E; intros [= _ <-]; lia |]
  end.
  discriminate.
Qed.

(** The one exception a number raises is the [ValueError] of [int]. *)
Lemma match_number_error s e r :
  match_number max_str_digits s = Some (Raise e, r) → e = ValueError.
Proof.
  unfold match_number, int_of_digits.
  destruct (match_integer s) as [[[neg ds] r0] |]; [| discriminate].
  destruct (match_frac r0) as [[fs r1] |].
  - destruct (match_exp r1) as [[x r2] |]; discriminate.
  - destruct (match_exp r0) as [[x r2] |]; [discriminate |].
    destruct (_ && _ && _)%bool; [| discriminate]. intros [= <- _]. reflexivity.
Qed.

Lemma scan_constant_error s e r :
  scan_constant max_str_digits s = Some (Raise e, r) → e = ValueError.
Proof.
  unfold scan_constant.
  repeat match goal with
  | |- context [strip_prefix ?lit s] => destruct (strip_prefix lit s); [discriminate |]
  | |- context [match_number _ s] =>
      let E := fresh "E" in
      destruct (match_number max_str_digits s) as [[v' r'] |] eqn:E;
      [intros [= -> ->]; apply match_number_error in E; exact E |]
  end.
  discriminate.
Qed.

(** Facts about the scrutinee being destructed, added to the context. *)
Ltac note_skip x :=
  lazymatch x with
  | skip_ws ?y => pose proof (skip_ws_length y)
  | _ => idtac
  end.

Ltac split_scan IHs IHm IHe :=
  repeat match goal with
  | |- context [match strip_prefix ?l ?x with _ => _ end] =>
      let E := fresh "E" in
      note_skip x;
      destruct (strip_prefix l x) eqn:E;
      [apply strip_prefix_length in E; cbn [String.length Nat.add] in E |]
  | |- context [match ?d with O => Error _ | S _ => _ end] => destruct d
  | |- context [match scanstring ?x with _ => _ end] =>
      let E := fresh "E" in
      let H1 := fresh "Hs" in let H2 := fresh "Hs" in
      let H3 := fresh "Hs" in
      destruct (scanstring_spec x) as [H1 H2];
      pose proof (scanstring_no_error x) as H3;
      destruct (scanstring x) eqn:E;
      [specialize (H2 _ _ eq_refl) | | exfalso; exact (H3 _ eq_refl) | ]
  | |- context [match scan_constant _ ?x with _ => _ end] =>
      let E := fresh "E" in
      destruct (scan_constant max_str_digits x) as [[[? | ?] ?] |] eqn:E;
      [apply scan_constant_length in E | apply scan_constant_error in E |]
  | |- context [match scan_once _ ?f ?d ?x with _ => _ end] =>
      let E := fresh "E" in
      let H1 := fresh "Hc" in let H2 := fresh "Hc" in
      let H3 := fresh "Hc" in
      note_skip x;
      destruct (IHs d x) as (H1 & H2 & H3);
      destruct (scan_once max_str_digits f d x) eqn:E;
      [specialize (H1 _ _ eq_refl) | | specialize (H3 _ eq_refl) | ]
  | |- context [match members _ ?f ?d ?x ?p with _ => _ end] =>
      let E := fresh "E" in
      let H1 := fresh "Hc" in let H2 := fresh "Hc" in
      let H3 := fresh "Hc" in
      note_skip x;
      destruct (IHm d x p) as (H1 & H2 & H3);
      destruct (members max_str_digits f d x p) eqn:E;
      [specialize (H1 _ _ eq_refl) | | specialize (H3 _ eq_refl) | ]
  | |- context [match elements _ ?f ?d ?x ?p with _ => _ end] =>
      let E := fresh "E" in
      let H1 := fresh "Hc" in let H2 := fresh "Hc" in
      let H3 := fresh "Hc" in
      note_skip x;
      destruct (IHe d x p) as (H1 & H2 & H3);
      destruct (elements max_str_digits f d x p) eqn:E;
      [specialize (H1 _ _ eq_refl) | | specialize (H3 _ eq_refl) | ]
  end.

Ltac leaf_done IHs IHm IHe :=
  intros ? ? ;
  first
    [ discriminate
    | intros [= _ <-]; lia
    | match goal with
      | |- members _ _ ?d ?x ?p = _ → _ =>
          let H := fresh in
          intros H; note_skip x; apply (proj1 (IHm d x p)) in H; lia
      | |- elements _ _ ?d ?x ?p = _ → _ =>
          let H := fresh in
          intros H; note_skip x; apply (proj1 (IHe d x p)) in H; lia
      end ].

Ltac leaf_fuel IHs IHm IHe :=
  intros ? ;
  first
    [ discriminate
    | exfalso; match goal with H : ?b → OutOfFuel ≠ OutOfFuel |- _ => apply H; [lia | reflexivity] end
    | match goal with H : OutOfFuel ≠ OutOfFuel |- _ => exfalso; apply H; reflexivity end
    | match goal with
      | |- members _ _ ?d ?x ?p ≠ _ => note_skip x; apply (proj1 (proj2 (IHm d x p))); lia
      | |- elements _ _ ?d ?x ?p ≠ _ => note_skip x; apply (proj1 (proj2 (IHe d x p))); lia
      end ].

Ltac leaf_error IHs IHm IHe :=
  intros ? ;
  first
    [ discriminate
    | intros [= <-]; first [left; reflexivity | right; reflexivity | assumption]
    | intros [= <-]; subst; right; reflexivity
    | match goal with
      | |- members _ _ ?d ?x ?p = _ → _ => apply (proj2 (proj2 (IHm d x p)))
      | |- elements _ _ ?d ?x ?p = _ → _ => apply (proj2 (proj2 (IHe d x p)))
      end ].

Lemma scan_spec (fuel : nat) :
  (∀ d s, (∀ v r, scan_once max_str_digits fuel d s = Done v r → (len r <= len s)%nat) ∧
        ((2 * len s + 1 <= fuel)%nat → scan_once max_str_digits fuel d s ≠ OutOfFuel) ∧
        (∀ e, scan_once max_str_digits fuel d s = Error e → of_interpreter e)) ∧
  (∀ d s ps,
        (∀ x r, members max_str_digits fuel d s ps = Done x r → (len r <= len s)%nat) ∧
        ((2 * len s + 1 <= fuel)%nat → members max_str_digits fuel d s ps ≠ OutOfFuel) ∧
        (∀ e, members max_str_digits fuel d s ps = Error e → of_interpreter e)) ∧
  (∀ d s vs,
        (∀ x r, elements max_str_digits fuel d s vs = Done x r → (len r <= len s)%nat) ∧
        ((2 * len s + 2 <= fuel)%nat → elements max_str_digits fuel d s vs ≠ OutOfFuel) ∧
        (∀ e, elements max_str_digits fuel d s vs = Error e → of_interpreter e)).
Proof.
  induction fuel as [| fuel (IHs & IHm & IHe)].
  - repeat split; intros; cbn in *; try discriminate; lia.
  - split; [| split].
    + intros d s. cbn [scan_once]. split; [| split].
      * split_scan IHs IHm IHe; leaf_done IHs IHm IHe.
      * split_scan IHs IHm IHe; leaf_fuel IHs IHm IHe.
      * split_scan IHs IHm IHe; leaf_error IHs IHm IHe.
    + intros d s ps. cbn [members]. split; [| split].
      * split_scan IHs IHm IHe; leaf_done IHs IHm IHe.
      * split_scan IHs IHm IHe; leaf_fuel IHs IHm IHe.
      * split_scan IHs IHm IHe; leaf_error IHs IHm IHe.
    + intros d s vs. cbn [elements]. split; [| split].
      * split_scan IHs IHm IHe; leaf_done IHs IHm IHe.
      * split_scan IHs IHm IHe; leaf_fuel IHs IHm IHe.
      * split_scan IHs IHm IHe; leaf_error IHs IHm IHe.
Qed.

End Decoder.

Section Loads.

Import json.

Abbreviation len := String.length.

Variable limits : sys.limits.

(** The decoder never runs out of the fuel it is started with. *)
Lemma decode_fuel (s : string) : decode limits s ≠ OutOfFuel.
Proof.
  unfold decode.
  pose proof (skip_ws_length s) as Hs.
  destruct (scan_spec (sys.int_max_str_digits limits) (2 * len s + 2)) as (Hscan & _ & _).
  destruct (Hscan (sys.recursion_room limits) (skip_ws s)) as (_ & Hfuel & _).
  destruct (scan_once _ (2 * len s + 2) _ (skip_ws s)) as [v rest | | e |].
  - destruct (skip_ws rest); discriminate.
  - discriminate.
  - discriminate.
  - exfalso. apply Hfuel; [lia | reflexivity].
Qed.

(** [json.loads] returns a value or raises [JSONDecodeError],
    [RecursionError] or [ValueError]. *)
Lemma loads_outcome (s : string) :
  (∃ v, loads limits s = Ok v) ∨ loads limits s = Raise JSONDecodeError ∨
  loads limits s = Raise RecursionError ∨ loads limits s = Raise ValueError.
Proof.
  unfold loads. pose proof (decode_fuel s) as H. revert H. unfold decode.
  destruct (scan_spec (sys.int_max_str_digits limits) (2 * len s + 2)) as (Hscan & _ & _).
  destruct (Hscan (sys.recursion_room limits) (skip_ws s)) as (_ & _ & Herr).
  destruct (scan_once _ (2 * len s + 2) _ (skip_ws s)) as [v rest | | e |].
  - destruct (skip_ws rest); [left; eauto | right; left; reflexivity].
  - right. left. reflexivity.
  - intros _. destruct (Herr e eq_refl) as [-> | ->]; right; right; [left | right]; reflexivity.
  - intros H. contradiction.
Qed.

(** What [json.loads] raises is an [Exception]. *)
Lemma loads_raises (s : string) (e : exn) :
  loads limits s = Raise e →
  e = JSONDecodeError ∨ e = RecursionError ∨ e = ValueError.
Proof.
  destruct (loads_outcome s) as [[v H] | [H | [H | H]]]; rewrite H; intros [= <-]; auto.
Qed.

(** A text that starts with an opening brace decodes to an object, if it
    decodes. *)
Lemma loads_object (r : string) (v : value) :
  loads limits (String "{" r) = Ok v → ∃ d : dict, v = VDict d.
Proof.
  unfold loads, decode.
  change (skip_ws (String "{" r)) with (String "{" r).
  destruct (2 * len (String "{" r) + 2)%nat as [| fuel] eqn:Ef; [cbn in Ef; lia |].
  cbn [scan_once].
  change (strip_prefix (String dquote EmptyString) (String "{" r)) with (@None string).
  change (strip_prefix "{" (String "{" r)) with (Some r).
  cbv beta iota.
  destruct (sys.recursion_room limits) as [| depth]; [discriminate |].
  destruct (strip_prefix "}" (skip_ws r)) as [r1 |].
  - destruct (skip_ws r1); [| discriminate]. intros H. injection H as <-. eauto.
  - destruct (members _ _ _ _ _) as [pairs r1 | | e |]; try discriminate.
    destruct (skip_ws r1); [| discriminate]. intros H. injection H as <-. eauto.
Qed.

Lemma loads_empty : loads limits "" = Raise JSONDecodeError.
Proof. reflexivity. Qed.

(** Where [find] finds the character, the text from there on starts with it. *)
Lemma find_from_spec (c : ascii) (s : string) :
  ∀ i : Z,
    find_from c s i = -1 ∨
    ∃ k : nat,
      find_from c s i = (i + Z.of_nat k)%Z ∧ (k < len s)%nat ∧
      ∀ m : nat, substring k m s = "" ∨ ∃ r, substring k m s = String c r.
Proof.
  induction s as [| a s IH]; intros i; cbn [find_from]; [left; reflexivity |].
  destruct (Ascii.eqb_spec a c) as [-> | Hne].
  - right. exists 0%nat. split; [lia |]. split; [cbn; lia |].
    intros [| m]; cbn; eauto.
  - destruct (IH (i + 1)%Z) as [H | (k & Hk & Hlt & Hsub)]; [left; exact H |].
    right. exists (S k). split; [lia |]. split; [cbn; lia |]. exact Hsub.
Qed.

Lemma slice_find (text : string) (c : ascii) (hi : Z) :
  find text c ≠ -1 →
  slice text (find text c) hi = "" ∨ ∃ r, slice text (find text c) hi = String c r.
Proof.
  unfold find. intros Hf.
  destruct (find_from_spec c text 0) as [H | (k & Hk & Hlt & Hsub)]; [contradiction |].
  rewrite Hk. unfold slice.
  assert ((if (0 + Z.of_nat k <? 0)%Z
           then Z.max (0 + Z.of_nat k + Z.of_nat (len text)) 0
           else Z.min (0 + Z.of_nat k) (Z.of_nat (len text))) = Z.of_nat k) as ->.
  { destruct (Z.ltb_spec (0 + Z.of_nat k) 0); lia. }
  rewrite Nat2Z.id. apply Hsub.
Qed.

End Loads.

(** ** The agent: calling the model and reading its reply *)

Lemma Ok_inj {A : Type} (a b : A) : Ok a = Ok b → a = b.
Proof. intros H. injection H as H. exact H. Qed.

Section Agent.

Import FitnessAdvisorAgent.

Variables (limits : sys.limits) (now : datetime).
Variables (heart_rate : Z) (sleep_hours : spec_float) (stress_level : Z).

Lemma json_end_zero (text : string) : (rfind text "}" + 1 =? 0) = (rfind text "}" =? -1).
Proof.
  destruct (Z.eqb_spec (rfind text "}") (-1)) as [-> | H]; [reflexivity |].
  apply Z.eqb_neq. lia.
Qed.

(** No opening or no closing brace: the generic record. *)
Lemma parse_no_braces (text : string) :
  no_braces text →
  _parse_response limits now text heart_rate sleep_hours stress_level =
    Ok (generic_record now heart_rate sleep_hours stress_level).
Proof.
  intros H. unfold _parse_response. rewrite json_end_zero.
  assert ((negb (find text "{" =? -1) && negb (rfind text "}" =? -1)) = false) as ->.
  { destruct H as [-> | ->]; [reflexivity | apply andb_false_r]. }
  reflexivity.
Qed.

Lemma parse_braces_found (text : string) :
  find text "{" ≠ -1 → rfind text "}" ≠ -1 →
  (negb (find text "{" =? -1) && negb (rfind text "}" + 1 =? 0)) = true.
Proof.
  intros H1 H2. rewrite json_end_zero.
  apply Z.eqb_neq in H1, H2. rewrite H1, H2. reflexivity.
Qed.

(** With both braces found, the reply is read through [json_text] only. *)
Lemma parse_braces (text : string) :
  find text "{" ≠ -1 → rfind text "}" ≠ -1 →
  _parse_response limits now text heart_rate sleep_hours stress_level =
  try_except
    (response_json ← json.loads limits (json_text text);
     setitem response_json "input_metrics"
       (input_metrics now heart_rate sleep_hours stress_level))
    is_JSONDecodeError
    (fun _ => Ok (_get_fallback_recommendation now heart_rate sleep_hours stress_level)).
Proof.
  intros H1 H2. unfold _parse_response.
  rewrite parse_braces_found by assumption. reflexivity.
Qed.

(** Braces found and an object decoded: that object, with [input_metrics]. *)
Lemma parse_object (text : string) (d : dict) :
  find text "{" ≠ -1 → rfind text "}" ≠ -1 →
  json.loads limits (json_text text) = Ok (VDict d) →
  _parse_response limits now text heart_rate sleep_hours stress_level =
    Ok (<["input_metrics" := input_metrics now heart_rate sleep_hours stress_level]> d).
Proof.
  intros H1 H2 H. rewrite parse_braces by assumption. rewrite H. reflexivity.
Qed.

(** Braces found and the text between them rejected: the rule-based record. *)
Lemma parse_malformed (text : string) :
  malformed limits text →
  _parse_response limits now text heart_rate sleep_hours stress_level =
    Ok (_get_fallback_recommendation now heart_rate sleep_hours stress_level).
Proof.
  intros (H1 & H2 & H). rewrite parse_braces by assumption. rewrite H. reflexivity.
Qed.

(** With both braces found, what the decoder returns is an object. *)
Lemma json_text_object (text : string) (v : value) :
  find text "{" ≠ -1 →
  json.loads limits (json_text text) = Ok v → ∃ d : dict, v = VDict d.
Proof.
  intros Hf Hv. unfold json_text in Hv.
  destruct (slice_find text "{" (rfind text "}" + 1) Hf) as [He | [r Hr]].
  - rewrite He, loads_empty in Hv. discriminate Hv.
  - rewrite Hr in Hv. apply loads_object in Hv. exact Hv.
Qed.

Lemma fallback_has_fields :
  has_fields agent_fields (_get_fallback_recommendation now heart_rate sleep_hours stress_level).
Proof.
  unfold has_fields, agent_fields, _get_fallback_recommendation.
  destruct ((heart_rate >? 100) || float_lt_int sleep_hours 4 || (stress_level >=? 8));
    [| destruct ((heart_rate >? 85) || float_lt_int sleep_hours 6 || (stress_level >=? 6))];
    cbv zeta; repeat constructor; eexists; reflexivity.
Qed.

Lemma generic_record_has_fields :
  has_fields agent_fields (generic_record now heart_rate sleep_hours stress_level).
Proof. unfold has_fields, agent_fields. repeat constructor; eexists; reflexivity. Qed.

(** The generic record is not a record of the classifier. *)
Lemma generic_record_distinct :
  generic_record now heart_rate sleep_hours stress_level ≠
  _get_fallback_recommendation now heart_rate sleep_hours stress_level.
Proof.
  intros H.
  assert (generic_record now heart_rate sleep_hours stress_level !! "modifications" =
          _get_fallback_recommendation now heart_rate sleep_hours stress_level
            !! "modifications") as K by (rewrite H; reflexivity).
  revert K. unfold _get_fallback_recommendation.
  destruct ((heart_rate >? 100) || float_lt_int sleep_hours 4 || (stress_level >=? 8));
    [| destruct ((heart_rate >? 85) || float_lt_int sleep_hours 6 || (stress_level >=? 6))];
    cbv zeta; discriminate.
Qed.

Lemma fallback_echo :
  _get_fallback_recommendation now heart_rate sleep_hours stress_level !! "input_metrics" =
  Some (input_metrics now heart_rate sleep_hours stress_level).
Proof.
  unfold _get_fallback_recommendation.
  destruct ((heart_rate >? 100) || float_lt_int sleep_hours 4 || (stress_level >=? 8));
    [| destruct ((heart_rate >? 85) || float_lt_int sleep_hours 6 || (stress_level >=? 6))];
    reflexivity.
Qed.

(** [_parse_response] raises exactly what [json.loads] raises on the text
    between the braces, a [JSONDecodeError] apart: the [RecursionError] and
    the [ValueError] of the interpreter. *)
Lemma parse_raises (text : string) (e : exn) :
  _parse_response limits now text heart_rate sleep_hours stress_level = Raise e ↔
  find text "{" ≠ -1 ∧ rfind text "}" ≠ -1 ∧
  json.loads limits (json_text text) = Raise e ∧ of_interpreter e.
Proof.
  destruct (Z.eq_dec (find text "{") (-1)) as [Hf | Hf].
  { rewrite parse_no_braces by (left; exact Hf).
    split; [discriminate | intros (H & _); contradiction]. }
  destruct (Z.eq_dec (rfind text "}") (-1)) as [Hr | Hr].
  { rewrite parse_no_braces by (right; exact Hr).
    split; [discriminate | intros (_ & H & _); contradiction]. }
  rewrite parse_braces by assumption.
  destruct (loads_outcome limits (json_text text)) as [[v Hv] | [Hv | [Hv | Hv]]];
    rewrite Hv.
  - destruct (json_text_object text v Hf Hv) as [d ->].
    split; [discriminate | intros (_ & _ & H & _); discriminate H].
  - split; [discriminate |].
    intros (_ & _ & H & [-> | ->]); discriminate H.
  - split.
    + intros H. injection H as <-. repeat split; try assumption. left. reflexivity.
    + intros (_ & _ & H & _). injection H as <-. reflexivity.
  - split.
    + intros H. injection H as <-. repeat split; try assumption. right. reflexivity.
    + intros (_ & _ & H & _). injection H as <-. reflexivity.
Qed.

(** [_parse_response] returns a record, or raises one of the two. *)
Lemma parse_outcome (text : string) :
  (∃ d : dict, _parse_response limits now text heart_rate sleep_hours stress_level = Ok d) ∨
  (∃ e, _parse_response limits now text heart_rate sleep_hours stress_level = Raise e ∧
        of_interpreter e).
Proof.
  destruct (_parse_response limits now text heart_rate sleep_hours stress_level)
    as [d | e] eqn:E; [left; eauto |].
  right. exists e. split; [reflexivity |]. apply parse_raises in E. apply E.
Qed.

Lemma parse_raises_Exception (text : string) (e : exn) :
  _parse_response limits now text heart_rate sleep_hours stress_level = Raise e →
  is_Exception e = true.
Proof. intros H. apply parse_raises in H as (_ & _ & _ & [-> | ->]); reflexivity. Qed.

(** Every record [_parse_response] returns echoes the inputs. *)
Lemma parse_echo (text : string) (d : dict) :
  _parse_response limits now text heart_rate sleep_hours stress_level = Ok d →
  d !! "input_metrics" = Some (input_metrics now heart_rate sleep_hours stress_level).
Proof.
  destruct (Z.eq_dec (find text "{") (-1)) as [Hf | Hf].
  { rewrite parse_no_braces by (left; exact Hf).
    intros H. apply Ok_inj in H. subst d. apply lookup_insert_eq. }
  destruct (Z.eq_dec (rfind text "}") (-1)) as [Hr | Hr].
  { rewrite parse_no_braces by (right; exact Hr).
    intros H. apply Ok_inj in H. subst d. apply lookup_insert_eq. }
  rewrite parse_braces by assumption.
  destruct (loads_outcome limits (json_text text)) as [[v Hv] | [Hv | [Hv | Hv]]];
    rewrite Hv; try discriminate.
  - destruct (json_text_object text v Hf Hv) as [d0 ->].
    cbn. intros H. apply Ok_inj in H. subst d. apply lookup_insert_eq.
  - cbn. intros H. apply Ok_inj in H. subst d. apply fallback_echo.
Qed.

Variables (service : openai.endpoint) (prompt_time : datetime) (self : agent).
Variable previous_workout : option string.
Variable calls : list openai.Call.

(** The request of the one call [analyze_health_status] makes. *)
Abbreviation the_request :=
  (request self
     (_create_prompt prompt_time heart_rate sleep_hours stress_level previous_workout)).

(** [analyze_health_status] makes one call, whatever comes of it, and its
    outcome is decided by the answer to that call alone. *)
Lemma analyze_unfold :
  analyze_health_status limits service prompt_time now self heart_rate sleep_hours
    stress_level previous_workout calls =
  (try_except
     (response ← service calls (client self) the_request;
      choice ← match openai.choices response with
               | choice :: _ => Ok choice
               | [] => Raise IndexError
               end;
      match openai.message_content (openai.message choice) with
      | Some ai_response =>
          _parse_response limits now ai_response heart_rate sleep_hours stress_level
      | None => Raise AttributeError
      end)
     is_Exception
     (fun _ => Ok (_get_fallback_recommendation now heart_rate sleep_hours stress_level)),
   (calls ++ [(client self, the_request)])%list).
Proof.
  unfold analyze_health_status, st_try_except, openai.create, lift, mbind, stateful_bind,
    st_bind, mret, stateful_ret, st_ret.
  destruct (service calls (client self) the_request) as [response | e]; cbn.
  - destruct (openai.choices response) as [| choice choices]; cbn; [reflexivity |].
    destruct (openai.message_content (openai.message choice)) as [ai_response |];
      [| reflexivity].
    destruct (_parse_response limits now ai_response heart_rate sleep_hours stress_level)
      as [d | e]; [reflexivity |].
    cbn. destruct (is_Exception e); reflexivity.
  - destruct (is_Exception e); reflexivity.
Qed.

Lemma analyze_calls :
  (analyze_health_status limits service prompt_time now self heart_rate sleep_hours
     stress_level previous_workout calls).2 =
  (calls ++ [(client self, the_request)])%list.
Proof. rewrite analyze_unfold. reflexivity. Qed.

(** [analyze_health_status] returns a record whenever the call to the model
    returns or raises an [Exception]. *)
Lemma analyze_total :
  (∀ e, service calls (client self) the_request = Raise e → is_Exception e = true) →
  ∃ d : dict,
    analyze_health_status limits service prompt_time now self heart_rate sleep_hours
      stress_level previous_workout calls =
    (Ok d, (calls ++ [(client self, the_request)])%list).
Proof.
  intros He. rewrite analyze_unfold.
  destruct (service calls (client self) the_request) as [response | e]; cbn.
  - destruct (openai.choices response) as [| choice choices]; cbn; [eauto |].
    destruct (openai.message_content (openai.message choice)) as [ai_response |]; [| eauto].
    destruct (parse_outcome ai_response) as [[d ->] | (e & -> & [-> | ->])]; cbn; eauto.
  - rewrite (He e eq_refl). eauto.
Qed.

(** A failed call gives the rule-based record, and is not made again. *)
Lemma analyze_on_failure (e : exn) :
  service calls (client self) the_request = Raise e →
  is_Exception e = true →
  analyze_health_status limits service prompt_time now self heart_rate sleep_hours
    stress_level previous_workout calls =
  (Ok (_get_fallback_recommendation now heart_rate sleep_hours stress_level),
   (calls ++ [(client self, the_request)])%list).
Proof.
  intros H He. rewrite analyze_unfold, H. cbn. rewrite He. reflexivity.
Qed.

(** A reply [_parse_response] cannot take gives the rule-based record. *)
Lemma analyze_on_parse_error (response : openai.ChatCompletion) (text : string) (e : exn) :
  service calls (client self) the_request = Ok response →
  first_content response = Some text →
  _parse_response limits now text heart_rate sleep_hours stress_level = Raise e →
  analyze_health_status limits service prompt_time now self heart_rate sleep_hours
    stress_level previous_workout calls =
  (Ok (_get_fallback_recommendation now heart_rate sleep_hours stress_level),
   (calls ++ [(client self, the_request)])%list).
Proof.
  intros H Hc Hp. rewrite analyze_unfold, H. unfold first_content in Hc. cbn.
  destruct (openai.choices response) as [| choice choices]; [discriminate Hc |].
  cbn. rewrite Hc, Hp. cbn. rewrite (parse_raises_Exception text e Hp). reflexivity.
Qed.

Lemma analyze_raises (e : exn) :
  (analyze_health_status limits service prompt_time now self heart_rate sleep_hours
     stress_level previous_workout calls).1 = Raise e ↔
  service calls (client self) the_request = Raise e ∧ is_Exception e = false.
Proof.
  rewrite analyze_unfold. cbn [fst].
  destruct (service calls (client self) the_request) as [response | e0]; cbn.
  - split; [| intros [H _]; discriminate H].
    destruct (openai.choices response) as [| choice choices]; cbn; [discriminate |].
    destruct (openai.message_content (openai.message choice)) as [ai_response |];
      [| discriminate].
    destruct (parse_outcome ai_response) as [[d ->] | (e1 & -> & [-> | ->])]; discriminate.
  - destruct (is_Exception e0) eqn:E.
    + split; [discriminate |]. intros [H He]. injection H as ->. congruence.
    + split.
      * intros H. injection H as ->. split; [reflexivity | exact E].
      * intros [H _]. injection H as ->. reflexivity.
Qed.

Lemma analyze_echo (d : dict) :
  (analyze_health_status limits service prompt_time now self heart_rate sleep_hours
     stress_level previous_workout calls).1 = Ok d →
  d !! "input_metrics" = Some (input_metrics now heart_rate sleep_hours stress_level).
Proof.
  rewrite analyze_unfold. cbn [fst].
  destruct (service calls (client self) the_request) as [response | e0]; cbn.
  - destruct (openai.choices response) as [| choice choices]; cbn.
    + intros H. apply Ok_inj in H. subst d. apply fallback_echo.
    + destruct (openai.message_content (openai.message choice)) as [ai_response |].
      * destruct (_parse_response limits now ai_response heart_rate sleep_hours stress_level)
          as [d0 | e0] eqn:E.
        -- intros H. apply Ok_inj in H. subst d0. eapply parse_echo, E.
        -- cbn. rewrite (parse_raises_Exception _ _ E).
           intros H. apply Ok_inj in H. subst d. apply fallback_echo.
      * intros H. apply Ok_inj in H. subst d. apply fallback_echo.
  - destruct (is_Exception e0); [| discriminate].
    intros H. apply Ok_inj in H. subst d. apply fallback_echo.
Qed.

Lemma analyze_no_content (response : openai.ChatCompletion) :
  service calls (client self) the_request = Ok response → first_content response = None →
  analyze_health_status limits service prompt_time now self heart_rate sleep_hours
    stress_level previous_workout calls =
  (Ok (_get_fallback_recommendation now heart_rate sleep_hours stress_level),
   (calls ++ [(client self, the_request)])%list).
Proof.
  intros H Hc. rewrite analyze_unfold, H. unfold first_content in Hc. cbn.
  destruct (openai.choices response) as [| choice choices]; cbn; [reflexivity |].
  rewrite Hc. reflexivity.
Qed.

End Agent.

Lemma api_failures_are_Exceptions (status_code : Z) :
  Forall (fun e => is_Exception e = true)
    [APIConnectionError; AuthenticationError; APITimeoutError; APIStatusError status_code].
Proof. repeat constructor. Qed.

(** C2.  When the call to the model raises an [Exception] (a connection
    error, an authentication error, a timeout, an error status),
    [analyze_health_status] raises nothing and does not call the service
    again: the calls made when it returns are the earlier ones and that one
    request, so what the service would answer to a second attempt plays no
    part.  It returns the record of [_get_fallback_recommendation] for the
    same three inputs, which carries every field of a recommendation. *)
Theorem C2_call_failure_falls_back :
  ∀ limits service prompt_time now self heart_rate sleep_hours stress_level
    previous_workout calls e,
    service calls (FitnessAdvisorAgent.client self)
      (FitnessAdvisorAgent.request self
         (FitnessAdvisorAgent._create_prompt prompt_time heart_rate sleep_hours stress_level
            previous_workout)) = Raise e →
    is_Exception e = true →
    FitnessAdvisorAgent.analyze_health_status limits service prompt_time now self heart_rate
      sleep_hours stress_level previous_workout calls =
      (Ok (FitnessAdvisorAgent._get_fallback_recommendation now heart_rate sleep_hours
             stress_level),
       (calls ++
        [(FitnessAdvisorAgent.client self,
          FitnessAdvisorAgent.request self
            (FitnessAdvisorAgent._create_prompt prompt_time heart_rate sleep_hours
               stress_level previous_workout))])%list) ∧
    has_fields agent_fields
      (FitnessAdvisorAgent._get_fallback_recommendation now heart_rate sleep_hours
         stress_level).
Proof.
  intros. split.
  - eapply analyze_on_failure; eassumption.
  - apply fallback_has_fields.
Qed.

(** C2 at work: a service that times out on the first call and would answer
    the second.  The agent makes the one call and returns the rule-based
    record. *)
Lemma C2_witness :
  FitnessAdvisorAgent.analyze_health_status default_limits (failing_once reply_rest) a_time
    a_time fallback_mode_agent 105 sleep_6 5 None [] =
    (Ok (FitnessAdvisorAgent._get_fallback_recommendation a_time 105 sleep_6 5),
     ([] ++
      [(FitnessAdvisorAgent.client fallback_mode_agent,
        FitnessAdvisorAgent.request fallback_mode_agent
          (FitnessAdvisorAgent._create_prompt a_time 105 sleep_6 5 None))])%list) ∧
  has_fields agent_fields (FitnessAdvisorAgent._get_fallback_recommendation a_time 105 sleep_6 5).
Proof.
  apply (C2_call_failure_falls_back default_limits (failing_once reply_rest) a_time a_time
           fallback_mode_agent 105 sleep_6 5 None [] APITimeoutError); reflexivity.
Defined.

(** C8.  [previous_workout] plays no part in a rule-based classification:
    the API fallback returns the same record whatever its value (absent
    included), and the agent, whose [_get_fallback_recommendation] does not
    take it, returns the same record on a failed call whatever its value. *)
Theorem C8_previous_workout_ignored :
  (∀ heart_rate sleep_hours stress_level previous_workout previous_workout',
     FallbackAdvisor.analyze_health_status heart_rate sleep_hours stress_level
       previous_workout =
     FallbackAdvisor.analyze_health_status heart_rate sleep_hours stress_level
       previous_workout') ∧
  (∀ limits service prompt_time prompt_time' now self heart_rate sleep_hours stress_level
     previous_workout previous_workout' calls calls' e e',
     service calls (FitnessAdvisorAgent.client self)
       (FitnessAdvisorAgent.request self
          (FitnessAdvisorAgent._create_prompt prompt_time heart_rate sleep_hours
             stress_level previous_workout)) = Raise e →
     is_Exception e = true →
     service calls' (FitnessAdvisorAgent.client self)
       (FitnessAdvisorAgent.request self
          (FitnessAdvisorAgent._create_prompt prompt_time' heart_rate sleep_hours
             stress_level previous_workout')) = Raise e' →
     is_Exception e' = true →
     (FitnessAdvisorAgent.analyze_health_status limits service prompt_time now self
        heart_rate sleep_hours stress_level previous_workout calls).1 =
     (FitnessAdvisorAgent.analyze_health_status limits service prompt_time' now self
        heart_rate sleep_hours stress_level previous_workout' calls').1).
Proof.
  split.
  - reflexivity.
  - intros * H He H' He'.
    rewrite (analyze_on_failure _ _ _ _ _ _ _ _ _ _ _ H He).
    rewrite (analyze_on_failure _ _ _ _ _ _ _ _ _ _ _ H' He').
    reflexivity.
Qed.

(** C8 at work: the second example of [main], with and without a previous
    workout. *)
Lemma C8_witness :
  FallbackAdvisor.analyze_health_status 78 sleep_4_5 8 (Some "Intense cardio") =
    FallbackAdvisor.analyze_health_status 78 sleep_4_5 8 None ∧
  (FitnessAdvisorAgent.analyze_health_status default_limits refusing a_time a_time
     fallback_mode_agent 78 sleep_4_5 8 (Some "Intense cardio") []).1 =
    (FitnessAdvisorAgent.analyze_health_status default_limits refusing a_time a_time
       fallback_mode_agent 78 sleep_4_5 8 None []).1.
Proof.
  split.
  - apply (proj1 C8_previous_workout_ignored).
  - apply (proj2 C8_previous_workout_ignored default_limits refusing a_time a_time a_time
             fallback_mode_agent 78 sleep_4_5 8 (Some "Intense cardio") None [] []
             AuthenticationError AuthenticationError); reflexivity.
Defined.

(** The sample replies, evaluated. *)
Lemma reply_deep_is_valid :
  find reply_deep "{" ≠ -1 ∧ rfind reply_deep "}" ≠ -1 ∧
  json.loads wide_limits (json_text reply_deep) =
    Ok (VDict (dict_of_pairs [("plan", nested_lists 1099)])).
Proof. repeat split; vm_compute; congruence. Qed.

Lemma reply_deep_raises :
  FitnessAdvisorAgent._parse_response default_limits a_time reply_deep 72 sleep_7_5 4 =
  Raise RecursionError.
Proof. vm_compute. reflexivity. Qed.

(** C4 as stated fails: a reply that is a JSON object by the grammar, holding
    1100 arrays one inside the other, is more than the interpreter has room
    to decode, and [_parse_response] raises [RecursionError] instead of
    returning the object. *)
Lemma C4_counterexample :
  ¬ (find reply_deep "{" ≠ -1 → rfind reply_deep "}" ≠ -1 →
     valid_json_object (json_text reply_deep) →
     ∃ r : dict,
       FitnessAdvisorAgent._parse_response default_limits a_time reply_deep 72 sleep_7_5 4 =
       Ok r).
Proof.
  intros H. destruct reply_deep_is_valid as (H1 & H2 & H3).
  destruct H as [r Hr]; [exact H1 | exact H2 | |].
  - exists wide_limits. eexists. exact H3.
  - rewrite reply_deep_raises in Hr. discriminate Hr.
Qed.

(** C4, amended.  When the reply has an opening and a closing brace and
    [json.loads], within the limits of the interpreter, decodes the text from
    the first opening brace through the last closing brace to an object,
    [_parse_response] returns that object with the entry [input_metrics] set
    to the heart rate, the sleep hours, the stress level and the time stamp;
    every other entry is the decoded one (an [alert_level] of "rest" stays
    "rest"). *)
Theorem C4_parsed_object_kept :
  ∀ limits now text heart_rate sleep_hours stress_level (d : dict),
    find text "{" ≠ -1 → rfind text "}" ≠ -1 →
    json.loads limits (json_text text) = Ok (VDict d) →
    ∃ r : dict,
      FitnessAdvisorAgent._parse_response limits now text heart_rate sleep_hours
        stress_level = Ok r ∧
      r = <["input_metrics" :=
              FitnessAdvisorAgent.input_metrics now heart_rate sleep_hours stress_level]> d ∧
      (∃ m : dict, r !! "input_metrics" = Some (VDict m) ∧
         m !! "heart_rate_bpm" = Some (VInt heart_rate) ∧
         m !! "sleep_hours" = Some (VFloat sleep_hours) ∧
         m !! "stress_level" = Some (VInt stress_level) ∧
         m !! "timestamp" = Some (VStr (isoformat now))) ∧
      (∀ k, k ≠ "input_metrics" → r !! k = d !! k) ∧
      (d !! "alert_level" = Some (VStr "rest") → r !! "alert_level" = Some (VStr "rest")).
Proof.
  intros * H1 H2 H. eexists.
  split; [apply (parse_object limits now heart_rate sleep_hours stress_level text d H1 H2 H) |].
  split; [reflexivity |]. split; [| split].
  - eexists. split; [apply lookup_insert_eq |]. repeat split; reflexivity.
  - intros k Hk. apply lookup_insert_ne. congruence.
  - intros Hr. rewrite lookup_insert_ne by discriminate. exact Hr.
Qed.

(** C4 at work: a reply that wraps an object with [alert_level] "rest". *)
Lemma C4_witness :
  ∃ r : dict,
    FitnessAdvisorAgent._parse_response default_limits a_time reply_rest 72 sleep_7_5 4 =
      Ok r ∧
    r = <["input_metrics" := FitnessAdvisorAgent.input_metrics a_time 72 sleep_7_5 4]>
          (dict_of_pairs [("alert_level", VStr "rest"); ("should_train", VBool false)]) ∧
    (∃ m : dict, r !! "input_metrics" = Some (VDict m) ∧
       m !! "heart_rate_bpm" = Some (VInt 72) ∧
       m !! "sleep_hours" = Some (VFloat sleep_7_5) ∧
       m !! "stress_level" = Some (VInt 4) ∧
       m !! "timestamp" = Some (VStr (isoformat a_time))) ∧
    (∀ k, k ≠ "input_metrics" →
       r !! k =
       dict_of_pairs [("alert_level", VStr "rest"); ("should_train", VBool false)] !! k) ∧
    (dict_of_pairs [("alert_level", VStr "rest"); ("should_train", VBool false)]
       !! "alert_level" = Some (VStr "rest") →
     r !! "alert_level" = Some (VStr "rest")).
Proof.
  apply (C4_parsed_object_kept default_limits a_time reply_rest 72 sleep_7_5 4
           (dict_of_pairs [("alert_level", VStr "rest"); ("should_train", VBool false)])).
  - vm_compute. discriminate.
  - vm_compute. discriminate.
  - vm_compute. reflexivity.
Defined.

Lemma reply_malformed_is_malformed : malformed default_limits reply_malformed.
Proof. repeat split; vm_compute; congruence. Qed.

(** C3 as stated fails: a reply whose braces hold malformed text is a parse
    failure, and [_parse_response] answers it with the record of the
    threshold classifier (here the low tier), not with the generic record. *)
Lemma C3_counterexample :
  ¬ (parse_failure default_limits reply_malformed →
     FitnessAdvisorAgent._parse_response default_limits a_time reply_malformed 72 sleep_7_5
       4 =
       Ok (generic_record a_time 72 sleep_7_5 4)).
Proof.
  intros H.
  specialize (H (or_intror reply_malformed_is_malformed)).
  rewrite (parse_malformed default_limits a_time 72 sleep_7_5 4 _
             reply_malformed_is_malformed) in H.
  apply Ok_inj in H. symmetry in H.
  exact (generic_record_distinct a_time 72 sleep_7_5 4 H).
Qed.

(** C3, amended.  When the reply has no opening or no closing brace,
    [_parse_response] returns the one fixed generic medium-alert record with
    [input_metrics] attached.  When both braces are found and the text
    between them is rejected by the decoder with a [JSONDecodeError], it
    returns the record of the threshold classifier for the same inputs.
    Both records carry every field and the same [input_metrics], and the
    generic record is never the classifier's.  [_parse_response] raises in
    one case only: when [json.loads] raises the [RecursionError] or the
    [ValueError] of the interpreter on the text between the braces, which
    its handler for [JSONDecodeError] does not catch; the handler of
    [analyze_health_status] catches it and returns the record of the
    threshold classifier, so that the client returns a record for every
    reply. *)
Theorem C3_parse_failure_paths :
  ∀ limits now text heart_rate sleep_hours stress_level,
    let generic := generic_record now heart_rate sleep_hours stress_level in
    let rule_based :=
      FitnessAdvisorAgent._get_fallback_recommendation now heart_rate sleep_hours
        stress_level in
    (no_braces text →
       FitnessAdvisorAgent._parse_response limits now text heart_rate sleep_hours
         stress_level = Ok generic) ∧
    (malformed limits text →
       FitnessAdvisorAgent._parse_response limits now text heart_rate sleep_hours
         stress_level = Ok rule_based) ∧
    (∀ e,
       FitnessAdvisorAgent._parse_response limits now text heart_rate sleep_hours
         stress_level = Raise e ↔
       find text "{" ≠ -1 ∧ rfind text "}" ≠ -1 ∧
       json.loads limits (json_text text) = Raise e ∧
       (e = RecursionError ∨ e = ValueError)) ∧
    (∀ service prompt_time self previous_workout calls response,
       service calls (FitnessAdvisorAgent.client self)
         (FitnessAdvisorAgent.request self
            (FitnessAdvisorAgent._create_prompt prompt_time heart_rate sleep_hours
               stress_level previous_workout)) = Ok response →
       first_content response = Some text →
       ∃ d : dict,
         (FitnessAdvisorAgent.analyze_health_status limits service prompt_time now self
            heart_rate sleep_hours stress_level previous_workout calls).1 = Ok d ∧
         (∀ e,
            FitnessAdvisorAgent._parse_response limits now text heart_rate sleep_hours
              stress_level = Raise e → d = rule_based)) ∧
    generic !! "alert_level" = Some (VStr "medium") ∧
    generic !! "should_train" = Some (VBool true) ∧
    generic !! "duration_minutes" = Some (VInt 30) ∧
    generic ≠ rule_based ∧
    has_fields agent_fields generic ∧ has_fields agent_fields rule_based ∧
    generic !! "input_metrics" =
      Some (FitnessAdvisorAgent.input_metrics now heart_rate sleep_hours stress_level) ∧
    rule_based !! "input_metrics" =
      Some (FitnessAdvisorAgent.input_metrics now heart_rate sleep_hours stress_level).
Proof.
  intros. subst generic rule_based.
  split; [apply parse_no_braces |]. split; [apply parse_malformed |].
  split; [intros e; apply parse_raises |].
  split.
  { intros service prompt_time self previous_workout calls response Hs Hc.
    destruct (FitnessAdvisorAgent._parse_response limits now text heart_rate sleep_hours
                stress_level) as [d | e] eqn:E.
    - exists d. split; [| discriminate].
      rewrite analyze_unfold, Hs. unfold first_content in Hc. cbn.
      destruct (openai.choices response) as [| choice choices]; [discriminate Hc |].
      cbn. rewrite Hc, E. reflexivity.
    - eexists. split; [| reflexivity].
      rewrite (analyze_on_parse_error limits now heart_rate sleep_hours stress_level service
                 prompt_time self previous_workout calls response text e Hs Hc E).
      reflexivity. }
  do 3 (split; [reflexivity |]).
  split; [apply generic_record_distinct |].
  split; [apply generic_record_has_fields |].
  split; [apply fallback_has_fields |].
  split; [reflexivity |].
  apply fallback_echo.
Qed.

(** C3 at work: a reply without braces and a reply with malformed braces. *)
Lemma C3_witness :
  FitnessAdvisorAgent._parse_response default_limits a_time reply_no_braces 72 sleep_7_5 4 =
    Ok (generic_record a_time 72 sleep_7_5 4) ∧
  FitnessAdvisorAgent._parse_response default_limits a_time reply_malformed 72 sleep_7_5 4 =
    Ok (FitnessAdvisorAgent._get_fallback_recommendation a_time 72 sleep_7_5 4).
Proof.
  split.
  - apply (proj1 (C3_parse_failure_paths default_limits a_time reply_no_braces 72 sleep_7_5
                    4)).
    left. reflexivity.
  - apply (proj1 (proj2 (C3_parse_failure_paths default_limits a_time reply_malformed 72
                           sleep_7_5 4))).
    repeat split; vm_compute; congruence.
Defined.

(** C6 as stated fails: the key of the fallback mode is refused by the
    service on every request, and the agent is constructed with it all the
    same. *)
Lemma C6_counterexample :
  ¬ (unusable refusing "dummy-key" →
     ∃ e, FitnessAdvisorAgent.__init__ (Ok openai.OpenAI) "dummy-key"
            FitnessAdvisorAgent.default_model = Raise e).
Proof.
  intros H. destruct H as [e H].
  - intros calls client request _. reflexivity.
  - discriminate H.
Qed.

(** C6, amended.  [FitnessAdvisorAgent.__init__] makes no check of the
    credential and no call to the service.  Whatever the constructor of the
    client library is, it returns an agent holding the constructor's client
    exactly when the constructor returns one for the key, and raises what the
    import or the constructor raises, an [ImportError] as its own
    [ImportError] asking to install the package.  So a key fails at
    construction only if the constructor itself rejects it (the library's
    rejects the empty key); the key "dummy-key" gives an agent.  A key the
    service refuses shows at call time, where [analyze_health_status] turns
    the authentication error into the rule-based record: this is the
    credential-less mode, the one [interactive_cli] enters with the key
    "dummy-key", which it puts in the place of an empty one. *)
Theorem C6_construction_checks_no_credential :
  ∀ api_key model,
    (∀ OpenAI client,
       OpenAI api_key "https://api.deepseek.com" = Ok client →
       FitnessAdvisorAgent.__init__ (Ok OpenAI) api_key model =
         Ok {| FitnessAdvisorAgent.client := client; FitnessAdvisorAgent.model := model |}) ∧
    (∀ OpenAI e,
       OpenAI api_key "https://api.deepseek.com" = Raise e →
       FitnessAdvisorAgent.__init__ (Ok OpenAI) api_key model =
         Raise (if is_ImportError e
                then ImportError "Please install openai package: pip install openai"
                else e)) ∧
    (∀ e,
       FitnessAdvisorAgent.__init__ (Raise e) api_key model =
         Raise (if is_ImportError e
                then ImportError "Please install openai package: pip install openai"
                else e)) ∧
    FitnessAdvisorAgent.__init__ (Ok openai.OpenAI) "" model = Raise OpenAIError ∧
    FitnessAdvisorAgent.__init__ (Ok openai.OpenAI) "dummy-key"
      FitnessAdvisorAgent.default_model = Ok fallback_mode_agent ∧
    (∀ limits service self prompt_time now heart_rate sleep_hours stress_level
       previous_workout calls,
       unusable service api_key →
       openai.api_key (FitnessAdvisorAgent.client self) = api_key →
       FitnessAdvisorAgent.analyze_health_status limits service prompt_time now self
         heart_rate sleep_hours stress_level previous_workout calls =
         (Ok (FitnessAdvisorAgent._get_fallback_recommendation now heart_rate sleep_hours
                stress_level),
          (calls ++
           [(FitnessAdvisorAgent.client self,
             FitnessAdvisorAgent.request self
               (FitnessAdvisorAgent._create_prompt prompt_time heart_rate sleep_hours
                  stress_level previous_workout))])%list)) ∧
    (∀ import_openai,
       app.make_advisor import_openai "" =
       FitnessAdvisorAgent.__init__ import_openai "dummy-key"
         FitnessAdvisorAgent.default_model).
Proof.
  intros. split; [| split; [| split; [| split; [| split; [| split]]]]].
  - intros OpenAI client H. unfold FitnessAdvisorAgent.__init__. cbn. rewrite H. reflexivity.
  - intros OpenAI e H. unfold FitnessAdvisorAgent.__init__. cbn. rewrite H. cbn.
    destruct (is_ImportError e); reflexivity.
  - intros e. unfold FitnessAdvisorAgent.__init__. cbn.
    destruct (is_ImportError e); reflexivity.
  - reflexivity.
  - reflexivity.
  - intros * Hu Hk.
    eapply analyze_on_failure; [apply Hu; exact Hk | reflexivity].
  - reflexivity.
Qed.

(** C6 at work: the agent of the fallback mode, asked for a recommendation
    by a service that refuses its key. *)
Lemma C6_witness :
  FitnessAdvisorAgent.analyze_health_status default_limits refusing a_time a_time
    fallback_mode_agent 72 sleep_7_5 4 None [] =
    (Ok (FitnessAdvisorAgent._get_fallback_recommendation a_time 72 sleep_7_5 4),
     ([] ++
      [(FitnessAdvisorAgent.client fallback_mode_agent,
        FitnessAdvisorAgent.request fallback_mode_agent
          (FitnessAdvisorAgent._create_prompt a_time 72 sleep_7_5 4 None))])%list).
Proof.
  apply (proj1 (proj2 (proj2 (proj2 (proj2 (proj2
           (C6_construction_checks_no_credential "dummy-key"
              FitnessAdvisorAgent.default_model))))))
           default_limits refusing fallback_mode_agent a_time a_time 72 sleep_7_5 4 None []).
  - intros calls client request _. reflexivity.
  - reflexivity.
Defined.

(** ** The front end: [get_recommendation] and [batch_recommendations] *)

Section FrontEnd.

Import api_server.

Lemma fill_step_lookup (d : dict) (field k : string) :
  fill_step d field !! k =
  if decide (k = field) then Some (default (VStr "N/A") (d !! k)) else d !! k.
Proof.
  unfold fill_step, contains. destruct (decide (k = field)) as [-> | Hne].
  - destruct (d !! field) as [v |] eqn:E.
    + rewrite bool_decide_eq_true_2 by eauto. rewrite E. reflexivity.
    + rewrite bool_decide_eq_false_2 by (intros [? ?]; discriminate).
      apply lookup_insert_eq.
  - destruct (bool_decide (is_Some (d !! field))); [reflexivity |].
    apply lookup_insert_ne. congruence.
Qed.

Lemma fill_fold_lookup (fields : list string) (d : dict) (k : string) :
  fold_left fill_step fields d !! k =
  if decide (k ∈ fields) then Some (default (VStr "N/A") (d !! k)) else d !! k.
Proof.
  revert d. induction fields as [| f fields IH]; intros d; cbn [fold_left].
  - rewrite decide_False by apply not_elem_of_nil. reflexivity.
  - rewrite IH, fill_step_lookup.
    destruct (decide (k = f)) as [-> | Hne].
    + rewrite (decide_True (P := f ∈ f :: fields)) by apply list_elem_of_here.
      destruct (decide (f ∈ fields)); reflexivity.
    + destruct (decide (k ∈ fields)) as [Hin | Hnin].
      * rewrite decide_True by (apply list_elem_of_further; assumption). reflexivity.
      * rewrite decide_False; [reflexivity |].
        intros [-> | H]%elem_of_cons; [congruence | contradiction].
Qed.

Lemma fill_required_lookup (d : dict) (k : string) :
  fill_required d !! k =
  if decide (k ∈ required_fields) then Some (default (VStr "N/A") (d !! k)) else d !! k.
Proof. apply (fill_fold_lookup required_fields). Qed.

(** What [get_recommendation] returns for a record [d] of the advisor. *)
Lemma get_recommendation_ok (advisor : advisor_t) (now now' : datetime)
    (metrics : HealthMetrics) (d : dict) :
  call advisor metrics = Ok d →
  ∃ r : dict,
    get_recommendation advisor now now' metrics = Ok r ∧
    (∀ k, k ∈ required_fields → r !! k = Some (default (VStr "N/A") (d !! k))) ∧
    is_Some (r !! "input_metrics") ∧
    (∀ k, k ∈ passed_through → r !! k = d !! k).
Proof.
  unfold call. intros H. unfold get_recommendation. rewrite H.
  cbv beta iota zeta delta [mbind result_bind py.bind try_except].
  eexists. split; [reflexivity |]. split; [| split].
  - intros k Hk.
    assert (k ≠ "input_metrics" ∧ k ≠ "user_id" ∧ k ≠ "request_id" ∧ k ≠ "timestamp" ∧
            k ≠ "api_version") as (H1 & H2 & H3 & H4 & H5).
    { unfold required_fields in Hk. each_member Hk; repeat split; discriminate. }
    rewrite !lookup_insert_ne by congruence.
    rewrite fill_required_lookup, decide_True by assumption. reflexivity.
  - rewrite lookup_insert_eq. eauto.
  - intros k Hk.
    assert (k ≠ "input_metrics" ∧ k ≠ "user_id" ∧ k ≠ "request_id" ∧ k ≠ "timestamp" ∧
            k ≠ "api_version" ∧ k ∉ required_fields) as (H1 & H2 & H3 & H4 & H5 & H6).
    { unfold passed_through, required_fields in *.
      each_member Hk; repeat split; try discriminate; not_member. }
    rewrite !lookup_insert_ne by congruence.
    rewrite fill_required_lookup, decide_False by assumption. reflexivity.
Qed.

(** With the [FallbackAdvisor], the record returned has the full field set. *)
Lemma get_recommendation_fallback (now now' : datetime) (metrics : HealthMetrics) :
  ∃ r : dict,
    get_recommendation fallback_advisor now now' metrics = Ok r ∧ carries_full_field_set r.
Proof.
  unfold get_recommendation, fallback_advisor, FallbackAdvisor.analyze_health_status.
  destruct ((heart_rate metrics >? 100) || float_lt_int (sleep_hours metrics) 4 ||
            (stress_level metrics >=? 8));
    [| destruct ((heart_rate metrics >? 85) || float_lt_int (sleep_hours metrics) 6 ||
                 (stress_level metrics >=? 6))];
    (eexists; split; [reflexivity |]);
    unfold carries_full_field_set;
    repeat split; try left; eexists; reflexivity.
Qed.

End FrontEnd.

(** The record the agent returns for the reply [reply_rest]. *)
Lemma agent_advisor_reply_rest :
  call (agent_advisor reply_rest) (metrics_of 72 sleep_7_5 4) =
  Ok (<["input_metrics" := FitnessAdvisorAgent.input_metrics a_time 72 sleep_7_5 4]>
        (dict_of_pairs [("alert_level", VStr "rest"); ("should_train", VBool false)])).
Proof. vm_compute. exact eq_refl. Qed.

(** C5 as stated fails: when the advisor is the agent and the model's reply
    is an object with two fields, [get_recommendation] returns a record
    without the fields [modifications], [recovery_tips] and the message; it
    does not fill them with "N/A". *)
Lemma C5_counterexample :
  ∃ r : dict,
    api_server.get_recommendation (agent_advisor reply_rest) a_time a_time
      (metrics_of 72 sleep_7_5 4) = Ok r ∧
    r !! "modifications" = None ∧ r !! "recovery_tips" = None ∧
    r !! "message" = None ∧ r !! "alert_message" = None ∧
    ¬ carries_full_field_set r.
Proof.
  destruct (get_recommendation_ok (agent_advisor reply_rest) a_time a_time
              (metrics_of 72 sleep_7_5 4) _ agent_advisor_reply_rest)
    as (r & Hr & _ & _ & Hpass).
  assert (r !! "modifications" = None) as Hm.
  { rewrite Hpass by (unfold passed_through; repeat constructor). reflexivity. }
  exists r. split; [exact Hr |]. split; [exact Hm |].
  split. { rewrite Hpass by (unfold passed_through; repeat constructor). reflexivity. }
  split. { rewrite Hpass by (unfold passed_through; repeat constructor). reflexivity. }
  split. { rewrite Hpass by (unfold passed_through; repeat constructor). reflexivity. }
  intros (_ & _ & _ & _ & _ & _ & [v H] & _). rewrite Hm in H. discriminate H.
Qed.

(** C5, amended.  For any record the advisor returns, [get_recommendation]
    gives each of the five fields [alert_level], [should_train], [workout],
    [intensity] and [duration] the advisor's value, or "N/A" when the advisor
    left it out, and always sets [input_metrics]; the message, the
    modifications, the recovery tips and the agent's field names are passed on
    as the advisor gave them, present or absent.  With the [FallbackAdvisor]
    the record returned carries the full field set. *)
Theorem C5_required_fields_filled :
  (∀ advisor now now' metrics (d : dict),
     call advisor metrics = Ok d →
     ∃ r : dict,
       api_server.get_recommendation advisor now now' metrics = Ok r ∧
       (∀ k, k ∈ api_server.required_fields →
          r !! k = Some (default (VStr "N/A") (d !! k))) ∧
       is_Some (r !! "input_metrics") ∧
       (∀ k, k ∈ passed_through → r !! k = d !! k)) ∧
  (∀ now now' metrics,
     ∃ r : dict,
       api_server.get_recommendation fallback_advisor now now' metrics = Ok r ∧
       carries_full_field_set r).
Proof.
  split.
  - intros. apply get_recommendation_ok. assumption.
  - intros. apply get_recommendation_fallback.
Qed.

(** C5 at work: the agent as advisor, its reply an object with two fields. *)
Lemma C5_witness :
  ∃ r : dict,
    api_server.get_recommendation (agent_advisor reply_rest) a_time a_time
      (metrics_of 72 sleep_7_5 4) = Ok r ∧
    (∀ k, k ∈ api_server.required_fields →
       r !! k =
       Some (default (VStr "N/A")
               ((<["input_metrics" := FitnessAdvisorAgent.input_metrics a_time 72 sleep_7_5 4]>
                   (dict_of_pairs [("alert_level", VStr "rest"); ("should_train", VBool false)]))
                  !! k))) ∧
    is_Some (r !! "input_metrics") ∧
    (∀ k, k ∈ passed_through →
       r !! k =
       (<["input_metrics" := FitnessAdvisorAgent.input_metrics a_time 72 sleep_7_5 4]>
          (dict_of_pairs [("alert_level", VStr "rest"); ("should_train", VBool false)]))
         !! k).
Proof.
  apply (proj1 C5_required_fields_filled (agent_advisor reply_rest) a_time a_time
           (metrics_of 72 sleep_7_5 4)).
  exact agent_advisor_reply_rest.
Defined.

(** ** Batch processing *)

Section Batch.

Import api_server.

Variables (advisor : advisor_t) (clock : nat → datetime).

(** The loop adds one entry per item, in order, each the entry of its own
    item. *)
Lemma batch_loop_entries (metrics_list : list HealthMetrics) :
  ∀ (i : nat) (acc results : list dict),
    batch_loop advisor clock i metrics_list acc = Ok results →
    ∃ entries : list dict,
      results = (acc ++ entries)%list ∧
      length entries = length metrics_list ∧
      ∀ (j : nat) (metrics : HealthMetrics),
        metrics_list !! j = Some metrics →
        ∃ r : dict,
          entries !! j = Some r ∧ batch_entry advisor (clock (i + j)%nat) metrics = Ok r.
Proof.
  induction metrics_list as [| metrics rest IH]; intros i acc results H; cbn in H.
  - apply Ok_inj in H. subst results. exists []. rewrite app_nil_r.
    repeat split. intros j m Hj. discriminate Hj.
  - destruct (batch_entry advisor (clock i) metrics) as [entry | e] eqn:E;
      cbn in H; [| discriminate H].
    destruct (IH _ _ _ H) as (entries & -> & Hlen & Hent).
    exists (entry :: entries). rewrite <- app_assoc. split; [reflexivity |].
    split; [cbn; rewrite Hlen; reflexivity |].
    intros [| j] m Hj; cbn in Hj.
    + injection Hj as <-. exists entry. rewrite Nat.add_0_r. split; [reflexivity | exact E].
    + destruct (Hent j m Hj) as (r & Hr & Hb). exists r. split; [exact Hr |].
      replace (i + S j)%nat with (S i + j)%nat by lia. exact Hb.
Qed.

(** An item whose call raises an [Exception] gets an entry with the key
    [error]; no item stops the loop. *)
Lemma batch_entry_ok (now : datetime) (metrics : HealthMetrics) :
  (∀ e, call advisor metrics = Raise e → is_Exception e = true) →
  ∃ r : dict,
    batch_entry advisor now metrics = Ok r ∧
    ((∃ e, call advisor metrics = Raise e) → contains r "error" = true).
Proof.
  unfold call, batch_entry. intros He.
  destruct (advisor _ _ _ _) as [d | e] eqn:E; cbn.
  - eexists. split; [reflexivity |]. intros [e H]. discriminate H.
  - rewrite (He e eq_refl). eexists. split; [reflexivity |]. intros _. reflexivity.
Qed.

(** The entry of an item: the advisor's record with the two entries of the
    handler, or the record of the failure. *)
Lemma batch_entry_value (now : datetime) (metrics : HealthMetrics) (r : dict) :
  batch_entry advisor now metrics = Ok r →
  match call advisor metrics with
  | Ok d =>
      r = <["request_timestamp" := VStr (isoformat now)]>
            (<["user_id" := of_optional_str (user_id metrics)]> d) ∧
      (∀ k, k ≠ "user_id" → k ≠ "request_timestamp" → r !! k = d !! k) ∧
      contains r "error" = contains d "error"
  | Raise e =>
      r = dict_of_pairs [
            ("error", VFStr [FormattedExn e]);
            ("user_id", of_optional_str (user_id metrics));
            ("heart_rate", VInt (heart_rate metrics));
            ("sleep_hours", VFloat (sleep_hours metrics));
            ("stress_level", VInt (stress_level metrics))] ∧
      contains r "error" = true
  end.
Proof.
  unfold call, batch_entry.
  destruct (advisor _ _ _ _) as [d | e]; cbn.
  - intros H. apply Ok_inj in H. subst r. split; [reflexivity |]. split.
    + intros k H1 H2. rewrite !lookup_insert_ne by congruence. reflexivity.
    + unfold contains. rewrite !lookup_insert_ne by discriminate. reflexivity.
  - destruct (is_Exception e); [| discriminate].
    intros H. apply Ok_inj in H. subst r. split; reflexivity.
Qed.

Lemma batch_loop_total (metrics_list : list HealthMetrics) :
  (∀ metrics e, metrics ∈ metrics_list → call advisor metrics = Raise e →
     is_Exception e = true) →
  ∀ (i : nat) (acc : list dict),
    ∃ results, batch_loop advisor clock i metrics_list acc = Ok results.
Proof.
  induction metrics_list as [| metrics rest IH]; intros He i acc; cbn.
  - eauto.
  - destruct (batch_entry_ok (clock i) metrics) as (r & Hr & _).
    { intros e. apply He. apply list_elem_of_here. }
    rewrite Hr. cbn. apply IH. intros m e Hm. apply He. apply list_elem_of_further, Hm.
Qed.

Lemma counts_sum (results : list dict) :
  (successful results + failed results)%nat = length results.
Proof.
  unfold successful, failed. rewrite Nat.add_comm.
  apply (List.filter_length (fun r : dict => contains r "error")).
Qed.

End Batch.

(** C9.  For a list of [N] metrics whose items fail, when they fail, with an
    [Exception], [batch_recommendations] returns a result: it has [N]
    entries, and the entry at each position is the one of the item at that
    position, so it does not depend on the other items.  The entry of an item
    whose call returns is the advisor's record with [user_id] and
    [request_timestamp] set, every other entry of the record as the advisor
    gave it; the entry of an item whose call raised is the record of the
    failure, with the key [error], the exception's text, and the user id,
    heart rate, sleep hours and stress level of the item.  The counts
    reported as [successful], [failed] and [total_requests] are those of the
    entries without and with the key [error], which sum to [N]. *)
Theorem C9_batch_isolates_failures :
  ∀ advisor clock now (metrics_list : list api_server.HealthMetrics),
    (∀ metrics e, metrics ∈ metrics_list → call advisor metrics = Raise e →
       is_Exception e = true) →
    ∃ (results : list dict) (response : dict),
      api_server.batch_loop advisor clock 0 metrics_list [] = Ok results ∧
      api_server.batch_recommendations advisor clock now metrics_list = Ok response ∧
      length results = length metrics_list ∧
      (∀ (i : nat) (metrics : api_server.HealthMetrics),
         metrics_list !! i = Some metrics →
         ∃ r : dict,
           results !! i = Some r ∧
           match call advisor metrics with
           | Ok d =>
               r = <["request_timestamp" := VStr (isoformat (clock i))]>
                     (<["user_id" := of_optional_str (api_server.user_id metrics)]> d) ∧
               (∀ k, k ≠ "user_id" → k ≠ "request_timestamp" → r !! k = d !! k) ∧
               contains r "error" = contains d "error"
           | Raise e =>
               r = dict_of_pairs [
                     ("error", VFStr [FormattedExn e]);
                     ("user_id", of_optional_str (api_server.user_id metrics));
                     ("heart_rate", VInt (api_server.heart_rate metrics));
                     ("sleep_hours", VFloat (api_server.sleep_hours metrics));
                     ("stress_level", VInt (api_server.stress_level metrics))] ∧
               contains r "error" = true
           end) ∧
      (∀ (metrics_list' : list api_server.HealthMetrics) (results' : list dict) (i : nat),
         api_server.batch_loop advisor clock 0 metrics_list' [] = Ok results' →
         is_Some (metrics_list !! i) →
         metrics_list' !! i = metrics_list !! i →
         results' !! i = results !! i) ∧
      response !! "results" = Some (VList (VDict <$> results)) ∧
      response !! "total_requests" = Some (VInt (Z.of_nat (length metrics_list))) ∧
      response !! "successful" = Some (VInt (Z.of_nat (successful results))) ∧
      response !! "failed" = Some (VInt (Z.of_nat (failed results))) ∧
      (successful results + failed results)%nat = length metrics_list.
Proof.
  intros advisor clock now metrics_list He.
  destruct (batch_loop_total advisor clock metrics_list He 0%nat []) as [results Hres].
  destruct (batch_loop_entries advisor clock metrics_list 0%nat [] results Hres)
    as (entries & -> & Hlen & Hent). cbn [app] in *.
  exists entries. eexists. split; [exact Hres |].
  split; [unfold api_server.batch_recommendations; rewrite Hres; reflexivity |].
  split; [exact Hlen |]. split; [| split].
  - intros i m Hi. destruct (Hent i m Hi) as (r & Hr & Hb). exists r.
    split; [exact Hr |]. cbn in Hb. exact (batch_entry_value advisor (clock i) m r Hb).
  - intros ml' results' i Hres' [m Hm] Heq.
    destruct (batch_loop_entries advisor clock ml' 0%nat [] results' Hres')
      as (entries' & -> & _ & Hent'). cbn [app].
    rewrite Hm in Heq.
    destruct (Hent i m Hm) as (r & Hr & Hb).
    destruct (Hent' i m Heq) as (r' & Hr' & Hb').
    rewrite Hb in Hb'. apply Ok_inj in Hb'. subst r'. rewrite Hr, Hr'. reflexivity.
  - do 4 (split; [reflexivity |]). rewrite counts_sum. exact Hlen.
Qed.

Lemma strict_advisor_raises_Exceptions (metrics : api_server.HealthMetrics) (e : exn) :
  call strict_advisor metrics = Raise e → is_Exception e = true.
Proof.
  unfold call, strict_advisor.
  destruct (api_server.heart_rate metrics <=? 0); intros H; [| discriminate H].
  injection H as <-. reflexivity.
Qed.

(** C9 at work: a batch of three whose second item makes the advisor raise. *)
Lemma C9_witness :
  ∃ (results : list dict) (response : dict),
    api_server.batch_loop strict_advisor (fun _ => a_time) 0
      [metrics_of 72 sleep_7_5 4; metrics_of 0 sleep_7_5 4; metrics_of 105 sleep_6 5] [] =
      Ok results ∧
    api_server.batch_recommendations strict_advisor (fun _ => a_time) a_time
      [metrics_of 72 sleep_7_5 4; metrics_of 0 sleep_7_5 4; metrics_of 105 sleep_6 5] =
      Ok response ∧
    length results = 3%nat ∧
    response !! "successful" = Some (VInt (Z.of_nat (successful results))) ∧
    response !! "failed" = Some (VInt (Z.of_nat (failed results))) ∧
    (successful results + failed results)%nat = 3%nat.
Proof.
  destruct (C9_batch_isolates_failures strict_advisor (fun _ => a_time) a_time
              [metrics_of 72 sleep_7_5 4; metrics_of 0 sleep_7_5 4; metrics_of 105 sleep_6 5]
              (fun metrics e _ => strict_advisor_raises_Exceptions metrics e))
    as (results & response & H1 & H2 & H3 & _ & _ & _ & _ & H4 & H5 & H6).
  exists results, response. repeat split; assumption.
Defined.

(** ** Worked examples *)

Example float_literals :
  float_of_decimal false 7 (-1) = S754_finite false 6305039478318694 (-53) ∧
  sleep_7_5 = S754_finite false 8444249301319680 (-50) ∧
  sleep_3_9 = S754_finite false 8782019273372467 (-51) ∧
  float_of_int 4 = S754_finite false 4503599627370496 (-50) ∧
  sleep_4 = float_of_int 4 ∧ sleep_6 = float_of_int 6.
Proof. repeat split; reflexivity. Qed.

(** A sleep duration that is not a number triggers nothing by itself. *)
Example sleep_nan :
  float_lt_int S754_nan 4 = false ∧ float_lt_int S754_nan 6 = false ∧
  is_low "intensity" "duration" (FallbackAdvisor.analyze_health_status 72 S754_nan 4 None) ∧
  is_high (FallbackAdvisor.analyze_health_status 72 (S754_infinity true) 4 None).
Proof. repeat split; reflexivity. Qed.

(** The three end-to-end examples of the agent's own [main]. *)
Example end_to_end :
  is_low "intensity_level" "duration_minutes"
    (FitnessAdvisorAgent._get_fallback_recommendation a_time 72 sleep_7_5 4) ∧
  FitnessAdvisorAgent._get_fallback_recommendation a_time 72 sleep_7_5 4
    !! "recommended_workout" = Some (VStr "Moderate workout (running, weight training)") ∧
  is_high (FitnessAdvisorAgent._get_fallback_recommendation a_time 105 sleep_6 5) ∧
  FitnessAdvisorAgent._get_fallback_recommendation a_time 105 sleep_6 5
    !! "duration_minutes" = Some (VInt 15) ∧
  FallbackAdvisor.analyze_health_status 105 sleep_6 5 None !! "duration" = Some (VInt 0) ∧
  is_high (FitnessAdvisorAgent._get_fallback_recommendation a_time 78 sleep_4_5 8) ∧
  is_medium "intensity" "duration" (FallbackAdvisor.analyze_health_status 72 sleep_7_5 7 None).
Proof. repeat split; reflexivity. Qed.

Example clock_formats :
  isoformat a_time = "2025-03-14T09:26:53.589793" ∧
  strftime_Ymd_HM a_time = "2025-03-14 09:26" ∧
  strftime_YmdHMS a_time = "20250314092653".
Proof. repeat split; reflexivity. Qed.

Example braces_located :
  find reply_rest "{" = 19 ∧ rfind reply_rest "}" = 64 ∧
  json_text reply_rest = dq "{`alert_level`: `rest`, `should_train`: false}" ∧
  find reply_no_braces "{" = -1 ∧
  json_text "} then {" = "" ∧ malformed default_limits "} then {".
Proof. repeat split; vm_compute; congruence. Qed.

Example decoder_samples :
  json.loads default_limits (dq "{`a`: [1, -2.5e1, true, null], `a`: `x\u00e9`}") =
    Ok (VDict (dict_of_pairs [("a", VStr (String "x" (json.utf8 233)))])) ∧
  json.loads default_limits " [ ] " = Ok (VList []) ∧
  json.loads default_limits "{} trailing" = Raise JSONDecodeError ∧
  json.loads default_limits (dq "{`a`: 01}") = Raise JSONDecodeError ∧
  json.loads default_limits (dq "{`a`: 1,}") = Raise JSONDecodeError ∧
  json.loads default_limits "[NaN]" = Ok (VList [VFloat S754_nan]).
Proof. repeat split; vm_compute; reflexivity. Qed.

(** The limits of the interpreter at work: room for 990 nested arrays and no
    more, 4300 digits and no more, and the first thing that goes wrong in
    the text decides. *)
Example decoder_limits :
  json.loads default_limits (nested_arrays 990) = Ok (nested_lists 989) ∧
  json.loads default_limits (nested_arrays 991) = Raise RecursionError ∧
  json.loads default_limits (repeat_char "[" 991) = Raise RecursionError ∧
  json.loads default_limits ("[oops, " +:+ nested_arrays 991 +:+ "]") =
    Raise JSONDecodeError ∧
  is_int (json.loads default_limits (repeat_char "7" 4300)) = true ∧
  json.loads default_limits (repeat_char "7" 4301) = Raise ValueError ∧
  json.loads default_limits ("-" +:+ repeat_char "7" 4301) = Raise ValueError ∧
  is_float (json.loads default_limits (repeat_char "7" 4301 +:+ ".0")) = true ∧
  json.loads default_limits ("[1, " +:+ repeat_char "7" 4301 +:+ ", oops") =
    Raise ValueError ∧
  is_int (json.loads wide_limits (repeat_char "7" 4301)) = true.
Proof. repeat split; vm_compute; reflexivity. Qed.

(** A batch of three whose second item fails. *)
Example batch_of_three :
  ∃ r1 r2 r3 : dict,
    api_server.batch_loop strict_advisor (fun _ => a_time) 0
      [metrics_of 72 sleep_7_5 4; metrics_of 0 sleep_7_5 4; metrics_of 105 sleep_6 5] [] =
      Ok [r1; r2; r3] ∧
    r1 !! "alert_level" = Some (VStr "low") ∧ r1 !! "error" = None ∧
    r2 !! "error" = Some (VFStr [FormattedExn TypeError]) ∧ r2 !! "alert_level" = None ∧
    r3 !! "alert_level" = Some (VStr "high") ∧ r3 !! "error" = None ∧
    successful [r1; r2; r3] = 2%nat ∧ failed [r1; r2; r3] = 1%nat.
Proof. do 3 eexists. split; [reflexivity |]. repeat split; reflexivity. Qed.

(** * Further properties

    Properties of the code beyond the claims: the classifier, the agent's
    reading of a reply, [get_workout_suggestions], the handlers of the API
    server and its history. *)

(** ** Further properties of the threshold classifier *)

Section Severity.

Lemma float_of_int_4 : float_of_int 4 = S754_finite false 4503599627370496 (-50).
Proof. vm_compute. reflexivity. Qed.

Lemma float_of_int_6 : float_of_int 6 = S754_finite false 6755399441055744 (-50).
Proof. vm_compute. reflexivity. Qed.

(** Below a positive float, below a larger one of the same exponent. *)
Lemma SFltb_finite_trans (x : spec_float) (m1 m2 : positive) (e : Z) :
  (m1 < m2)%positive →
  SFltb x (S754_finite false m1 e) = true → SFltb x (S754_finite false m2 e) = true.
Proof.
  intros Hm. unfold SFltb, SFcompare.
  destruct x as [s | s | | s m e0]; try (intros H; exact H).
  destruct s; [intros _; reflexivity |].
  destruct (e0 ?= e); try (intros H; exact H).
  fold (Pos.compare m m1). fold (Pos.compare m m2).
  destruct (Pos.compare_spec m m1) as [E | E | E]; try discriminate.
  intros _.
  rewrite (proj2 (Pos.compare_lt_iff m m2) (Pos.lt_trans _ _ _ E Hm)). reflexivity.
Qed.

(** A sleep duration below 4 is below 6, for every float. *)
Lemma sleep_below_4_below_6 (x : spec_float) :
  float_lt_int x 4 = true → float_lt_int x 6 = true.
Proof.
  unfold float_lt_int. rewrite float_of_int_4, float_of_int_6.
  apply SFltb_finite_trans. vm_compute. reflexivity.
Qed.

Variables (now : datetime) (heart_rate : Z) (sleep_hours : spec_float) (stress_level : Z).
Variable previous_workout : option string.

Lemma rank_agent :
  rank (FitnessAdvisorAgent._get_fallback_recommendation now heart_rate sleep_hours
          stress_level) =
  if high_b heart_rate sleep_hours stress_level then 2
  else if medium_b heart_rate sleep_hours stress_level then 1 else 0.
Proof.
  unfold rank.
  destruct (agent_fallback_cases now heart_rate sleep_hours stress_level)
    as [H | [H | H]]; cbv zeta in H; decompose [and] H; clear H;
    repeat match goal with E : _ !! _ = Some _ |- _ => rewrite E; clear E end;
    repeat match goal with E : _ = true |- _ => rewrite E; clear E end;
    repeat match goal with E : _ = false |- _ => rewrite E; clear E end;
    reflexivity.
Qed.

Lemma rank_api :
  rank (FallbackAdvisor.analyze_health_status heart_rate sleep_hours stress_level
          previous_workout) =
  if high_b heart_rate sleep_hours stress_level then 2
  else if medium_b heart_rate sleep_hours stress_level then 1 else 0.
Proof.
  unfold rank.
  destruct (api_fallback_cases heart_rate sleep_hours stress_level previous_workout)
    as [H | [H | H]]; cbv zeta in H; decompose [and] H; clear H;
    repeat match goal with E : _ !! _ = Some _ |- _ => rewrite E; clear E end;
    repeat match goal with E : _ = true |- _ => rewrite E; clear E end;
    repeat match goal with E : _ = false |- _ => rewrite E; clear E end;
    reflexivity.
Qed.

(** The tier is the worst of the three severities. *)
Lemma tier_is_max :
  (if high_b heart_rate sleep_hours stress_level then 2
   else if medium_b heart_rate sleep_hours stress_level then 1 else 0) =
  Z.max (severity_heart_rate heart_rate)
    (Z.max (severity_sleep sleep_hours) (severity_stress stress_level)).
Proof.
  unfold high_b, medium_b, severity_heart_rate, severity_sleep, severity_stress.
  pose proof (sleep_below_4_below_6 sleep_hours) as Hs.
  destruct (float_lt_int sleep_hours 4); [rewrite (Hs eq_refl) |];
    destruct (float_lt_int sleep_hours 6);
    destruct (Z.gtb_spec heart_rate 100); destruct (Z.gtb_spec heart_rate 85);
    destruct (Z.geb_spec stress_level 8); destruct (Z.geb_spec stress_level 6);
    cbn; lia.
Qed.

End Severity.

(** X1.  In both rule-based implementations the alert level is the worst of
    the severities of the three signals taken one by one (heart rate above
    100 or 85, sleep below 4 or 6, stress from 8 or 6): the signals are not
    weighed against each other, and a good value of one never offsets a bad
    value of another. *)
Theorem X1_tier_is_worst_signal :
  ∀ now heart_rate sleep_hours stress_level previous_workout,
    rank (FitnessAdvisorAgent._get_fallback_recommendation now heart_rate sleep_hours
            stress_level) =
      Z.max (severity_heart_rate heart_rate)
        (Z.max (severity_sleep sleep_hours) (severity_stress stress_level)) ∧
    rank (FallbackAdvisor.analyze_health_status heart_rate sleep_hours stress_level
            previous_workout) =
      Z.max (severity_heart_rate heart_rate)
        (Z.max (severity_sleep sleep_hours) (severity_stress stress_level)).
Proof.
  intros. rewrite rank_agent, rank_api, tier_is_max. split; reflexivity.
Qed.

Lemma severity_heart_rate_mono (a b : Z) :
  a <= b → severity_heart_rate a <= severity_heart_rate b.
Proof.
  unfold severity_heart_rate. intros H.
  destruct (Z.gtb_spec a 100); destruct (Z.gtb_spec a 85);
    destruct (Z.gtb_spec b 100); destruct (Z.gtb_spec b 85); lia.
Qed.

Lemma severity_stress_mono (a b : Z) : a <= b → severity_stress a <= severity_stress b.
Proof.
  unfold severity_stress. intros H.
  destruct (Z.geb_spec a 8); destruct (Z.geb_spec a 6);
    destruct (Z.geb_spec b 8); destruct (Z.geb_spec b 6); lia.
Qed.

(** X2.  With the same sleep, a higher heart rate or a higher stress level
    never gives a lower alert level, in either implementation. *)
Theorem X2_alert_monotone :
  ∀ now now' sleep_hours heart_rate heart_rate' stress_level stress_level'
    previous_workout previous_workout',
    heart_rate <= heart_rate' → stress_level <= stress_level' →
    rank (FitnessAdvisorAgent._get_fallback_recommendation now heart_rate sleep_hours
            stress_level) <=
      rank (FitnessAdvisorAgent._get_fallback_recommendation now' heart_rate' sleep_hours
              stress_level') ∧
    rank (FallbackAdvisor.analyze_health_status heart_rate sleep_hours stress_level
            previous_workout) <=
      rank (FallbackAdvisor.analyze_health_status heart_rate' sleep_hours stress_level'
              previous_workout').
Proof.
  intros * Hh Hs.
  rewrite !rank_agent, !rank_api, !tier_is_max.
  pose proof (severity_heart_rate_mono _ _ Hh).
  pose proof (severity_stress_mono _ _ Hs).
  split; lia.
Qed.

(** X2 at work: a calm reading and a strained one, the sleep unchanged. *)
Lemma X2_witness :
  rank (FitnessAdvisorAgent._get_fallback_recommendation a_time 72 sleep_7_5 4) <=
    rank (FitnessAdvisorAgent._get_fallback_recommendation a_time 90 sleep_7_5 8) ∧
  rank (FallbackAdvisor.analyze_health_status 72 sleep_7_5 4 None) <=
    rank (FallbackAdvisor.analyze_health_status 90 sleep_7_5 8 None).
Proof.
  apply (X2_alert_monotone a_time a_time sleep_7_5 72 90 4 8 None None); lia.
Defined.

(** The keys of a [dict] display are the keys written. *)
Lemma dom_fold_pairs (pairs : list (string * value)) :
  ∀ d : dict,
    dom (fold_left (fun d kv => <[kv.1 := kv.2]> d) pairs d) =
    list_to_set pairs.*1 ∪ dom d.
Proof.
  induction pairs as [| [k v] pairs IH]; intros d; cbn [fold_left fmap list_fmap list_to_set].
  - apply set_eq. intros x. rewrite elem_of_union, elem_of_empty. tauto.
  - rewrite IH, dom_insert_L. apply set_eq. intros x.
    rewrite !elem_of_union, elem_of_singleton. cbn. tauto.
Qed.

Lemma dom_dict_of_pairs (pairs : list (string * value)) :
  dom (dict_of_pairs pairs) = list_to_set pairs.*1.
Proof.
  unfold dict_of_pairs. rewrite dom_fold_pairs, dom_empty_L.
  apply set_eq. intros x. rewrite elem_of_union, elem_of_empty. tauto.
Qed.

(** X3.  The key set of a rule-based record does not depend on the inputs:
    the agent's fallback always has its nine fields and the API fallback its
    eight, and no other key. *)
Theorem X3_fixed_key_sets :
  ∀ now heart_rate sleep_hours stress_level previous_workout,
    dom (FitnessAdvisorAgent._get_fallback_recommendation now heart_rate sleep_hours
           stress_level) = list_to_set agent_fields ∧
    dom (FallbackAdvisor.analyze_health_status heart_rate sleep_hours stress_level
           previous_workout) = list_to_set api_fields.
Proof.
  intros.
  unfold FitnessAdvisorAgent._get_fallback_recommendation,
    FallbackAdvisor.analyze_health_status.
  destruct ((heart_rate >? 100) || float_lt_int sleep_hours 4 || (stress_level >=? 8));
    [| destruct ((heart_rate >? 85) || float_lt_int sleep_hours 6 || (stress_level >=? 6))];
    cbv beta iota zeta; rewrite !dom_dict_of_pairs; split; reflexivity.
Qed.

(** ** Further properties of the agent *)

Section Texts.

Abbreviation len := String.length.

Lemma append_cons (x : ascii) (a b : string) : String x a +:+ b = String x (a +:+ b).
Proof. reflexivity. Qed.

Lemma append_nil (b : string) : "" +:+ b = b.
Proof. reflexivity. Qed.

Lemma append_assoc (a b c : string) : (a +:+ b) +:+ c = a +:+ b +:+ c.
Proof.
  induction a as [| x a IH]; [reflexivity |]. rewrite !append_cons, IH. reflexivity.
Qed.

Lemma find_from_skip (c : ascii) (pre r : string) :
  occurs c pre = false →
  ∀ i, find_from c (pre +:+ String c r) i = i + Z.of_nat (len pre).
Proof.
  induction pre as [| a pre IH]; intros H i;
    rewrite ?append_cons, ?append_nil; cbn [find_from len]; cbn [occurs] in H.
  - rewrite Ascii.eqb_refl. lia.
  - apply orb_false_iff in H as [Ha Hp]. rewrite Ha, (IH Hp). lia.
Qed.

Lemma rfind_from_absent (c : ascii) (s : string) :
  occurs c s = false → ∀ i, rfind_from c s i = -1.
Proof.
  induction s as [| a s IH]; intros H i; cbn in *; [reflexivity |].
  apply orb_false_iff in H as [Ha Hs]. rewrite (IH Hs), Ha. reflexivity.
Qed.

Lemma rfind_from_last (c : ascii) (a post : string) :
  occurs c post = false →
  ∀ i, 0 <= i → rfind_from c (a +:+ String c post) i = i + Z.of_nat (len a).
Proof.
  intros Hp. induction a as [| x a IH]; intros i Hi;
    rewrite ?append_cons, ?append_nil; cbn [rfind_from len].
  - rewrite (rfind_from_absent c post Hp), Ascii.eqb_refl. cbn. lia.
  - rewrite IH by lia.
    destruct (Z.eqb_spec (i + 1 + Z.of_nat (len a)) (-1)); lia.
Qed.

Lemma rfind_from_bound (c : ascii) (s : string) :
  ∀ i, rfind_from c s i = -1 ∨ i <= rfind_from c s i.
Proof.
  induction s as [| a s IH]; intros i; cbn [rfind_from]; [left; reflexivity |].
  destruct (IH (i + 1)) as [-> | H].
  - cbn. destruct (Ascii.eqb a c); [right; lia | left; reflexivity].
  - destruct (Z.eqb_spec (rfind_from c s (i + 1)) (-1)) as [E | E]; [| right; lia].
    destruct (Ascii.eqb a c); [right; lia | left; reflexivity].
Qed.

Lemma substring_0 (s : string) : ∀ n, substring n 0 s = "".
Proof.
  induction s as [| a s IH]; intros [| n]; cbn; try reflexivity. apply IH.
Qed.

Lemma substring_prefix (body post : string) : substring 0 (len body) (body +:+ post) = body.
Proof.
  induction body as [| a body IH]; rewrite ?append_cons, ?append_nil; cbn [len substring].
  - destruct post; reflexivity.
  - rewrite IH. reflexivity.
Qed.

Lemma substring_middle (pre body post : string) :
  substring (len pre) (len body) (pre +:+ body +:+ post) = body.
Proof.
  induction pre as [| a pre IH]; rewrite ?append_cons, ?append_nil; cbn [len substring];
    [apply substring_prefix | exact IH].
Qed.

Lemma append_length (a b : string) : len (a +:+ b) = (len a + len b)%nat.
Proof.
  induction a as [| x a IH]; [reflexivity |]. rewrite append_cons. cbn [len].
  rewrite IH. reflexivity.
Qed.

Lemma slice_middle (pre body post : string) :
  slice (pre +:+ body +:+ post) (Z.of_nat (len pre)) (Z.of_nat (len pre + len body)) = body.
Proof.
  unfold slice. rewrite !append_length.
  destruct (Z.ltb_spec (Z.of_nat (len pre)) 0); [lia |].
  destruct (Z.ltb_spec (Z.of_nat (len pre + len body)) 0); [lia |].
  rewrite !Z.min_l by lia.
  replace (Z.to_nat (Z.of_nat (len pre + len body) - Z.of_nat (len pre))) with (len body)
    by lia.
  rewrite Nat2Z.id. apply substring_middle.
Qed.

(** The text handed to the decoder when an object is wrapped in prose. *)
Lemma json_text_prose (pre mid post : string) :
  occurs "{" pre = false → occurs "}" post = false →
  find (pre +:+ "{" +:+ mid +:+ "}" +:+ post) "{" = Z.of_nat (len pre) ∧
  rfind (pre +:+ "{" +:+ mid +:+ "}" +:+ post) "}" = Z.of_nat (len pre + len mid + 1) ∧
  json_text (pre +:+ "{" +:+ mid +:+ "}" +:+ post) = "{" +:+ mid +:+ "}".
Proof.
  intros Hpre Hpost.
  assert (find (pre +:+ "{" +:+ mid +:+ "}" +:+ post) "{" = Z.of_nat (len pre)) as Hf.
  { unfold find. change ("{" +:+ mid +:+ "}" +:+ post) with (String "{" (mid +:+ "}" +:+ post)).
    rewrite (find_from_skip _ _ _ Hpre). lia. }
  assert (rfind (pre +:+ "{" +:+ mid +:+ "}" +:+ post) "}" =
          Z.of_nat (len pre + len mid + 1)) as Hr.
  { unfold rfind.
    replace (pre +:+ "{" +:+ mid +:+ "}" +:+ post)
      with ((pre +:+ "{" +:+ mid) +:+ String "}" post)
      by (rewrite !append_assoc; reflexivity).
    rewrite (rfind_from_last _ _ _ Hpost) by lia.
    rewrite !append_length. cbn [len]. lia. }
  split; [exact Hf |]. split; [exact Hr |].
  unfold json_text. rewrite Hf, Hr.
  replace (Z.of_nat (len pre + len mid + 1) + 1)
    with (Z.of_nat (len pre + len ("{" +:+ mid +:+ "}")))
    by (rewrite !append_length; cbn [len]; lia).
  replace (pre +:+ "{" +:+ mid +:+ "}" +:+ post)
    with (pre +:+ ("{" +:+ mid +:+ "}") +:+ post)
    by (rewrite !append_assoc; reflexivity).
  apply slice_middle.
Qed.

(** The text handed to the decoder is empty when the last closing brace comes
    before the first opening brace. *)
Lemma json_text_crossed (text : string) :
  rfind text "}" < find text "{" → json_text text = "".
Proof.
  intros H. unfold json_text, slice.
  destruct (rfind_from_bound "}" text 0) as [E | E]; fold (rfind text "}") in E;
    match goal with
    | |- substring _ ?n _ = _ => replace n with 0%nat; [apply substring_0 |]
    end;
    destruct (Z.ltb_spec (find text "{") 0); destruct (Z.ltb_spec (rfind text "}" + 1) 0);
    lia.
Qed.

End Texts.

(** X4.  [analyze_health_status] raises exactly when the call to the model
    raises an exception that is not an [Exception] (a [KeyboardInterrupt], a
    [SystemExit]), and then it raises that exception; no reply and no other
    failure of the call makes it raise. *)
Theorem X4_agent_raises_only_what_is_no_Exception :
  ∀ limits service prompt_time now self heart_rate sleep_hours stress_level
    previous_workout calls e,
    (FitnessAdvisorAgent.analyze_health_status limits service prompt_time now self
       heart_rate sleep_hours stress_level previous_workout calls).1 = Raise e ↔
    service calls (FitnessAdvisorAgent.client self)
      (FitnessAdvisorAgent.request self
         (FitnessAdvisorAgent._create_prompt prompt_time heart_rate sleep_hours stress_level
            previous_workout)) = Raise e ∧
    is_Exception e = false.
Proof. intros. apply analyze_raises. Qed.

(** X5.  Every record [analyze_health_status] returns, whichever path produced
    it (the decoded reply, the generic record, the rule-based record), has
    under [input_metrics] the three inputs of the call and the clock reading;
    an [input_metrics] entry in the model's reply is replaced. *)
Theorem X5_record_echoes_inputs :
  ∀ limits service prompt_time now self heart_rate sleep_hours stress_level
    previous_workout calls (d : dict),
    (FitnessAdvisorAgent.analyze_health_status limits service prompt_time now self
       heart_rate sleep_hours stress_level previous_workout calls).1 = Ok d →
    d !! "input_metrics" =
      Some (FitnessAdvisorAgent.input_metrics now heart_rate sleep_hours stress_level).
Proof. intros *. apply analyze_echo. Qed.

(** X5 at work: the reply [reply_rest]. *)
Lemma X5_witness :
  (<["input_metrics" := FitnessAdvisorAgent.input_metrics a_time 72 sleep_7_5 4]>
     (dict_of_pairs [("alert_level", VStr "rest"); ("should_train", VBool false)] : dict))
    !! "input_metrics" =
  Some (FitnessAdvisorAgent.input_metrics a_time 72 sleep_7_5 4).
Proof.
  apply (X5_record_echoes_inputs default_limits (replying reply_rest) a_time a_time
           fallback_mode_agent 72 sleep_7_5 4 None []).
  exact agent_advisor_reply_rest.
Defined.

(** X6.  A response of the model without a choice, or whose first choice has
    no content, is answered with the rule-based record, after the one call. *)
Theorem X6_empty_response_falls_back :
  ∀ limits service prompt_time now self heart_rate sleep_hours stress_level
    previous_workout calls response,
    service calls (FitnessAdvisorAgent.client self)
      (FitnessAdvisorAgent.request self
         (FitnessAdvisorAgent._create_prompt prompt_time heart_rate sleep_hours stress_level
            previous_workout)) = Ok response →
    first_content response = None →
    FitnessAdvisorAgent.analyze_health_status limits service prompt_time now self heart_rate
      sleep_hours stress_level previous_workout calls =
    (Ok (FitnessAdvisorAgent._get_fallback_recommendation now heart_rate sleep_hours
           stress_level),
     (calls ++
      [(FitnessAdvisorAgent.client self,
        FitnessAdvisorAgent.request self
          (FitnessAdvisorAgent._create_prompt prompt_time heart_rate sleep_hours
             stress_level previous_workout))])%list).
Proof. intros *. apply analyze_no_content. Qed.

(** X6 at work: a service that returns no choice. *)
Lemma X6_witness :
  FitnessAdvisorAgent.analyze_health_status default_limits silent a_time a_time
    fallback_mode_agent 72 sleep_7_5 4 None [] =
  (Ok (FitnessAdvisorAgent._get_fallback_recommendation a_time 72 sleep_7_5 4),
   ([] ++
    [(FitnessAdvisorAgent.client fallback_mode_agent,
      FitnessAdvisorAgent.request fallback_mode_agent
        (FitnessAdvisorAgent._create_prompt a_time 72 sleep_7_5 4 None))])%list).
Proof.
  apply (X6_empty_response_falls_back default_limits silent a_time a_time
           fallback_mode_agent 72 sleep_7_5 4 None [] {| openai.choices := [] |});
    reflexivity.
Defined.

(** X7.  Text before the first opening brace and after the last closing
    brace of a reply plays no part: the reply is read as the text between
    them alone would be. *)
Theorem X7_prose_around_object_ignored :
  ∀ limits now pre mid post heart_rate sleep_hours stress_level,
    occurs "{" pre = false → occurs "}" post = false →
    FitnessAdvisorAgent._parse_response limits now (pre +:+ "{" +:+ mid +:+ "}" +:+ post)
      heart_rate sleep_hours stress_level =
    FitnessAdvisorAgent._parse_response limits now ("{" +:+ mid +:+ "}") heart_rate
      sleep_hours stress_level.
Proof.
  intros * Hpre Hpost.
  destruct (json_text_prose pre mid post Hpre Hpost) as (Hf & Hr & Ht).
  destruct (json_text_prose "" mid "" eq_refl eq_refl) as (Hf' & Hr' & Ht').
  change ("" +:+ "{" +:+ mid +:+ "}" +:+ "") with ("{" +:+ mid +:+ "}") in *.
  rewrite !parse_braces by lia.
  rewrite Ht, Ht'. reflexivity.
Qed.

(** X7 at work: the reply [reply_rest], cut at its braces. *)
Lemma X7_witness :
  FitnessAdvisorAgent._parse_response default_limits a_time
    ("Here is my advice: " +:+ "{" +:+ dq "`alert_level`: `rest`, `should_train`: false" +:+
     "}" +:+ " Take care!") 72 sleep_7_5 4 =
  FitnessAdvisorAgent._parse_response default_limits a_time
    ("{" +:+ dq "`alert_level`: `rest`, `should_train`: false" +:+ "}") 72 sleep_7_5 4.
Proof.
  apply (X7_prose_around_object_ignored default_limits a_time "Here is my advice: "
           (dq "`alert_level`: `rest`, `should_train`: false") " Take care!" 72 sleep_7_5 4);
    reflexivity.
Defined.

(** X8.  A reply whose last closing brace comes before its first opening
    brace has braces, so it does not get the generic record: the text between
    them is empty, the decoder rejects it, and the rule-based record is
    returned. *)
Theorem X8_crossed_braces_fall_back :
  ∀ limits now text heart_rate sleep_hours stress_level,
    rfind text "}" ≠ -1 → rfind text "}" < find text "{" →
    json_text text = "" ∧
    FitnessAdvisorAgent._parse_response limits now text heart_rate sleep_hours
      stress_level =
    Ok (FitnessAdvisorAgent._get_fallback_recommendation now heart_rate sleep_hours
          stress_level).
Proof.
  intros * Hr Hlt.
  pose proof (json_text_crossed text Hlt) as Ht. split; [exact Ht |].
  apply parse_malformed. split; [| split; [exact Hr |]].
  - destruct (rfind_from_bound "}" text 0) as [E | E]; fold (rfind text "}") in E; lia.
  - rewrite Ht. apply loads_empty.
Qed.

(** X8 at work: a closing brace, then an opening one. *)
Lemma X8_witness :
  json_text "} then {" = "" ∧
  FitnessAdvisorAgent._parse_response default_limits a_time "} then {" 72 sleep_7_5 4 =
  Ok (FitnessAdvisorAgent._get_fallback_recommendation a_time 72 sleep_7_5 4).
Proof.
  apply (X8_crossed_braces_fall_back default_limits a_time "} then {" 72 sleep_7_5 4);
    vm_compute; congruence.
Defined.

(** [get_workout_suggestions] makes one call, and its outcome is decided by
    the answer to that call alone. *)
Lemma suggestions_unfold (service : openai.endpoint) (self : FitnessAdvisorAgent.agent)
    (health_condition : string) (calls : list openai.Call) :
  FitnessAdvisorAgent.get_workout_suggestions service self health_condition calls =
  (Ok (match service calls (FitnessAdvisorAgent.client self)
               (FitnessAdvisorAgent.suggestions_request self health_condition) with
       | Ok response =>
           match openai.choices response with
           | choice :: _ => of_optional_str (openai.message_content (openai.message choice))
           | [] => FitnessAdvisorAgent.default_suggestions
           end
       | Raise _ => FitnessAdvisorAgent.default_suggestions
       end),
   (calls ++
    [(FitnessAdvisorAgent.client self,
      FitnessAdvisorAgent.suggestions_request self health_condition)])%list).
Proof.
  unfold FitnessAdvisorAgent.get_workout_suggestions, st_try_except, openai.create, lift,
    mbind, stateful_bind, st_bind, mret, stateful_ret, st_ret.
  destruct (service calls _ _) as [response | e]; cbn; [| reflexivity].
  destruct (openai.choices response) as [| choice choices]; reflexivity.
Qed.

(** X9.  [get_workout_suggestions] never raises: its handler catches every
    exception, [KeyboardInterrupt] and [SystemExit] included.  It makes one
    call.  When the call raises, or the response has no choice, it returns
    the three default suggestions; otherwise it returns the content of the
    first choice as it came, a text (or [None]) that is neither decoded nor
    made a list. *)
Theorem X9_suggestions_never_raise :
  ∀ service self health_condition calls,
    (∃ v,
       FitnessAdvisorAgent.get_workout_suggestions service self health_condition calls =
       (Ok v,
        (calls ++
         [(FitnessAdvisorAgent.client self,
           FitnessAdvisorAgent.suggestions_request self health_condition)])%list)) ∧
    (∀ e,
       service calls (FitnessAdvisorAgent.client self)
         (FitnessAdvisorAgent.suggestions_request self health_condition) = Raise e →
       (FitnessAdvisorAgent.get_workout_suggestions service self health_condition calls).1 =
       Ok FitnessAdvisorAgent.default_suggestions) ∧
    (∀ response,
       service calls (FitnessAdvisorAgent.client self)
         (FitnessAdvisorAgent.suggestions_request self health_condition) = Ok response →
       (FitnessAdvisorAgent.get_workout_suggestions service self health_condition calls).1 =
       Ok (match openai.choices response with
           | choice :: _ => of_optional_str (openai.message_content (openai.message choice))
           | [] => FitnessAdvisorAgent.default_suggestions
           end)).
Proof.
  intros. rewrite suggestions_unfold. split; [eauto |]. cbn [fst].
  split; [intros e -> | intros response ->]; reflexivity.
Qed.

(** ** Further properties of the front end *)

Section FrontEndMore.

Import api_server.

Variables (advisor : advisor_t) (now now' : datetime) (metrics : HealthMetrics).

(** The record [get_recommendation] builds from a record of the advisor. *)
Lemma get_recommendation_value (d : dict) :
  call advisor metrics = Ok d →
  get_recommendation advisor now now' metrics =
  Ok (<["input_metrics" := request_metrics metrics]>
        (<["user_id" := of_optional_str (user_id metrics)]>
           (<["request_id" := VStr (strftime_YmdHMS now')]>
              (<["timestamp" := VStr (isoformat now)]>
                 (<["api_version" := VStr "1.0"]> (fill_required d)))))).
Proof. unfold call, get_recommendation. intros ->. reflexivity. Qed.

Lemma get_recommendation_raise (e : exn) :
  call advisor metrics = Raise e →
  get_recommendation advisor now now' metrics =
  Raise (if is_Exception e then HTTPException 500 e else e).
Proof.
  unfold call, get_recommendation. intros ->. cbn. destruct (is_Exception e); reflexivity.
Qed.

Lemma fill_fold_dom (fields : list string) (d : dict) :
  dom (fold_left fill_step fields d) = dom d ∪ list_to_set fields.
Proof.
  apply set_eq. intros k.
  rewrite elem_of_union, !elem_of_dom, elem_of_list_to_set, fill_fold_lookup.
  destruct (decide (k ∈ fields)) as [Hin | Hnin].
  - split; [intros _; right; exact Hin | intros _; eauto].
  - split; [intros H; left; exact H | intros [H | H]; [exact H | contradiction]].
Qed.

End FrontEndMore.

(** X10.  [get_recommendation] answers with a record exactly when the advisor
    returns one.  An [Exception] raised by the advisor becomes an HTTP error
    with status 500 whose detail is that exception; an exception that is not
    an [Exception] is not caught and leaves the handler as it is. *)
Theorem X10_recommend_error_mapping :
  ∀ advisor now now' metrics,
    ((∃ r : dict, api_server.get_recommendation advisor now now' metrics = Ok r) ↔
     (∃ d : dict, call advisor metrics = Ok d)) ∧
    (∀ e, call advisor metrics = Raise e →
       api_server.get_recommendation advisor now now' metrics =
       Raise (if is_Exception e then HTTPException 500 e else e)).
Proof.
  intros. split; [| apply get_recommendation_raise].
  destruct (call advisor metrics) as [d | e] eqn:E.
  - rewrite (get_recommendation_value _ _ _ _ d E). split; eauto.
  - rewrite (get_recommendation_raise _ _ _ _ e E).
    split; intros [x H]; [destruct (is_Exception e) |]; discriminate H.
Qed.

(** X11.  The five entries [api_version], [timestamp], [request_id],
    [user_id] and [input_metrics] of the record [get_recommendation] returns
    are the handler's own: an entry of the advisor under one of these keys is
    replaced.  The keys of the record are those of the advisor's record, the
    five required fields and these five; no key of the advisor is dropped. *)
Theorem X11_metadata_set_by_handler :
  ∀ advisor now now' metrics (d : dict),
    call advisor metrics = Ok d →
    ∃ r : dict,
      api_server.get_recommendation advisor now now' metrics = Ok r ∧
      r !! "api_version" = Some (VStr "1.0") ∧
      r !! "timestamp" = Some (VStr (isoformat now)) ∧
      r !! "request_id" = Some (VStr (strftime_YmdHMS now')) ∧
      r !! "user_id" = Some (of_optional_str (api_server.user_id metrics)) ∧
      r !! "input_metrics" = Some (request_metrics metrics) ∧
      dom r = dom d ∪ list_to_set api_server.required_fields ∪ list_to_set metadata_keys.
Proof.
  intros * H. eexists. split; [apply get_recommendation_value, H |].
  do 5 (split; [rewrite ?lookup_insert_ne by discriminate; apply lookup_insert_eq |]).
  rewrite !dom_insert_L. unfold api_server.fill_required. rewrite fill_fold_dom.
  unfold metadata_keys. cbn [list_to_set foldr].
  apply set_eq. intros k. rewrite !elem_of_union, !elem_of_singleton, elem_of_empty.
  tauto.
Qed.

(** X11 at work: the [FallbackAdvisor] behind the handler. *)
Lemma X11_witness :
  ∃ r : dict,
    api_server.get_recommendation fallback_advisor a_time a_time (metrics_of 72 sleep_7_5 4) =
      Ok r ∧
    r !! "api_version" = Some (VStr "1.0") ∧
    r !! "timestamp" = Some (VStr (isoformat a_time)) ∧
    r !! "request_id" = Some (VStr (strftime_YmdHMS a_time)) ∧
    r !! "user_id" = Some (of_optional_str (api_server.user_id (metrics_of 72 sleep_7_5 4))) ∧
    r !! "input_metrics" = Some (request_metrics (metrics_of 72 sleep_7_5 4)) ∧
    dom r =
      dom (FallbackAdvisor.analyze_health_status 72 sleep_7_5 4 None) ∪
      list_to_set api_server.required_fields ∪ list_to_set metadata_keys.
Proof.
  apply (X11_metadata_set_by_handler fallback_advisor a_time a_time
           (metrics_of 72 sleep_7_5 4)).
  reflexivity.
Defined.

(** ** Further properties of a batch *)

Section BatchMore.

Import api_server.

Variables (advisor : advisor_t) (clock : nat → datetime).

(** The entry of an item carries the key [error] exactly when the item is
    flagged. *)
Lemma batch_entry_flagged (now : datetime) (metrics : HealthMetrics) (r : dict) :
  batch_entry advisor now metrics = Ok r → contains r "error" = flagged advisor metrics.
Proof.
  unfold batch_entry, flagged, call.
  destruct (advisor _ _ _ _) as [d | e]; cbn.
  - intros H. apply Ok_inj in H. subst r. unfold contains.
    rewrite !lookup_insert_ne by discriminate. reflexivity.
  - destruct (is_Exception e); [| discriminate].
    intros H. apply Ok_inj in H. subst r. reflexivity.
Qed.

Lemma failed_app (l1 l2 : list dict) : failed (l1 ++ l2) = (failed l1 + failed l2)%nat.
Proof. unfold failed. rewrite List.filter_app, length_app. reflexivity. Qed.

Lemma successful_app (l1 l2 : list dict) :
  successful (l1 ++ l2) = (successful l1 + successful l2)%nat.
Proof. unfold successful. rewrite List.filter_app, length_app. reflexivity. Qed.

Lemma batch_loop_counts (metrics_list : list HealthMetrics) :
  ∀ (i : nat) (acc results : list dict),
    batch_loop advisor clock i metrics_list acc = Ok results →
    failed results =
      (failed acc + length (List.filter (flagged advisor) metrics_list))%nat ∧
    successful results =
      (successful acc +
       length (List.filter (fun m => negb (flagged advisor m)) metrics_list))%nat.
Proof.
  induction metrics_list as [| metrics rest IH]; intros i acc results H; cbn in H.
  - apply Ok_inj in H. subst results. cbn. lia.
  - destruct (batch_entry advisor (clock i) metrics) as [entry | e] eqn:E;
      cbn in H; [| discriminate H].
    apply batch_entry_flagged in E.
    destruct (IH _ _ _ H) as [Hf Hs]. rewrite Hf, Hs, failed_app, successful_app.
    unfold failed at 2, successful at 2. cbn [List.filter]. rewrite E.
    destruct (flagged advisor metrics); cbn; lia.
Qed.

(** The loop stops at the first item whose call raises an exception that is
    not an [Exception]. *)
Lemma batch_loop_aborted (before after : list HealthMetrics) (metrics : HealthMetrics)
    (e : exn) :
  (∀ m e', m ∈ before → call advisor m = Raise e' → is_Exception e' = true) →
  call advisor metrics = Raise e → is_Exception e = false →
  ∀ (i : nat) (acc : list dict),
    batch_loop advisor clock i (before ++ metrics :: after) acc = Raise e.
Proof.
  intros Hb Hm He. induction before as [| m before IH]; intros i acc; cbn.
  - unfold batch_entry. unfold call in Hm. rewrite Hm. cbn. rewrite He. reflexivity.
  - destruct (batch_entry_ok advisor (clock i) m) as (r & Hr & _).
    { intros e'. apply Hb. apply list_elem_of_here. }
    rewrite Hr. cbn. apply IH. intros m' e' Hin. apply Hb. apply list_elem_of_further, Hin.
Qed.

End BatchMore.

Lemma fallback_advisor_never_flagged (metrics : api_server.HealthMetrics) :
  flagged fallback_advisor metrics = false.
Proof.
  unfold flagged, call, fallback_advisor, FallbackAdvisor.analyze_health_status.
  destruct ((api_server.heart_rate metrics >? 100) ||
            float_lt_int (api_server.sleep_hours metrics) 4 ||
            (api_server.stress_level metrics >=? 8));
    [| destruct ((api_server.heart_rate metrics >? 85) ||
                 float_lt_int (api_server.sleep_hours metrics) 6 ||
                 (api_server.stress_level metrics >=? 6))];
    reflexivity.
Qed.

Lemma filter_none {A} (f : A → bool) (l : list A) :
  (∀ x, f x = false) → List.filter f l = [].
Proof. intros H. induction l as [| a l IH]; cbn; [| rewrite H]; auto. Qed.

Lemma filter_all {A} (f : A → bool) (l : list A) :
  (∀ x, f x = true) → List.filter f l = l.
Proof. intros H. induction l as [| a l IH]; cbn; [| rewrite H, IH]; auto. Qed.

(** X12.  In the response of a batch, [failed] is the number of items whose
    call raised or whose record, as the advisor returned it, has the key
    [error], and [successful] the number of the others: a record with an
    [error] entry counts as a failure though nothing was raised. *)
Theorem X12_failed_counts_error_keys :
  ∀ advisor clock now (metrics_list : list api_server.HealthMetrics),
    (∀ metrics e, metrics ∈ metrics_list → call advisor metrics = Raise e →
       is_Exception e = true) →
    ∃ response : dict,
      api_server.batch_recommendations advisor clock now metrics_list = Ok response ∧
      response !! "failed" =
        Some (VInt (Z.of_nat (length (List.filter (flagged advisor) metrics_list)))) ∧
      response !! "successful" =
        Some (VInt (Z.of_nat
                (length (List.filter (fun m => negb (flagged advisor m)) metrics_list)))).
Proof.
  intros advisor clock now metrics_list He.
  destruct (batch_loop_total advisor clock metrics_list He 0%nat []) as [results Hres].
  destruct (batch_loop_counts advisor clock metrics_list _ _ _ Hres) as [Hf Hs].
  unfold api_server.batch_recommendations. rewrite Hres. eexists. split; [reflexivity |].
  fold (failed results). fold (successful results). rewrite Hf, Hs. split; reflexivity.
Qed.

(** X12 at work: a batch of three whose second item makes the advisor raise. *)
Lemma X12_witness :
  ∃ response : dict,
    api_server.batch_recommendations strict_advisor (fun _ => a_time) a_time
      [metrics_of 72 sleep_7_5 4; metrics_of 0 sleep_7_5 4; metrics_of 105 sleep_6 5] =
      Ok response ∧
    response !! "failed" =
      Some (VInt (Z.of_nat (length (List.filter (flagged strict_advisor)
        [metrics_of 72 sleep_7_5 4; metrics_of 0 sleep_7_5 4; metrics_of 105 sleep_6 5])))) ∧
    response !! "successful" =
      Some (VInt (Z.of_nat (length (List.filter (fun m => negb (flagged strict_advisor m))
        [metrics_of 72 sleep_7_5 4; metrics_of 0 sleep_7_5 4; metrics_of 105 sleep_6 5])))).
Proof.
  apply (X12_failed_counts_error_keys strict_advisor (fun _ => a_time) a_time
           [metrics_of 72 sleep_7_5 4; metrics_of 0 sleep_7_5 4; metrics_of 105 sleep_6 5]).
  intros metrics e _. apply strict_advisor_raises_Exceptions.
Defined.

(** X13.  With the [FallbackAdvisor] a batch of any length is answered, and
    no item of it fails: [failed] is 0 and [successful] is the number of
    items. *)
Theorem X13_fallback_batch_never_fails :
  ∀ clock now (metrics_list : list api_server.HealthMetrics),
    ∃ response : dict,
      api_server.batch_recommendations fallback_advisor clock now metrics_list =
        Ok response ∧
      response !! "total_requests" = Some (VInt (Z.of_nat (length metrics_list))) ∧
      response !! "successful" = Some (VInt (Z.of_nat (length metrics_list))) ∧
      response !! "failed" = Some (VInt 0).
Proof.
  intros clock now metrics_list.
  destruct (batch_loop_total fallback_advisor clock metrics_list) with (i := 0%nat)
    (acc := @nil dict) as [results Hres].
  { intros metrics e _ H. discriminate H. }
  destruct (batch_loop_counts fallback_advisor clock metrics_list _ _ _ Hres) as [Hf Hs].
  rewrite (filter_none _ _ fallback_advisor_never_flagged) in Hf.
  rewrite filter_all in Hs by (intros x; rewrite fallback_advisor_never_flagged; reflexivity).
  unfold api_server.batch_recommendations. rewrite Hres. eexists. split; [reflexivity |].
  fold (failed results). fold (successful results). rewrite Hf, Hs.
  repeat split; reflexivity.
Qed.

(** X14.  The isolation of failures in a batch stops at [Exception]: when
    the call of one item raises an exception that is not an [Exception], the
    whole batch raises it, and the entries of the items before it are lost. *)
Theorem X14_batch_aborted_by_non_Exception :
  ∀ advisor clock now (before after : list api_server.HealthMetrics) metrics e,
    (∀ m e', m ∈ before → call advisor m = Raise e' → is_Exception e' = true) →
    call advisor metrics = Raise e → is_Exception e = false →
    api_server.batch_recommendations advisor clock now (before ++ metrics :: after) =
    Raise e.
Proof.
  intros * Hb Hm He. unfold api_server.batch_recommendations.
  rewrite (batch_loop_aborted advisor clock before after metrics e Hb Hm He). reflexivity.
Qed.

Lemma interruptible_raises (metrics : api_server.HealthMetrics) (e : exn) :
  0 < api_server.heart_rate metrics → call interruptible metrics = Raise e →
  is_Exception e = true.
Proof.
  unfold call, interruptible. intros H.
  destruct (Z.leb_spec (api_server.heart_rate metrics) 0); [lia | discriminate].
Qed.

(** X14 at work: a batch of three, the advisor interrupted on the second item. *)
Lemma X14_witness :
  api_server.batch_recommendations interruptible (fun _ => a_time) a_time
    ([metrics_of 72 sleep_7_5 4] ++ metrics_of 0 sleep_7_5 4 :: [metrics_of 105 sleep_6 5]) =
  Raise KeyboardInterrupt.
Proof.
  apply (X14_batch_aborted_by_non_Exception interruptible (fun _ => a_time) a_time
           [metrics_of 72 sleep_7_5 4] [metrics_of 105 sleep_6 5] (metrics_of 0 sleep_7_5 4)
           KeyboardInterrupt).
  - intros m e' Hm. each_member Hm. apply interruptible_raises. reflexivity.
  - reflexivity.
  - reflexivity.
Defined.

(** ** The history *)

Section History.

Import api_server.

Lemma saves_cons (request : save_request) (requests : list save_request) (h : list dict) :
  saves (request :: requests) h = saves requests (h ++ [entry_of (length h) request]).
Proof. destruct request as [[now metrics] recommendation]. reflexivity. Qed.

(** Saving appends: the entries already stored stay as they are, and each
    request adds the entry numbered by its position. *)
Lemma saves_spec (requests : list save_request) :
  ∀ h, saves requests h = (h ++ imap (fun i => entry_of (length h + i)) requests)%list.
Proof.
  induction requests as [| request requests IH]; intros h.
  - cbn. rewrite app_nil_r. reflexivity.
  - rewrite saves_cons, IH. cbn [imap]. rewrite <- app_assoc. cbn [app].
    rewrite Nat.add_0_r. do 2 f_equal.
    apply imap_ext. intros i x _. cbn. rewrite length_app. cbn. f_equal. lia.
Qed.

Lemma saves_from_empty (requests : list save_request) :
  saves requests [] = imap entry_of requests.
Proof. rewrite saves_spec. reflexivity. Qed.

Lemma saves_length (requests : list save_request) :
  length (saves requests []) = length requests.
Proof. rewrite saves_from_empty. apply length_imap. Qed.

Lemma user_id_is_entry (u : string) (i : nat) (now : datetime) (metrics : HealthMetrics)
    (recommendation : dict) :
  user_id_is u (entry_of i (now, metrics, recommendation)) =
  String.eqb (user_or_anonymous metrics) u.
Proof. reflexivity. Qed.

Lemma saves_lookup (requests : list save_request) (i : nat) (request : save_request) :
  requests !! i = Some request → saves requests [] !! i = Some (entry_of i request).
Proof.
  intros H. rewrite saves_from_empty. apply list_lookup_imap_Some. eauto.
Qed.

Lemma truthy_nonempty (u : string) : u ≠ "" → truthy_str (Some u) = true.
Proof. destruct u; [contradiction | reflexivity]. Qed.

End History.

(** X15.  Starting from an empty history, the entry stored for the request
    at position [i] (from 0) stays at that position with the [id] [i + 1],
    which is the [entry_id] its response reported; it holds the metrics and
    the recommendation of that request, under the request's user id or, when
    that is absent or empty, under "anonymous". *)
Theorem X15_history_ids_follow_positions :
  ∀ (requests : list save_request) (i : nat) now metrics (recommendation : dict),
    requests !! i = Some (now, metrics, recommendation) →
    ∃ entry : dict,
      saves requests [] !! i = Some entry ∧
      entry !! "id" = Some (VInt (Z.of_nat i + 1)) ∧
      (api_server.save_to_history now (saves (take i requests) []) metrics
         recommendation).1 !! "entry_id" = Some (VInt (Z.of_nat i + 1)) ∧
      entry !! "user_id" = Some (VStr (api_server.user_or_anonymous metrics)) ∧
      entry !! "metrics" = Some (VDict (api_server.metrics_dict metrics)) ∧
      entry !! "recommendation" = Some (VDict recommendation).
Proof.
  intros * H. exists (entry_of i (now, metrics, recommendation)).
  split; [apply saves_lookup, H |].
  split; [reflexivity |]. split; [| repeat split; reflexivity].
  unfold api_server.save_to_history. cbn [fst].
  rewrite saves_length, length_take.
  apply lookup_lt_Some in H.
  rewrite Nat.min_l by (apply Nat.lt_le_incl; exact H). reflexivity.
Qed.

(** X15 at work: the second of two requests. *)
Lemma X15_witness :
  ∃ entry : dict,
    saves sample_requests [] !! 1%nat = Some entry ∧
    entry !! "id" = Some (VInt (Z.of_nat 1 + 1)) ∧
    (api_server.save_to_history a_time (saves (take 1 sample_requests) []) anonymous_metrics
       (FallbackAdvisor.analyze_health_status 90 sleep_6 5 None)).1 !! "entry_id" =
      Some (VInt (Z.of_nat 1 + 1)) ∧
    entry !! "user_id" = Some (VStr (api_server.user_or_anonymous anonymous_metrics)) ∧
    entry !! "metrics" = Some (VDict (api_server.metrics_dict anonymous_metrics)) ∧
    entry !! "recommendation" =
      Some (VDict (FallbackAdvisor.analyze_health_status 90 sleep_6 5 None)).
Proof.
  apply (X15_history_ids_follow_positions sample_requests 1 a_time anonymous_metrics
           (FallbackAdvisor.analyze_health_status 90 sleep_6 5 None)).
  reflexivity.
Defined.

(** X16.  [get_history] without a user id lists the whole history and
    reports its size, one entry per request saved; an empty user id is no
    filter and gives the same answer. *)
Theorem X16_history_listing_is_complete :
  ∀ requests : list save_request,
    api_server.get_history (saves requests []) None !! "total_entries" =
      Some (VInt (Z.of_nat (length requests))) ∧
    api_server.get_history (saves requests []) None !! "entries" =
      Some (VList (VDict <$> saves requests [])) ∧
    length (saves requests []) = length requests ∧
    api_server.get_history (saves requests []) (Some "") =
      api_server.get_history (saves requests []) None.
Proof.
  intros. pose proof (saves_length requests) as Hl.
  split; [| split; [reflexivity | split; [exact Hl | reflexivity]]].
  unfold api_server.get_history. cbn [truthy_str]. rewrite Hl. reflexivity.
Qed.

(** X17.  [get_history] with a user id lists exactly the entries saved for
    that user; the entries of requests saved without a user id, or with an
    empty one, are listed under "anonymous", together with those of a user
    whose id is that word. *)
Theorem X17_history_filtered_by_user :
  ∀ (requests : list save_request) (user_id : string),
    user_id ≠ "" →
    ∃ user_history : list dict,
      api_server.get_history (saves requests []) (Some user_id) =
        dict_of_pairs [("user_id", VStr user_id);
                       ("entries", VList (VDict <$> user_history))] ∧
      ∀ entry : dict,
        entry ∈ user_history ↔
        ∃ (i : nat) now metrics (recommendation : dict),
          requests !! i = Some (now, metrics, recommendation) ∧
          saves requests [] !! i = Some entry ∧
          api_server.user_or_anonymous metrics = user_id.
Proof.
  intros requests u Hu.
  exists (List.filter (api_server.user_id_is u) (saves requests [])).
  split.
  { unfold api_server.get_history. rewrite (truthy_nonempty u Hu). reflexivity. }
  intros entry. rewrite list_elem_of_In, filter_In, <- list_elem_of_In, list_elem_of_lookup.
  split.
  - intros [[i Hi] Hf]. pose proof Hi as Hi'.
    rewrite saves_from_empty in Hi'.
    apply list_lookup_imap_Some in Hi' as ([[now metrics] rec] & Hr & ->).
    rewrite user_id_is_entry in Hf. apply String.eqb_eq in Hf.
    exists i, now, metrics, rec. auto.
  - intros (i & now & metrics & rec & Hr & Hi & Hf).
    split; [exists i; exact Hi |].
    rewrite (saves_lookup _ _ _ Hr) in Hi. apply (inj Some) in Hi. subst entry.
    rewrite user_id_is_entry. apply String.eqb_eq. exact Hf.
Qed.

(** X17 at work: the entries listed under the word anonymous. *)
Lemma X17_witness :
  ∃ user_history : list dict,
    api_server.get_history (saves sample_requests []) (Some "anonymous") =
      dict_of_pairs [("user_id", VStr "anonymous");
                     ("entries", VList (VDict <$> user_history))] ∧
    ∀ entry : dict,
      entry ∈ user_history ↔
      ∃ (i : nat) now metrics (recommendation : dict),
        sample_requests !! i = Some (now, metrics, recommendation) ∧
        saves sample_requests [] !! i = Some entry ∧
        api_server.user_or_anonymous metrics = "anonymous".
Proof.
  apply (X17_history_filtered_by_user sample_requests "anonymous"). discriminate.
Defined.
